(** * IndraCast (WeatherSync): ensemble aggregation, advisories and alerts

    A shallow embedding of the data pipeline of [class WeatherApp]
    (the application script) and of the tables of [config.js].

    JavaScript numbers are idealised as exact rationals ([Qc], rationals in
    lowest terms, so that Leibniz equality is numeric equality), except
    where a property depends on how the engine rounds: the averaging of
    [createEnsembleWeather] is also embedded in double precision, in
    [Binary64], and its rounding and its dependence on the order of the
    records are stated there.  A property that holds a number in a well-formed payload is a
    [jsnum]: a finite number, [NaN], [undefined] (the property is absent)
    or [null] (JSON can hold it; it converts to the number 0).  A
    property that holds a string is an [option string], [None] being
    [undefined].
    Exceptions ([TypeError] on reading a property of [undefined]) are the
    [Thrown] case of [outcome]. *)

From Stdlib Require Import ZArith QArith Qcanon Qround List String Ascii Bool.
From Stdlib Require Import Lia Lqa Morphisms.
From Stdlib Require Import Permutation Sorted.
From Stdlib Require Import Floats.SpecFloat.
Import ListNotations.

Local Open Scope string_scope.
Local Open Scope list_scope.
Local Open Scope Z_scope.
Local Open Scope Qc_scope.

Set Implicit Arguments.

(* ================================================================== *)
(** ** JavaScript values of the payloads *)

Inductive jsnum : Type :=
| Num (q : Qc)
| NaN
| Undefined
| Null.

Definition Qc_eqb (a b : Qc) : bool :=
  if Qc_eq_dec a b then true else false.

Definition Qc_ltb (a b : Qc) : bool :=
  match a ?= b with Lt => true | _ => false end.

Definition Qc_leb (a b : Qc) : bool :=
  match a ?= b with Gt => false | _ => true end.

(** [ofZ z] is the number literal [z]; [ofDec n d] the literal [n/d]. *)
Definition ofZ (z : Z) : Qc := Q2Qc (inject_Z z).
Definition ofDec (n : Z) (d : positive) : Qc := Q2Qc (n # d).

(** [ToNumber]: [undefined] converts to [NaN] and [null] to 0; [None]
    stands for [NaN]. *)
Definition toNumber (v : jsnum) : option Qc :=
  match v with
  | Num q => Some q
  | Null => Some 0
  | NaN | Undefined => None
  end.

(** Truthiness of a number-valued property: [0], [NaN], [undefined] and
    [null] are falsy. *)
Definition truthy (v : jsnum) : bool :=
  match v with
  | Num q => negb (Qc_eqb q 0)
  | NaN | Undefined | Null => false
  end.

(** [v || 0] as a value. *)
Definition orNum0 (v : jsnum) : jsnum :=
  if truthy v then v else Num 0.

(** [v || 0] where a number is needed: it always is one. *)
Definition orZero (v : jsnum) : Qc :=
  match orNum0 v with
  | Num q => q
  | NaN | Undefined | Null => 0
  end.

(** [v * c] and [v / c] for a non-zero number literal [c]: the operand
    is converted with [ToNumber], and [NaN] is absorbing. *)
Definition jsmul (v : jsnum) (c : Qc) : jsnum :=
  match toNumber v with
  | Some q => Num (q * c)
  | None => NaN
  end.

Definition jsdiv (v : jsnum) (c : Qc) : jsnum :=
  match toNumber v with
  | Some q => Num (q / c)
  | None => NaN
  end.

(** [v > c] and [v >= c], [v < c], [v <= c]: the operand is converted
    with [ToNumber]; every comparison with [NaN] is false. *)
Definition jsgt (v : jsnum) (c : Qc) : bool :=
  match toNumber v with Some q => Qc_ltb c q | None => false end.

Definition jsge (v : jsnum) (c : Qc) : bool :=
  match toNumber v with Some q => Qc_leb c q | None => false end.

Definition jslt (v : jsnum) (c : Qc) : bool :=
  match toNumber v with Some q => Qc_ltb q c | None => false end.

Definition jsle (v : jsnum) (c : Qc) : bool :=
  match toNumber v with Some q => Qc_leb q c | None => false end.

(** [Math.floor]. *)
Definition MathFloor (x : Qc) : Z := Qfloor (this x).

(** [Math.round]: the nearest integer, a tie going towards +infinity. *)
Definition MathRound (x : Qc) : Z := MathFloor (x + ofDec 1 2).

(** [s || t] on string-valued properties: [undefined] and the empty
    string are falsy. *)
Definition strTruthy (s : option string) : bool :=
  match s with
  | Some EmptyString | None => false
  | Some _ => true
  end.

Definition strOr (s t : option string) : option string :=
  if strTruthy s then s else t.

(** [String.prototype.toLowerCase] on ASCII text. *)
Definition lowerAscii (c : ascii) : ascii :=
  let n := nat_of_ascii c in
  if (65 <=? n)%nat && (n <=? 90)%nat then ascii_of_nat (n + 32) else c.

Fixpoint toLowerCase (s : string) : string :=
  match s with
  | EmptyString => EmptyString
  | String c r => String (lowerAscii c) (toLowerCase r)
  end.

(** Exceptions. *)
Inductive outcome (A : Type) : Type :=
| Returned (a : A)
| Thrown (error : string).

Arguments Returned {A} a.
Arguments Thrown {A} error.

Definition obind {A B} (m : outcome A) (k : A -> outcome B) : outcome B :=
  match m with
  | Returned a => k a
  | Thrown e => Thrown e
  end.

Notation "x <- m ;; k" := (obind m (fun x => k))
  (at level 61, m at next level, right associativity).

(** [o.p] where [o] may be [undefined]. *)
Definition prop_of {A} (o : option A) : outcome A :=
  match o with
  | Some a => Returned a
  | None => Thrown "TypeError: Cannot read properties of undefined"
  end.

(** [array[i]]: [undefined] out of range. *)
Definition index (a : list jsnum) (i : nat) : jsnum := nth i a Undefined.

(** Result of [Promise.allSettled] for one promise. *)
Inductive settled (A : Type) : Type :=
| Fulfilled (value : A)
| Rejected (reason : string).

Arguments Fulfilled {A} value.
Arguments Rejected {A} reason.

Definition isFulfilled {A} (r : settled A) : bool :=
  match r with Fulfilled _ => true | Rejected _ => false end.

(* ================================================================== *)
(** ** Normalized weather records and the ensemble *)

(** The object literal built by the three normalizers and by
    [createEnsembleWeather].  A normalized record has [source] and
    [timestamp] and no [sources]; the ensemble has [sources] and neither
    [source] nor [timestamp]. *)
Record Weather : Type := mkWeather {
  source : option string;
  sources : option (list (option string));
  temperature : jsnum;
  feelsLike : jsnum;
  humidity : jsnum;
  pressure : jsnum;
  windSpeed : jsnum;
  windDirection : jsnum;
  visibility : jsnum;
  uvIndex : jsnum;
  cloudCover : jsnum;
  precipitationChance : jsnum;
  description : option string;
  icon : option string;
  timestamp : jsnum
}.

(** The ten running sums of [createEnsembleWeather]. *)
Record Sums : Type := mkSums {
  s_temperature : Qc;
  s_feelsLike : Qc;
  s_humidity : Qc;
  s_pressure : Qc;
  s_windSpeed : Qc;
  s_windDirection : Qc;
  s_visibility : Qc;
  s_uvIndex : Qc;
  s_cloudCover : Qc;
  s_precipitationChance : Qc
}.

Definition zeroSums : Sums := mkSums 0 0 0 0 0 0 0 0 0 0.

(** Body of [sources.forEach(source => { ensemble.x += source.x || 0 })]. *)
Definition accumulate (e : Sums) (s : Weather) : Sums :=
  mkSums (s_temperature e + orZero (temperature s))
         (s_feelsLike e + orZero (feelsLike s))
         (s_humidity e + orZero (humidity s))
         (s_pressure e + orZero (pressure s))
         (s_windSpeed e + orZero (windSpeed s))
         (s_windDirection e + orZero (windDirection s))
         (s_visibility e + orZero (visibility s))
         (s_uvIndex e + orZero (uvIndex s))
         (s_cloudCover e + orZero (cloudCover s))
         (s_precipitationChance e + orZero (precipitationChance s)).

(** [Math.round((total / numSources) * 10) / 10], in exact arithmetic;
    [Binary64.average] is the same in the arithmetic of the engine. *)
Definition average (total : Qc) (numSources : nat) : Qc :=
  ofZ (MathRound ((total / ofZ (Z.of_nat numSources)) * ofZ 10)) / ofZ 10.

(** The object [ensemble] once the sums are averaged; [s0] is
    [sources[0]]. *)
Definition ensembleOf (srcs : list Weather) (s0 : Weather) : Weather :=
  let numSources := List.length srcs in
  let e := fold_left accumulate srcs zeroSums in
  {| source := None;
     sources := Some (map source srcs);
     temperature := Num (average (s_temperature e) numSources);
     feelsLike := Num (average (s_feelsLike e) numSources);
     humidity := Num (average (s_humidity e) numSources);
     pressure := Num (average (s_pressure e) numSources);
     windSpeed := Num (average (s_windSpeed e) numSources);
     windDirection := Num (average (s_windDirection e) numSources);
     visibility := Num (average (s_visibility e) numSources);
     uvIndex := Num (average (s_uvIndex e) numSources);
     cloudCover := Num (average (s_cloudCover e) numSources);
     precipitationChance :=
       Num (average (s_precipitationChance e) numSources);
     description := description s0;
     icon := icon s0;
     timestamp := Undefined |}.

(** [createEnsembleWeather(sources)]; [None] is [null]. *)
Definition createEnsembleWeather (srcs : list Weather) : option Weather :=
  match srcs with
  | [] => None
  | [s] => Some s
  | s0 :: _ => Some (ensembleOf srcs s0)
  end.

(** The numeric fields, as an enumeration. *)
Inductive NumField : Type :=
| Temperature | FeelsLike | Humidity | Pressure | WindSpeed
| WindDirection | Visibility | UvIndex | CloudCover | PrecipitationChance.

Definition field (f : NumField) (w : Weather) : jsnum :=
  match f with
  | Temperature => temperature w
  | FeelsLike => feelsLike w
  | Humidity => humidity w
  | Pressure => pressure w
  | WindSpeed => windSpeed w
  | WindDirection => windDirection w
  | Visibility => visibility w
  | UvIndex => uvIndex w
  | CloudCover => cloudCover w
  | PrecipitationChance => precipitationChance w
  end.

Definition sumField (f : NumField) (e : Sums) : Qc :=
  match f with
  | Temperature => s_temperature e
  | FeelsLike => s_feelsLike e
  | Humidity => s_humidity e
  | Pressure => s_pressure e
  | WindSpeed => s_windSpeed e
  | WindDirection => s_windDirection e
  | Visibility => s_visibility e
  | UvIndex => s_uvIndex e
  | CloudCover => s_cloudCover e
  | PrecipitationChance => s_precipitationChance e
  end.

(** *** The arithmetic the specification talks about *)

Definition total (l : list Qc) : Qc := fold_right Qcplus 0 l.

(** Arithmetic mean of a non-empty list. *)
Definition mean (l : list Qc) : Qc := total l / ofZ (Z.of_nat (List.length l)).

(** What a record contributes to the mean of a field. *)
Definition contribution (f : NumField) (s : Weather) : Qc := orZero (field f s).

(** Rounding to one decimal, a tie going towards +infinity. *)
Definition roundHalfUp1 (x : Qc) : Qc :=
  ofZ (MathFloor (x * ofZ 10 + ofDec 1 2)) / ofZ 10.

(** Rounding to one decimal, a tie going away from zero, as the
    specification words it. *)
Definition roundHalfAwayFromZero1 (x : Qc) : Qc :=
  if Qc_ltb x 0
  then - (ofZ (MathFloor ((- x) * ofZ 10 + ofDec 1 2)) / ofZ 10)
  else ofZ (MathFloor (x * ofZ 10 + ofDec 1 2)) / ofZ 10.

(* ================================================================== *)
(** ** The ensemble in double precision *)

(** [createEnsembleWeather] with the numbers of the engine: IEEE 754
    binary64 values ([spec_float] with 53 bits of precision and the
    exponent range of doubles), every sum, quotient and product rounded
    to the nearest, ties to even. *)
Module Binary64.

Definition prec : Z := 53.
Definition emax : Z := 1024.

Definition add (x y : spec_float) : spec_float := SFadd prec emax x y.
Definition mul (x y : spec_float) : spec_float := SFmul prec emax x y.
Definition div (x y : spec_float) : spec_float := SFdiv prec emax x y.

(** The number an integer denotes (a literal, a length). *)
Definition ofZ (z : Z) : spec_float := binary_normalize prec emax z 0 false.

(** The number the decimal literal [n/d] denotes: the nearest double. *)
Definition ofDec (n : Z) (d : positive) : spec_float :=
  div (ofZ n) (ofZ (Zpos d)).

Definition zero : spec_float := S754_zero false.

(** [Math.round]: the integer nearest to [x], the one towards +infinity
    when two are equally near; [x] itself when it is an integer, a zero,
    infinite or [NaN]; a result of zero keeps the sign of [x].  The
    integer is [floor(x + 1/2)], computed exactly on the fraction
    [m * 2^e]. *)
Definition MathRound (x : spec_float) : spec_float :=
  match x with
  | S754_finite s m e =>
      if (0 <=? e)%Z then x
      else
        let k := ((2 * cond_Zopp s (Zpos m) + 2 ^ (- e)) / 2 ^ (1 - e))%Z in
        if (k =? 0)%Z then S754_zero s else ofZ k
  | S754_zero _ | S754_infinity _ | S754_nan => x
  end.

(** What a numeric property of a record can hold. *)
Inductive value : Type :=
| Number (x : spec_float)
| Undefined
| Null.

(** Truthiness: zeros, [NaN], [undefined] and [null] are falsy. *)
Definition truthy (v : value) : bool :=
  match v with
  | Number (S754_finite _ _ _) | Number (S754_infinity _) => true
  | Number (S754_zero _) | Number S754_nan | Undefined | Null => false
  end.

(** [v || 0]. *)
Definition orZero (v : value) : spec_float :=
  match v with
  | Number x => if truthy v then x else zero
  | Undefined | Null => zero
  end.

Record Weather : Type := mkWeather {
  source : option string;
  sources : option (list (option string));
  temperature : value;
  feelsLike : value;
  humidity : value;
  pressure : value;
  windSpeed : value;
  windDirection : value;
  visibility : value;
  uvIndex : value;
  cloudCover : value;
  precipitationChance : value;
  description : option string;
  icon : option string;
  timestamp : value
}.

(** The ten running sums. *)
Record Sums : Type := mkSums {
  s_temperature : spec_float;
  s_feelsLike : spec_float;
  s_humidity : spec_float;
  s_pressure : spec_float;
  s_windSpeed : spec_float;
  s_windDirection : spec_float;
  s_visibility : spec_float;
  s_uvIndex : spec_float;
  s_cloudCover : spec_float;
  s_precipitationChance : spec_float
}.

Definition zeroSums : Sums :=
  mkSums zero zero zero zero zero zero zero zero zero zero.

(** Body of [sources.forEach(source => { ensemble.x += source.x || 0 })]. *)
Definition accumulate (e : Sums) (s : Weather) : Sums :=
  mkSums (add (s_temperature e) (orZero (temperature s)))
         (add (s_feelsLike e) (orZero (feelsLike s)))
         (add (s_humidity e) (orZero (humidity s)))
         (add (s_pressure e) (orZero (pressure s)))
         (add (s_windSpeed e) (orZero (windSpeed s)))
         (add (s_windDirection e) (orZero (windDirection s)))
         (add (s_visibility e) (orZero (visibility s)))
         (add (s_uvIndex e) (orZero (uvIndex s)))
         (add (s_cloudCover e) (orZero (cloudCover s)))
         (add (s_precipitationChance e) (orZero (precipitationChance s))).

(** [Math.round((total / numSources) * 10) / 10]. *)
Definition average (total : spec_float) (numSources : nat) : spec_float :=
  div (MathRound (mul (div total (ofZ (Z.of_nat numSources))) (ofZ 10)))
      (ofZ 10).

(** The object [ensemble] once the sums are averaged; [s0] is
    [sources[0]]. *)
Definition ensembleOf (srcs : list Weather) (s0 : Weather) : Weather :=
  let numSources := List.length srcs in
  let e := fold_left accumulate srcs zeroSums in
  {| source := None;
     sources := Some (map source srcs);
     temperature := Number (average (s_temperature e) numSources);
     feelsLike := Number (average (s_feelsLike e) numSources);
     humidity := Number (average (s_humidity e) numSources);
     pressure := Number (average (s_pressure e) numSources);
     windSpeed := Number (average (s_windSpeed e) numSources);
     windDirection := Number (average (s_windDirection e) numSources);
     visibility := Number (average (s_visibility e) numSources);
     uvIndex := Number (average (s_uvIndex e) numSources);
     cloudCover := Number (average (s_cloudCover e) numSources);
     precipitationChance :=
       Number (average (s_precipitationChance e) numSources);
     description := description s0;
     icon := icon s0;
     timestamp := Undefined |}.

(** [createEnsembleWeather(sources)]; [None] is [null]. *)
Definition createEnsembleWeather (srcs : list Weather) : option Weather :=
  match srcs with
  | [] => None
  | [s] => Some s
  | s0 :: _ => Some (ensembleOf srcs s0)
  end.

Definition field (f : NumField) (w : Weather) : value :=
  match f with
  | Temperature => temperature w
  | FeelsLike => feelsLike w
  | Humidity => humidity w
  | Pressure => pressure w
  | WindSpeed => windSpeed w
  | WindDirection => windDirection w
  | Visibility => visibility w
  | UvIndex => uvIndex w
  | CloudCover => cloudCover w
  | PrecipitationChance => precipitationChance w
  end.

Definition sumField (f : NumField) (e : Sums) : spec_float :=
  match f with
  | Temperature => s_temperature e
  | FeelsLike => s_feelsLike e
  | Humidity => s_humidity e
  | Pressure => s_pressure e
  | WindSpeed => s_windSpeed e
  | WindDirection => s_windDirection e
  | Visibility => s_visibility e
  | UvIndex => s_uvIndex e
  | CloudCover => s_cloudCover e
  | PrecipitationChance => s_precipitationChance e
  end.

(** What a record contributes to the sum of a field. *)
Definition contribution (f : NumField) (s : Weather) : spec_float :=
  orZero (field f s).

(** The sum of the numbers as the loop adds them, from left to right,
    starting from 0. *)
Definition total (l : list spec_float) : spec_float := fold_left add l zero.

(** The arithmetic mean as computed: that sum divided by the count. *)
Definition mean (l : list spec_float) : spec_float :=
  div (total l) (ofZ (Z.of_nat (List.length l))).

(** The power of two [2^e] as a fraction. *)
Definition pow2 (e : Z) : Q :=
  match e with
  | Z0 => 1%Q
  | Zpos p => inject_Z (Zpos (Pos.pow 2 p))
  | Zneg p => (1 # Pos.pow 2 p)%Q
  end.

(** The exact value of a finite number, [(-1)^s * m * 2^e]. *)
Definition exact (x : spec_float) : option Qc :=
  match x with
  | S754_zero _ => Some (Q2Qc 0)
  | S754_finite s m e =>
      Some (Q2Qc (inject_Z (cond_Zopp s (Zpos m)) * pow2 e))
  | S754_infinity _ | S754_nan => None
  end.

(** A record with only a temperature. *)
Definition reading (t : spec_float) : Weather :=
  mkWeather None None (Number t) (Number zero) (Number zero) (Number zero)
            (Number zero) (Number zero) (Number zero) (Number zero)
            (Number zero) (Number zero) None None Undefined.

End Binary64.

(* ================================================================== *)
(** ** Tables of [config.js] and of the condition-code helpers *)

(** [CONFIG.WEATHER_CONDITIONS]: condition code to (icon, description). *)
Definition WEATHER_CONDITIONS : list (Z * (string * string)) := [
  (200, ("⛈️", "Thunderstorm with light rain"));
  (201, ("⛈️", "Thunderstorm with rain"));
  (202, ("⛈️", "Thunderstorm with heavy rain"));
  (210, ("🌩️", "Light thunderstorm"));
  (211, ("⛈️", "Thunderstorm"));
  (212, ("⛈️", "Heavy thunderstorm"));
  (221, ("⛈️", "Ragged thunderstorm"));
  (230, ("⛈️", "Thunderstorm with light drizzle"));
  (231, ("⛈️", "Thunderstorm with drizzle"));
  (232, ("⛈️", "Thunderstorm with heavy drizzle"));
  (300, ("🌦️", "Light intensity drizzle"));
  (301, ("🌦️", "Drizzle"));
  (302, ("🌦️", "Heavy intensity drizzle"));
  (310, ("🌦️", "Light intensity drizzle rain"));
  (311, ("🌦️", "Drizzle rain"));
  (312, ("🌦️", "Heavy intensity drizzle rain"));
  (313, ("🌦️", "Shower rain and drizzle"));
  (314, ("🌦️", "Heavy shower rain and drizzle"));
  (321, ("🌦️", "Shower drizzle"));
  (500, ("🌧️", "Light rain"));
  (501, ("🌧️", "Moderate rain"));
  (502, ("🌧️", "Heavy intensity rain"));
  (503, ("🌧️", "Very heavy rain"));
  (504, ("🌧️", "Extreme rain"));
  (511, ("🌨️", "Freezing rain"));
  (520, ("🌦️", "Light intensity shower rain"));
  (521, ("🌦️", "Shower rain"));
  (522, ("🌦️", "Heavy intensity shower rain"));
  (531, ("🌦️", "Ragged shower rain"));
  (600, ("🌨️", "Light snow"));
  (601, ("🌨️", "Snow"));
  (602, ("❄️", "Heavy snow"));
  (611, ("🌨️", "Sleet"));
  (612, ("🌨️", "Light shower sleet"));
  (613, ("🌨️", "Shower sleet"));
  (615, ("🌨️", "Light rain and snow"));
  (616, ("🌨️", "Rain and snow"));
  (620, ("🌨️", "Light shower snow"));
  (621, ("🌨️", "Shower snow"));
  (622, ("❄️", "Heavy shower snow"));
  (701, ("🌫️", "Mist"));
  (711, ("💨", "Smoke"));
  (721, ("🌫️", "Haze"));
  (731, ("💨", "Sand/dust whirls"));
  (741, ("🌫️", "Fog"));
  (751, ("💨", "Sand"));
  (761, ("💨", "Dust"));
  (762, ("🌋", "Volcanic ash"));
  (771, ("💨", "Squalls"));
  (781, ("🌪️", "Tornado"));
  (800, ("☀️", "Clear sky"));
  (801, ("🌤️", "Few clouds"));
  (802, ("⛅", "Scattered clouds"));
  (803, ("🌥️", "Broken clouds"));
  (804, ("☁️", "Overcast clouds"))
]%Z.

(** The tables local to [getOpenMeteoDescription] and [getOpenMeteoIcon]. *)
Definition openMeteoDescriptions : list (Z * string) := [
  (0, "Clear sky");
  (1, "Mainly clear");
  (2, "Partly cloudy");
  (3, "Overcast");
  (45, "Fog");
  (48, "Depositing rime fog");
  (51, "Light drizzle");
  (53, "Moderate drizzle");
  (55, "Dense drizzle");
  (61, "Light rain");
  (63, "Moderate rain");
  (65, "Heavy rain");
  (71, "Light snow");
  (73, "Moderate snow");
  (75, "Heavy snow");
  (95, "Thunderstorm");
  (96, "Thunderstorm with light hail");
  (99, "Thunderstorm with heavy hail")
]%Z.

Definition openMeteoIcons : list (Z * string) := [
  (0, "‚òÄÔ∏è");
  (1, "üå§Ô∏è");
  (2, "‚õÖ");
  (3, "‚òÅÔ∏è");
  (45, "üå´Ô∏è");
  (48, "üå´Ô∏è");
  (51, "üå¶Ô∏è");
  (53, "üå¶Ô∏è");
  (55, "üå¶Ô∏è");
  (61, "üåßÔ∏è");
  (63, "üåßÔ∏è");
  (65, "üåßÔ∏è");
  (71, "üå®Ô∏è");
  (73, "üå®Ô∏è");
  (75, "‚ùÑÔ∏è");
  (95, "‚õàÔ∏è");
  (96, "‚õàÔ∏è");
  (99, "‚õàÔ∏è")
]%Z.

(** The property key a number selects in a table keyed by integers. *)
Definition asKey (code : jsnum) : option Z :=
  match code with
  | Num q => if Pos.eqb (Qden (this q)) 1 then Some (Qnum (this q)) else None
  | NaN | Undefined | Null => None
  end.

Fixpoint lookup {A} (table : list (Z * A)) (k : Z) : option A :=
  match table with
  | [] => None
  | (k', a) :: rest => if Z.eqb k' k then Some a else lookup rest k
  end.

(** [table[code]]. *)
Definition at_code {A} (table : list (Z * A)) (code : jsnum) : option A :=
  match asKey code with
  | Some k => lookup table k
  | None => None
  end.

(** [getWeatherIcon(code)]: [CONFIG.WEATHER_CONDITIONS[code]?.icon || '...']. *)
Definition getWeatherIcon (code : jsnum) : string :=
  match at_code WEATHER_CONDITIONS code with
  | Some (icon, _) => icon
  | None => "‚õÖ"
  end.

(** [getOpenMeteoDescription(code)]. *)
Definition getOpenMeteoDescription (code : jsnum) : string :=
  match at_code openMeteoDescriptions code with
  | Some d => d
  | None => "Unknown"
  end.

(** [getOpenMeteoIcon(code)]. *)
Definition getOpenMeteoIcon (code : jsnum) : string :=
  match at_code openMeteoIcons code with
  | Some i => i
  | None => "‚õÖ"
  end.

(** [CONFIG.AQI_LEVELS] and the objects returned by [getAQILevel]. *)
Record AQILevel : Type := mkLevel {
  label : string;
  color : string;
  advice : string
}.

Definition AQI_LEVELS : list (Z * AQILevel) := [
  (0, mkLevel "Good" "#00e400" "Air quality is great! Perfect for outdoor activities.");
  (1, mkLevel "Fair" "#ffff00" "Air quality is acceptable for most people.");
  (2, mkLevel "Moderate" "#ff7e00" "Sensitive individuals should consider limiting outdoor activities.");
  (3, mkLevel "Poor" "#ff0000" "Everyone should limit outdoor activities.");
  (4, mkLevel "Very Poor" "#8f3f97" "Avoid outdoor activities. Keep windows closed.")
]%Z.

(** [getAQILevel(aqi)]: every comparison with [NaN] or [undefined] is
    false, so those fall through to the last level; [null] compares
    as 0. *)
Definition getAQILevel (aqi : jsnum) : AQILevel :=
  if jsle aqi (ofZ 50) then
    mkLevel "Good" "#00e400" "Air quality is great! Perfect for outdoor activities."
  else if jsle aqi (ofZ 100) then
    mkLevel "Moderate" "#ffff00" "Air quality is acceptable for most people."
  else if jsle aqi (ofZ 150) then
    mkLevel "Unhealthy for Sensitive Groups" "#ff7e00"
            "Sensitive individuals should limit outdoor activities."
  else if jsle aqi (ofZ 200) then
    mkLevel "Unhealthy" "#ff0000" "Everyone should limit outdoor activities."
  else if jsle aqi (ofZ 300) then
    mkLevel "Very Unhealthy" "#8f3f97" "Avoid outdoor activities. Keep windows closed."
  else
    mkLevel "Hazardous" "#7e0023" "Emergency conditions. Stay indoors.".

Definition MAX_OBSERVATIONS : nat := 50.

(* ================================================================== *)
(** ** Provider payloads *)

(** OpenWeatherMap, current weather ([currentData]). *)
Module OWM.
Record Main : Type := { temp : jsnum; feels_like : jsnum;
  humidity : jsnum; pressure : jsnum }.
Record Wind : Type := { speed : jsnum; deg : jsnum }.
Record Clouds : Type := { all : jsnum }.
Record Condition : Type := { description : option string; id : jsnum }.
Record Current : Type := {
  main : option Main;
  wind : option Wind;
  visibility : jsnum;
  clouds : option Clouds;
  weather : option (list Condition);
  dt : jsnum
}.
(** The value the fetch resolves to; its [forecast] is never read. *)
Record Value : Type := { current : Current }.
End OWM.

(** Weatherbit: [currentData.data[0]] and the forecast entries, which
  are handed on untouched (the properties the application reads). *)
Module WB.
Record Condition : Type := { description : option string; code : jsnum }.
Record Current : Type := {
  temp : jsnum; app_temp : jsnum; rh : jsnum; pres : jsnum;
  wind_spd : jsnum; wind_dir : jsnum; vis : jsnum; uv : jsnum;
  clouds : jsnum;
  weather : option Condition
}.
Record Entry : Type := {
  datetime : option string;
  e_temp : jsnum; max_temp : jsnum; min_temp : jsnum;
  pop : jsnum; precip : jsnum;
  e_weather : option Condition
}.
Record Value : Type := {
  current : option Current;
  daily : option (list Entry);
  hourly : option (list Entry)
}.
End WB.

(** Open-Meteo: one payload with [current], [hourly] and [daily]. *)
Module OM.
Module Current.
Record t : Type := {
  temperature_2m : jsnum; apparent_temperature : jsnum;
  relative_humidity_2m : jsnum; pressure_msl : jsnum;
  wind_speed_10m : jsnum; wind_direction_10m : jsnum;
  cloud_cover : jsnum; precipitation : jsnum; weather_code : jsnum
  }.
End Current.
Module Hourly.
Record t : Type := {
  time : option (list string);
  temperature_2m : option (list jsnum);
  apparent_temperature : option (list jsnum);
  relative_humidity_2m : option (list jsnum);
  precipitation_probability : option (list jsnum);
  weather_code : option (list jsnum);
  wind_speed_10m : option (list jsnum);
  uv_index : option (list jsnum)
  }.
End Hourly.
Module Daily.
Record t : Type := {
  time : option (list string);
  temperature_2m_max : option (list jsnum);
  temperature_2m_min : option (list jsnum);
  weather_code : option (list jsnum);
  precipitation_sum : option (list jsnum);
  wind_speed_10m_max : option (list jsnum);
  uv_index_max : option (list jsnum);
  precipitation_probability_max : option (list jsnum)
  }.
End Daily.
Record Payload : Type := {
  current : option Current.t;
  hourly : option Hourly.t;
  daily : option Daily.t
}.
Record Value : Type := { data : Payload }.
End OM.

(** Air quality: [{ source, data }], [data] from either service. *)
Module AQ.
Record Main : Type := { aqi : jsnum }.
Record Data : Type := { main : option Main; us_aqi : jsnum }.
Record Value : Type := { source : string; data : option Data }.
End AQ.

(** Alerts: a feed entry with its own properties and, for the GeoJSON
  features of the NOAA feed, a nested [properties] object. *)
Module Alert.
Record Props : Type := {
  headline : option string;
  event : option string;
  title : option string;
  description : option string;
  instruction : option string;
  summary : option string;
  severity : option string
}.
Record t : Type := { properties : option Props; own : Props }.
Record Value : Type := { source : string; alerts : list t }.
End Alert.

(** A forecast slot of [weatherData.hourly] / [weatherData.daily]. *)
Inductive Slot : Type :=
| WeatherbitEntry (e : WB.Entry)
| OpenMeteoHour (time : option string)
    (temp feels_like humidity precipitation_prob weather_code
     wind_speed uv_index : jsnum)
| OpenMeteoDay (date : option string)
    (max_temp min_temp weather_code precipitation_sum wind_speed_max
     uv_index_max precipitation_probability_max : jsnum).

(** The five settled promises of [loadWeatherData], in order. *)
Record Results : Type := {
  owmResult : settled OWM.Value;
  weatherbitResult : settled WB.Value;
  openMeteoResult : settled OM.Value;
  aqResult : settled AQ.Value;
  alertsResult : settled Alert.Value
}.

(* ================================================================== *)
(** ** The application object *)

(** [this.weatherData]. *)
Record WeatherData : Type := mkWeatherData {
  current : option Weather;
  hourly : list Slot;
  daily : list Slot;
  alerts : list Alert.t;
  airQuality : option AQ.Value
}.

Record Location : Type := {
  lat : Qc; lon : Qc; name : string; country : string
}.

(** A hyperlocal observation, as [handleObservationSubmit] builds it. *)
Record Observation : Type := {
  obs_id : Z;
  obs_type : string;
  obs_description : string;
  intensity : Z;
  obs_location : string;
  obs_timestamp : string;
  coordinates : option (Qc * Qc)
}.

(** A health tip, one constructor per message of [updateHealthTips]
    (the first interpolates the UV index). *)
Inductive Tip : Type :=
| UVTip (uvIndex : Qc)
| HighTemperatureTip
| FreezingTip
| HighHumidityTip
| LowHumidityTip
| PoorAirQualityTip
| StrongWindTip
| GreatWeatherTip.

(** An entry of the alerts card and of the alerts banner. *)
Record AlertItem : Type := mkAlertItem {
  item_title : option string;
  item_description : option string;
  item_severity : option string;
  item_severity_class : option string
}.

(** What the page shows, for the elements this development follows:
    [#aqi-value] with [#aqi-label], [#health-tips], [#alerts-card-content],
    [#alerts-banner] with [#alert-messages], and the toast.  The elements
    exist in the page. *)
Record Page : Type := mkPage {
  aqiShown : option (jsnum * option AQILevel);
  healthTips : option (list Tip);
  alertsCard : option (list AlertItem);
  bannerVisible : bool;
  alertMessages : list AlertItem;
  toasts : list (string * string)
}.

(** The application with its surroundings: the fields of [this], the
    page, the observations under the key ['weather-observations'] of
    [localStorage] ([None]: no such key), and the readings [Date.now()]
    returns (the [k]-th call reads [readings k]).  [useLocalStorage] is
    [false] while the property is [undefined]. *)
Record App : Type := mkApp {
  currentLocation : option Location;
  weatherData : WeatherData;
  isLoading : bool;
  useLocalStorage : bool;
  storedObservations : option (list Observation);
  page : Page;
  readings : nat -> Z;
  reads : nat
}.

(** A method: it may change the application and may throw. *)
Definition M (A : Type) : Type := App -> outcome A * App.

Definition ret {A} (a : A) : M A := fun app => (Returned a, app).

Definition throw {A} (e : string) : M A := fun app => (Thrown e, app).

Definition bind {A B} (m : M A) (k : A -> M B) : M B :=
  fun app =>
    match m app with
    | (Returned a, app') => k a app'
    | (Thrown e, app') => (Thrown e, app')
    end.

Notation "x <<- m ;; k" := (bind m (fun x => k))
  (at level 61, m at next level, right associativity).
Notation "m ;;; k" := (bind m (fun _ => k))
  (at level 61, right associativity).

Definition lift {A} (o : outcome A) : M A := fun app => (o, app).

Definition getApp : M App := fun app => (Returned app, app).

Definition modify (f : App -> App) : M unit := fun app => (Returned tt, f app).

(** [try { body } catch (error) { handler } finally { final }]. *)
Definition tryCatchFinally (body : M unit) (handler : string -> M unit)
    (final : M unit) : M unit :=
  fun app =>
    match body app with
    | (Returned _, app') => final app'
    | (Thrown e, app') =>
        match handler e app' with
        | (Returned _, app'') => final app''
        | (Thrown e', app'') =>
            match final app'' with
            | (Returned _, app3) => (Thrown e', app3)
            | (Thrown e3, app3) => (Thrown e3, app3)
            end
        end
    end.

Definition set_weatherData (wd : WeatherData) (app : App) : App :=
  mkApp (currentLocation app) wd (isLoading app) (useLocalStorage app)
        (storedObservations app) (page app) (readings app) (reads app).

Definition set_isLoading (b : bool) (app : App) : App :=
  mkApp (currentLocation app) (weatherData app) b (useLocalStorage app)
        (storedObservations app) (page app) (readings app) (reads app).

Definition set_useLocalStorage (b : bool) (app : App) : App :=
  mkApp (currentLocation app) (weatherData app) (isLoading app) b
        (storedObservations app) (page app) (readings app) (reads app).

Definition set_storedObservations (o : option (list Observation)) (app : App)
    : App :=
  mkApp (currentLocation app) (weatherData app) (isLoading app)
        (useLocalStorage app) o (page app) (readings app) (reads app).

Definition set_page (p : Page) (app : App) : App :=
  mkApp (currentLocation app) (weatherData app) (isLoading app)
        (useLocalStorage app) (storedObservations app) p
        (readings app) (reads app).

Definition set_current (c : option Weather) (wd : WeatherData) : WeatherData :=
  mkWeatherData c (hourly wd) (daily wd) (alerts wd) (airQuality wd).

Definition set_hourly (h : list Slot) (wd : WeatherData) : WeatherData :=
  mkWeatherData (current wd) h (daily wd) (alerts wd) (airQuality wd).

Definition set_daily (d : list Slot) (wd : WeatherData) : WeatherData :=
  mkWeatherData (current wd) (hourly wd) d (alerts wd) (airQuality wd).

Definition set_alerts (a : list Alert.t) (wd : WeatherData) : WeatherData :=
  mkWeatherData (current wd) (hourly wd) (daily wd) a (airQuality wd).

Definition set_airQuality (a : option AQ.Value) (wd : WeatherData) : WeatherData :=
  mkWeatherData (current wd) (hourly wd) (daily wd) (alerts wd) a.

Definition modifyData (f : WeatherData -> WeatherData) : M unit :=
  modify (fun app => set_weatherData (f (weatherData app)) app).

Definition modifyPage (f : Page -> Page) : M unit :=
  modify (fun app => set_page (f (page app)) app).

(** [Date.now()]: milliseconds, the next reading of the clock. *)
Definition dateNow : M Z :=
  fun app =>
    (Returned (readings app (reads app)),
     mkApp (currentLocation app) (weatherData app) (isLoading app)
           (useLocalStorage app) (storedObservations app) (page app)
           (readings app) (S (reads app))).

(** [showToast(message, type)] and [showError(message)]. *)
Definition showToast (message type : string) : M unit :=
  modifyPage (fun p =>
    mkPage (aqiShown p) (healthTips p) (alertsCard p) (bannerVisible p)
           (alertMessages p) (toasts p ++ [(message, type)])).

Definition showError (message : string) : M unit := showToast message "error".

Definition showLoading : M unit := modify (set_isLoading true).

Definition hideLoading : M unit := modify (set_isLoading false).

(* ================================================================== *)
(** ** Normalizers *)

(** [normalizeOpenWeatherMapData(data)]. *)
Definition normalizeOpenWeatherMapData (data : OWM.Current) : outcome Weather :=
  main <- prop_of (OWM.main data) ;;
  wind <- prop_of (OWM.wind data) ;;
  clouds <- prop_of (OWM.clouds data) ;;
  weather <- prop_of (OWM.weather data) ;;
  w0 <- prop_of (nth_error weather 0) ;;
  Returned {|
    source := Some "OpenWeatherMap";
    sources := None;
    temperature := OWM.temp main;
    feelsLike := OWM.feels_like main;
    humidity := OWM.humidity main;
    pressure := OWM.pressure main;
    windSpeed := jsmul (OWM.speed wind) (ofDec 36 10);
    windDirection := OWM.deg wind;
    visibility := jsdiv (OWM.visibility data) (ofZ 1000);
    uvIndex := Num 0;
    cloudCover := OWM.all clouds;
    precipitationChance := Num 0;
    description := OWM.description w0;
    icon := Some (getWeatherIcon (OWM.id w0));
    timestamp := OWM.dt data |}.

(** The record [normalizeWeatherbitData] builds when [Date.now()]
    reads [now]. *)
Definition weatherbitRecord (data : WB.Current) (weather : WB.Condition)
    (now : Z) : Weather :=
  {| source := Some "Weatherbit";
     sources := None;
     temperature := WB.temp data;
     feelsLike := WB.app_temp data;
     humidity := WB.rh data;
     pressure := WB.pres data;
     windSpeed := jsmul (WB.wind_spd data) (ofDec 36 10);
     windDirection := WB.wind_dir data;
     visibility := WB.vis data;
     uvIndex := orNum0 (WB.uv data);
     cloudCover := WB.clouds data;
     precipitationChance := Num 0;
     description := WB.description weather;
     icon := Some (getWeatherIcon (WB.code weather));
     timestamp := Num (ofZ now / ofZ 1000) |}.

(** [normalizeWeatherbitData(data)]; [data] is [currentData.data[0]]. *)
Definition normalizeWeatherbitData (data : option WB.Current) : M Weather :=
  d <<- lift (prop_of data) ;;
  weather <<- lift (prop_of (WB.weather d)) ;;
  now <<- dateNow ;;
  ret (weatherbitRecord d weather now).

(** The record [normalizeOpenMeteoData] builds when [Date.now()]
    reads [now]. *)
Definition openMeteoRecord (current : OM.Current.t) (now : Z) : Weather :=
  {| source := Some "Open-Meteo";
     sources := None;
     temperature := OM.Current.temperature_2m current;
     feelsLike := OM.Current.apparent_temperature current;
     humidity := OM.Current.relative_humidity_2m current;
     pressure := OM.Current.pressure_msl current;
     windSpeed := OM.Current.wind_speed_10m current;
     windDirection := OM.Current.wind_direction_10m current;
     visibility := Num (ofZ 10);
     uvIndex := Num 0;
     cloudCover := OM.Current.cloud_cover current;
     precipitationChance := orNum0 (OM.Current.precipitation current);
     description :=
       Some (getOpenMeteoDescription (OM.Current.weather_code current));
     icon := Some (getOpenMeteoIcon (OM.Current.weather_code current));
     timestamp := Num (ofZ now / ofZ 1000) |}.

(** [normalizeOpenMeteoData(data)]. *)
Definition normalizeOpenMeteoData (data : OM.Payload) : M Weather :=
  current <<- lift (prop_of (OM.current data)) ;;
  now <<- dateNow ;;
  ret (openMeteoRecord current now).

(* ================================================================== *)
(** ** Forecast series *)

Fixpoint mapM {A B} (f : A -> outcome B) (l : list A) : outcome (list B) :=
  match l with
  | [] => Returned []
  | a :: r => b <- f a ;; bs <- mapM f r ;; Returned (b :: bs)
  end.

(** The object pushed at index [i] by [processOpenMeteoHourly]. *)
Definition hourlySlot (hourly : OM.Hourly.t) (time : list string) (i : nat)
    : outcome Slot :=
  temperature_2m <- prop_of (OM.Hourly.temperature_2m hourly) ;;
  apparent_temperature <- prop_of (OM.Hourly.apparent_temperature hourly) ;;
  relative_humidity_2m <- prop_of (OM.Hourly.relative_humidity_2m hourly) ;;
  precipitation_probability <-
    prop_of (OM.Hourly.precipitation_probability hourly) ;;
  weather_code <- prop_of (OM.Hourly.weather_code hourly) ;;
  wind_speed_10m <- prop_of (OM.Hourly.wind_speed_10m hourly) ;;
  uv_index <- prop_of (OM.Hourly.uv_index hourly) ;;
  Returned (OpenMeteoHour (nth_error time i)
              (index temperature_2m i) (index apparent_temperature i)
              (index relative_humidity_2m i)
              (index precipitation_probability i) (index weather_code i)
              (index wind_speed_10m i) (index uv_index i)).

(** [processOpenMeteoHourly(data)]. *)
Definition processOpenMeteoHourly (data : OM.Payload) : outcome (list Slot) :=
  hourly <- prop_of (OM.hourly data) ;;
  time <- prop_of (OM.Hourly.time hourly) ;;
  mapM (hourlySlot hourly time) (seq 0 (Nat.min 24 (List.length time))).

(** The object pushed at index [i] by [processOpenMeteoDaily]. *)
Definition dailySlot (daily : OM.Daily.t) (time : list string) (i : nat)
    : outcome Slot :=
  temperature_2m_max <- prop_of (OM.Daily.temperature_2m_max daily) ;;
  temperature_2m_min <- prop_of (OM.Daily.temperature_2m_min daily) ;;
  weather_code <- prop_of (OM.Daily.weather_code daily) ;;
  precipitation_sum <- prop_of (OM.Daily.precipitation_sum daily) ;;
  wind_speed_10m_max <- prop_of (OM.Daily.wind_speed_10m_max daily) ;;
  uv_index_max <- prop_of (OM.Daily.uv_index_max daily) ;;
  precipitation_probability_max <-
    prop_of (OM.Daily.precipitation_probability_max daily) ;;
  Returned (OpenMeteoDay (nth_error time i)
              (index temperature_2m_max i) (index temperature_2m_min i)
              (index weather_code i) (index precipitation_sum i)
              (index wind_speed_10m_max i) (index uv_index_max i)
              (index precipitation_probability_max i)).

(** [processOpenMeteoDaily(data)]. *)
Definition processOpenMeteoDaily (data : OM.Payload) : outcome (list Slot) :=
  daily <- prop_of (OM.daily data) ;;
  time <- prop_of (OM.Daily.time daily) ;;
  mapM (dailySlot daily time) (seq 0 (Nat.min 7 (List.length time))).

(** [array.slice(0, n)]. *)
Definition slice0 {A} (n : nat) (a : list A) : list A := firstn n a.

(** The series [weatherbitResult.value.hourly] / [.daily] when the
    promise is fulfilled and the property is truthy (an array, even an
    empty one, is). *)
Definition nativeSeries (r : settled WB.Value)
    (series : WB.Value -> option (list WB.Entry)) : option (list WB.Entry) :=
  match r with
  | Fulfilled v => series v
  | Rejected _ => None
  end.

(** [processEnsembleForecasts(results)]. *)
Definition processEnsembleForecasts (results : Results) : M unit :=
  modifyData (set_hourly []) ;;;
  modifyData (set_daily []) ;;;
  match nativeSeries (weatherbitResult results) WB.hourly with
  | Some h => modifyData (set_hourly (map WeatherbitEntry (slice0 24 h)))
  | None =>
      match openMeteoResult results with
      | Fulfilled v =>
          h <<- lift (processOpenMeteoHourly (OM.data v)) ;;
          modifyData (set_hourly h)
      | Rejected _ => ret tt
      end
  end ;;;
  match nativeSeries (weatherbitResult results) WB.daily with
  | Some d => modifyData (set_daily (map WeatherbitEntry (slice0 7 d)))
  | None =>
      match openMeteoResult results with
      | Fulfilled v =>
          d <<- lift (processOpenMeteoDaily (OM.data v)) ;;
          modifyData (set_daily d)
      | Rejected _ => ret tt
      end
  end.

(* ================================================================== *)
(** ** Ensemble processing *)

(** The array [currentWeatherSources] of [processEnsembleData]. *)
Definition currentWeatherSources (results : Results) : M (list Weather) :=
  s1 <<- match owmResult results with
         | Fulfilled v =>
             w <<- lift (normalizeOpenWeatherMapData (OWM.current v)) ;;
             ret [w]
         | Rejected _ => ret []
         end ;;
  s2 <<- match weatherbitResult results with
         | Fulfilled v =>
             w <<- normalizeWeatherbitData (WB.current v) ;;
             ret (s1 ++ [w])
         | Rejected _ => ret s1
         end ;;
  match openMeteoResult results with
  | Fulfilled v =>
      w <<- normalizeOpenMeteoData (OM.data v) ;;
      ret (s2 ++ [w])
  | Rejected _ => ret s2
  end.

(** [processEnsembleData(results)]. *)
Definition processEnsembleData (results : Results) : M unit :=
  srcs <<- currentWeatherSources results ;;
  modifyData (set_current (createEnsembleWeather srcs)) ;;;
  processEnsembleForecasts results ;;;
  match aqResult results with
  | Fulfilled v => modifyData (set_airQuality (Some v))
  | Rejected _ => ret tt
  end ;;;
  match alertsResult results with
  | Fulfilled v => modifyData (set_alerts (Alert.alerts v))
  | Rejected _ => ret tt
  end.

(* ================================================================== *)
(** ** Display updates *)

(** [updateWeatherDisplay()]: nothing this development follows is
    written, but [weather.description.charAt(0)] throws on a record
    without description. *)
Definition updateWeatherDisplay : M unit :=
  app <<- getApp ;;
  match current (weatherData app) with
  | None => ret tt
  | Some weather =>
      match description weather with
      | Some _ => ret tt
      | None => throw "TypeError: Cannot read properties of undefined"
      end
  end.

(** [updateForecastDisplay()]: rebuilds [#hourly-items] and
    [#daily-items], which this development does not follow; on slots of
    the shapes of [Slot] nothing in it throws. *)
Definition updateForecastDisplay : M unit := ret tt.

(** [aqi - 1]. *)
Definition jspred (v : jsnum) : jsnum :=
  match toNumber v with
  | Some q => Num (q - 1)
  | None => NaN
  end.

(** [updateAirQualityDisplay()]. *)
Definition updateAirQualityDisplay : M unit :=
  app <<- getApp ;;
  match airQuality (weatherData app) with
  | None => ret tt
  | Some airQuality =>
      shown <<-
        (if String.eqb (AQ.source airQuality) "openweathermap" then
           data <<- lift (prop_of (AQ.data airQuality)) ;;
           main <<- lift (prop_of (AQ.main data)) ;;
           let aqi := AQ.aqi main in
           ret (aqi, at_code AQI_LEVELS (jspred aqi))
         else if String.eqb (AQ.source airQuality) "open-meteo" then
           data <<- lift (prop_of (AQ.data airQuality)) ;;
           let aqi := AQ.us_aqi data in
           ret (aqi, Some (getAQILevel aqi))
         else ret (Undefined, None)) ;;
      modifyPage (fun p =>
        mkPage (Some shown) (healthTips p) (alertsCard p) (bannerVisible p)
               (alertMessages p) (toasts p))
  end.

(** The tips [updateHealthTips] collects for a weather record. *)
Definition healthTipsFor (weather : Weather) (airQuality : option AQ.Value)
    : outcome (list Tip) :=
  let uv := orZero (uvIndex weather) in
  let tips1 := if Qc_leb (ofZ 3) uv then [UVTip uv] else [] in
  let tips2 :=
    if jsgt (temperature weather) (ofZ 30) then [HighTemperatureTip]
    else if jslt (temperature weather) (ofZ 0) then [FreezingTip]
    else [] in
  let tips3 :=
    if jsgt (humidity weather) (ofZ 70) then [HighHumidityTip]
    else if jslt (humidity weather) (ofZ 30) then [LowHumidityTip]
    else [] in
  tips4 <-
    match airQuality with
    | Some aq =>
        match AQ.data aq with
        | Some data =>
            aqi <- (if String.eqb (AQ.source aq) "openweathermap"
                    then main <- prop_of (AQ.main data) ;; Returned (AQ.aqi main)
                    else Returned (AQ.us_aqi data)) ;;
            Returned (if jsgt aqi (ofZ 100) then [PoorAirQualityTip] else [])
        | None => Returned []
        end
    | None => Returned []
    end ;;
  let tips5 :=
    if jsgt (windSpeed weather) (ofZ 25) then [StrongWindTip] else [] in
  let tips := tips1 ++ tips2 ++ tips3 ++ tips4 ++ tips5 in
  Returned (match tips with [] => [GreatWeatherTip] | _ => tips end).

(** [updateHealthTips()]. *)
Definition updateHealthTips : M unit :=
  app <<- getApp ;;
  match current (weatherData app) with
  | None => ret tt
  | Some weather =>
      tips <<- lift (healthTipsFor weather (airQuality (weatherData app))) ;;
      modifyPage (fun p =>
        mkPage (aqiShown p) (Some tips) (alertsCard p) (bannerVisible p)
               (alertMessages p) (toasts p))
  end.

(** [alert.properties || alert]. *)
Definition propertiesOf (alert : Alert.t) : Alert.Props :=
  match Alert.properties alert with
  | Some p => p
  | None => Alert.own alert
  end.

Definition alertTitle (p : Alert.Props) : option string :=
  strOr (Alert.headline p)
    (strOr (Alert.event p) (strOr (Alert.title p) (Some "Weather Alert"))).

Definition alertDescription (p : Alert.Props) : option string :=
  strOr (Alert.description p)
    (strOr (Alert.instruction p)
       (strOr (Alert.summary p)
          (Some "Check local weather services for details."))).

(** [if (d.length > n) d = d.substring(0, n) + '...']. *)
Definition truncate (n : nat) (d : option string) : option string :=
  match d with
  | Some s =>
      if (n <? String.length s)%nat then Some (substring 0 n s ++ "...")%string
      else Some s
  | None => None
  end.

(** The element appended to the alerts card for one alert. *)
Definition cardItem (alert : Alert.t) : AlertItem :=
  let properties := propertiesOf alert in
  mkAlertItem (alertTitle properties)
    (truncate 150 (alertDescription properties))
    (if strTruthy (Alert.severity properties)
     then Alert.severity properties else None)
    (match Alert.severity properties with
     | Some s => if strTruthy (Some s)
                 then Some ("severity-" ++ toLowerCase s)%string else None
     | None => None
     end).

(** The element appended to the banner for one alert. *)
Definition bannerItem (alert : Alert.t) : AlertItem :=
  let properties := propertiesOf alert in
  mkAlertItem (alertTitle properties)
    (truncate 200 (alertDescription properties))
    (if strTruthy (Alert.severity properties)
     then Alert.severity properties else None)
    None.

(** [alert.properties?.severity?.toLowerCase()]. *)
Definition severityRead (alert : Alert.t) : option string :=
  match Alert.properties alert with
  | Some p =>
      match Alert.severity p with
      | Some s => Some (toLowerCase s)
      | None => None
      end
  | None => None
  end.

(** The predicate of [alerts.filter(...)]. *)
Definition isSevere (alert : Alert.t) : bool :=
  match severityRead alert with
  | Some severity =>
      String.eqb severity "severe" || String.eqb severity "extreme"
      || String.eqb severity "critical"
  | None => false
  end.

Definition severeAlerts (alerts : list Alert.t) : list Alert.t :=
  filter isSevere alerts.

(** The entries of the alerts card: none stands for the
    "No active weather alerts" paragraph. *)
Definition allAlerts (alerts : list Alert.t) : list AlertItem :=
  map cardItem alerts.

(** [updateAlertsDisplay()]. *)
Definition updateAlertsDisplay : M unit :=
  app <<- getApp ;;
  let alerts := alerts (weatherData app) in
  modifyPage (fun p =>
    mkPage (aqiShown p) (healthTips p) (Some (allAlerts alerts))
           (bannerVisible p) (alertMessages p) (toasts p)) ;;;
  match alerts with
  | [] =>
      modifyPage (fun p =>
        mkPage (aqiShown p) (healthTips p) (alertsCard p) false
               (alertMessages p) (toasts p))
  | _ =>
      match severeAlerts alerts with
      | [] =>
          modifyPage (fun p =>
            mkPage (aqiShown p) (healthTips p) (alertsCard p) false
                   (alertMessages p) (toasts p))
      | severe =>
          modifyPage (fun p =>
            mkPage (aqiShown p) (healthTips p) (alertsCard p) true
                   (map bannerItem severe) (toasts p))
      end
  end.

(* ================================================================== *)
(** ** One refresh cycle *)

(** [loadWeatherData()], given what the five promises settle to.  The
    location display, the last-updated stamp and the refresh timer are
    not followed. *)
Definition loadWeatherData (results : Results) : M unit :=
  app <<- getApp ;;
  match currentLocation app with
  | None => ret tt
  | Some _ =>
      showLoading ;;;
      tryCatchFinally
        (processEnsembleData results ;;;
         updateWeatherDisplay ;;;
         updateForecastDisplay ;;;
         updateAirQualityDisplay ;;;
         updateHealthTips ;;;
         updateAlertsDisplay)
        (fun _ => showError "Error loading weather data. Please try again.")
        hideLoading
  end.

(* ================================================================== *)
(** ** Hyperlocal observations *)

(** [initializeStorage()]; the argument is ['indexedDB' in window]. *)
Definition initializeStorage (indexedDBInWindow : bool) : M unit :=
  if indexedDBInWindow then ret tt
  else modify (set_useLocalStorage true).

(** [getStoredObservations()]. *)
Definition getStoredObservations (app : App) : list Observation :=
  match storedObservations app with
  | Some l => l
  | None => []
  end.

(** The two methods that call each other, named as calls. *)
Inductive Call : Type :=
| CallSaveObservation (observation : Observation)
| CallSaveToIndexedDB (observation : Observation).

(** What the engine throws at a call for which its call stack has no
    room left. *)
Definition stackOverflow : string :=
  "RangeError: Maximum call stack size exceeded".

(** A call of one of the two methods.  The body of an [async] method
    runs within its caller up to its first [await], so the calls of the
    two methods nest on the call stack; [stack] is the number of nested
    calls the stack has room for.  A rejected promise that is awaited or
    returned rejects the caller's promise with the same error, which is
    the [Thrown] case here; [saveObservation] catches it only to log it
    and throw it again. *)
Fixpoint call (stack : nat) (c : Call) : M unit :=
  match stack with
  | O => throw stackOverflow
  | S stack' =>
      match c with
      | CallSaveObservation observation =>
          tryCatchFinally
            (app <<- getApp ;;
             if negb (useLocalStorage app) then
               call stack' (CallSaveToIndexedDB observation)
             else
               let observations := observation :: getStoredObservations app in
               let observations :=
                 if (MAX_OBSERVATIONS <? List.length observations)%nat
                 then firstn MAX_OBSERVATIONS observations else observations in
               modify (set_storedObservations (Some observations)))
            (fun error => throw error)
            (ret tt)
      | CallSaveToIndexedDB observation =>
          call stack' (CallSaveObservation observation)
      end
  end.

(** [saveObservation(observation)] and [saveToIndexedDB(observation)]. *)
Definition saveObservation (stack : nat) (observation : Observation) : M unit :=
  call stack (CallSaveObservation observation).

Definition saveToIndexedDB (stack : nat) (observation : Observation) : M unit :=
  call stack (CallSaveToIndexedDB observation).

(* ================================================================== *)
(** ** Vocabulary of the specification *)

(** The three providers in their fixed priority order. *)
Inductive Provider : Type := Primary | Secondary | Tertiary.

Definition Provider_eqb (p q : Provider) : bool :=
  match p, q with
  | Primary, Primary | Secondary, Secondary | Tertiary, Tertiary => true
  | _, _ => false
  end.

(** The [source] each normalizer writes. *)
Definition providerId (p : Provider) : string :=
  match p with
  | Primary => "OpenWeatherMap"
  | Secondary => "Weatherbit"
  | Tertiary => "Open-Meteo"
  end.

(** A set of providers, given in any order, put in priority order. *)
Definition priorityOrder (S : list Provider) : list Provider :=
  filter (fun p => existsb (Provider_eqb p) S) [Primary; Secondary; Tertiary].

(** Whether a provider's fetch was fulfilled. *)
Definition supplied (results : Results) (p : Provider) : bool :=
  match p with
  | Primary => isFulfilled (owmResult results)
  | Secondary => isFulfilled (weatherbitResult results)
  | Tertiary => isFulfilled (openMeteoResult results)
  end.

(** A record without its [timestamp]. *)
Definition withoutTimestamp (w : Weather) : Weather :=
  mkWeather (source w) (sources w) (temperature w) (feelsLike w) (humidity w)
            (pressure w) (windSpeed w) (windDirection w) (visibility w)
            (uvIndex w) (cloudCover w) (precipitationChance w)
            (description w) (icon w) Undefined.

(** Whether [updateAirQualityDisplay] and [updateHealthTips] can read
    the air quality held: the objects they dereference exist. *)
Definition aqReadable (airQuality : option AQ.Value) : bool :=
  match airQuality with
  | None => true
  | Some aq =>
      if String.eqb (AQ.source aq) "openweathermap" then
        match AQ.data aq with
        | Some data => match AQ.main data with Some _ => true | None => false end
        | None => false
        end
      else if String.eqb (AQ.source aq) "open-meteo" then
        match AQ.data aq with Some _ => true | None => false end
      else true
  end.

(** Whether the cycle raised anything towards the user: the method
    threw, or a toast was added. *)
Definition signalled (before : App) (result : outcome unit * App) : bool :=
  match result with
  | (Returned _, after) =>
      negb (List.length (toasts (page after))
            =? List.length (toasts (page before)))%nat
  | (Thrown _, _) => true
  end.







(** The severity classes of an alert record. *)
Inductive Severity : Type :=
| Minor | Moderate | Severe | Extreme | Critical | Unknown.

(** The class of a severity string, read without regard to letter
    case; a string that is not recognized is [Unknown]. *)
Definition classify (severity : string) : Severity :=
  let s := toLowerCase severity in
  if String.eqb s "minor" then Minor
  else if String.eqb s "moderate" then Moderate
  else if String.eqb s "severe" then Severe
  else if String.eqb s "extreme" then Extreme
  else if String.eqb s "critical" then Critical
  else Unknown.

(** The classes of the severe-only view. *)
Definition interrupting (c : Severity) : bool :=
  match c with
  | Severe | Extreme | Critical => true
  | Minor | Moderate | Unknown => false
  end.

(** What an alert is shown from: its [properties] object, or the alert
    itself when it has none. *)
Definition viewed (alert : Alert.t) : Alert.Props :=
  match Alert.properties alert with
  | Some p => p
  | None => Alert.own alert
  end.

(** The first of the texts that is there and is not empty, else the
    default. *)
Fixpoint firstText (texts : list (option string)) (default : string) : string :=
  match texts with
  | [] => default
  | Some (String c s) :: _ => String c s
  | _ :: rest => firstText rest default
  end.

(** A text cut to [n] characters, with three dots when it was cut. *)
Definition cut (n : nat) (text : string) : string :=
  if (String.length text <=? n)%nat then text
  else (substring 0 n text ++ "...")%string.

(** The severity text shown with an entry: the one held, unless it is
    missing or empty. *)
Definition severityText (p : Alert.Props) : option string :=
  match Alert.severity p with
  | Some (String c s) => Some (String c s)
  | Some EmptyString | None => None
  end.

(** The entry of the full view for an alert shown from [p]. *)
Definition cardEntry (p : Alert.Props) : AlertItem :=
  {| item_title :=
       Some (firstText [Alert.headline p; Alert.event p; Alert.title p]
                       "Weather Alert");
     item_description :=
       Some (cut 150
               (firstText [Alert.description p; Alert.instruction p;
                           Alert.summary p]
                          "Check local weather services for details."));
     item_severity := severityText p;
     item_severity_class :=
       option_map (fun s => ("severity-" ++ toLowerCase s)%string)
                  (severityText p) |}.

(** The entry of the severe-only view. *)
Definition bannerEntry (p : Alert.Props) : AlertItem :=
  {| item_title :=
       Some (firstText [Alert.headline p; Alert.event p; Alert.title p]
                       "Weather Alert");
     item_description :=
       Some (cut 200
               (firstText [Alert.description p; Alert.instruction p;
                           Alert.summary p]
                          "Check local weather services for details."));
     item_severity := severityText p;
     item_severity_class := None |}.

(** The alerts of the severe-only view: the severity is held under
    [properties] and is of an interrupting class. *)
Definition nestedSevere (alert : Alert.t) : bool :=
  match Alert.properties alert with
  | Some p =>
      match Alert.severity p with
      | Some s => interrupting (classify s)
      | None => false
      end
  | None => false
  end.

(* ================================================================== *)
(** ** Notions used in the proofs *)

(** The [source] property of a provider's record. *)
Definition named (p : Provider) : option string := Some (providerId p).

(** A record as a normalizer writes it: named after its provider, and
    without a list of sources. *)
Definition recordOf (p : Provider) (w : Weather) : Prop :=
  source w = named p /\ sources w = None.

(** The records of a list are those of the providers [ps], in order. *)
Definition recordsOf (ps : list Provider) (srcs : list Weather) : Prop :=
  Forall2 recordOf ps srcs.

(** The application after one reading of the clock. *)
Definition ticked (app : App) : App :=
  mkApp (currentLocation app) (weatherData app) (isLoading app)
        (useLocalStorage app) (storedObservations app) (page app)
        (readings app) (S (reads app)).

(** A method keeps the relation [P] between the application before and
    after, whether it returns or throws. *)
Definition preserves (P : App -> App -> Prop) {A} (m : M A) : Prop :=
  forall app, P app (snd (m app)).

(** Everything but the two forecast series is the same. *)
Definition sameButForecasts (a b : App) : Prop :=
  current (weatherData a) = current (weatherData b) /\
  airQuality (weatherData a) = airQuality (weatherData b) /\
  alerts (weatherData a) = alerts (weatherData b) /\
  page a = page b /\ currentLocation a = currentLocation b.

(** The reading [Date.now()] returns next. *)
Definition nextReading (app : App) : Z := readings app (reads app).


(** The tips of all rules but the air-quality one. *)
Definition otherTips (weather : Weather) : list Tip * list Tip :=
  let uv := orZero (uvIndex weather) in
  ((if Qc_leb (ofZ 3) uv then [UVTip uv] else []) ++
   (if jsgt (temperature weather) (ofZ 30) then [HighTemperatureTip]
    else if jslt (temperature weather) (ofZ 0) then [FreezingTip] else []) ++
   (if jsgt (humidity weather) (ofZ 70) then [HighHumidityTip]
    else if jslt (humidity weather) (ofZ 30) then [LowHumidityTip] else []),
   if jsgt (windSpeed weather) (ofZ 25) then [StrongWindTip] else []).

(** None of the three weather fetches was fulfilled. *)
Definition noneSupplied (results : Results) : Prop :=
  forall p, supplied results p = false.

(** The weather data such a cycle leaves. *)
Definition dataWithoutProviders (results : Results) (wd : WeatherData)
    : WeatherData :=
  mkWeatherData None [] []
    (match alertsResult results with
     | Fulfilled v => Alert.alerts v
     | Rejected _ => alerts wd
     end)
    (match aqResult results with
     | Fulfilled v => Some v
     | Rejected _ => airQuality wd
     end).

(** The weather data is the same. *)
Definition sameData (a b : App) : Prop := weatherData a = weatherData b.

(** The methods [loadWeatherData] runs after [processEnsembleData]. *)
Definition displayUpdates : M unit :=
  updateWeatherDisplay ;;;
  updateForecastDisplay ;;;
  updateAirQualityDisplay ;;;
  updateHealthTips ;;;
  updateAlertsDisplay.

(** The [catch] block of [loadWeatherData]. *)
Definition loadError : string -> M unit :=
  fun _ => showError "Error loading weather data. Please try again.".

(** Every array of the block is there. *)
Definition dailyComplete (daily : OM.Daily.t) : bool :=
  match OM.Daily.time daily, OM.Daily.temperature_2m_max daily,
        OM.Daily.temperature_2m_min daily, OM.Daily.weather_code daily,
        OM.Daily.precipitation_sum daily, OM.Daily.wind_speed_10m_max daily,
        OM.Daily.uv_index_max daily,
        OM.Daily.precipitation_probability_max daily with
  | Some _, Some _, Some _, Some _, Some _, Some _, Some _, Some _ => true
  | _, _, _, _, _, _, _, _ => false
  end.

Definition hourlyComplete (hourly : OM.Hourly.t) : bool :=
  match OM.Hourly.time hourly, OM.Hourly.temperature_2m hourly,
        OM.Hourly.apparent_temperature hourly,
        OM.Hourly.relative_humidity_2m hourly,
        OM.Hourly.precipitation_probability hourly,
        OM.Hourly.weather_code hourly, OM.Hourly.wind_speed_10m hourly,
        OM.Hourly.uv_index hourly with
  | Some _, Some _, Some _, Some _, Some _, Some _, Some _, Some _ => true
  | _, _, _, _, _, _, _, _ => false
  end.


(* ================================================================== *)
(** ** Sample inputs *)

Definition emptyPage : Page := mkPage None None None false [] [].

Definition emptyData : WeatherData := mkWeatherData None [] [] [] None.

(** A freshly constructed application with a location, whose clock
    advances by one second between readings. *)
Definition app0 : App :=
  mkApp (Some {| lat := ofDec 2861 100; lon := ofDec 7721 100;
                 name := "New Delhi"; country := "IN" |})
        emptyData false false None emptyPage
        (fun k => (Z.of_nat k * 1000 + 1700000000000)%Z) 0.

Definition owmSample : OWM.Current :=
  {| OWM.main := Some {| OWM.temp := Num (ofZ 20); OWM.feels_like := Num (ofZ 19);
                         OWM.humidity := Num (ofZ 50);
                         OWM.pressure := Num (ofZ 1012) |};
     OWM.wind := Some {| OWM.speed := Num (ofZ 5); OWM.deg := Num (ofZ 180) |};
     OWM.visibility := Num (ofZ 10000);
     OWM.clouds := Some {| OWM.all := Num (ofZ 40) |};
     OWM.weather := Some [{| OWM.description := Some "scattered clouds";
                             OWM.id := Num (ofZ 802) |}];
     OWM.dt := Num (ofZ 1700000000) |}.

Definition wbSample : WB.Current :=
  {| WB.temp := Num (ofZ 20); WB.app_temp := Num (ofZ 20);
     WB.rh := Num (ofZ 55); WB.pres := Num (ofZ 1010);
     WB.wind_spd := Num (ofZ 4); WB.wind_dir := Num (ofZ 170);
     WB.vis := Num (ofZ 9); WB.uv := Undefined; WB.clouds := Num (ofZ 35);
     WB.weather := Some {| WB.description := Some "Scattered clouds";
                           WB.code := Num (ofZ 802) |} |}.

Definition omCurrentSample : OM.Current.t :=
  {| OM.Current.temperature_2m := Num (ofZ 22);
     OM.Current.apparent_temperature := Num (ofZ 21);
     OM.Current.relative_humidity_2m := Num (ofZ 60);
     OM.Current.pressure_msl := Num (ofZ 1011);
     OM.Current.wind_speed_10m := Num (ofZ 12);
     OM.Current.wind_direction_10m := Num (ofZ 175);
     OM.Current.cloud_cover := Num (ofZ 30);
     OM.Current.precipitation := Undefined;
     OM.Current.weather_code := Num (ofZ 2) |}.

(** An Open-Meteo daily block of [n] days. *)
Definition omDailySample (n : nat) : OM.Daily.t :=
  let col := Some (map (fun i => Num (ofZ (Z.of_nat i))) (seq 0 n)) in
  {| OM.Daily.time := Some (repeat "2023-09-21" n);
     OM.Daily.temperature_2m_max := col;
     OM.Daily.temperature_2m_min := col;
     OM.Daily.weather_code := col;
     OM.Daily.precipitation_sum := col;
     OM.Daily.wind_speed_10m_max := col;
     OM.Daily.uv_index_max := col;
     OM.Daily.precipitation_probability_max := col |}.

(** An Open-Meteo hourly block of [n] hours. *)
Definition omHourlySample (n : nat) : OM.Hourly.t :=
  let col := Some (map (fun i => Num (ofZ (Z.of_nat i))) (seq 0 n)) in
  {| OM.Hourly.time := Some (repeat "2023-09-21T14:00" n);
     OM.Hourly.temperature_2m := col;
     OM.Hourly.apparent_temperature := col;
     OM.Hourly.relative_humidity_2m := col;
     OM.Hourly.precipitation_probability := col;
     OM.Hourly.weather_code := col;
     OM.Hourly.wind_speed_10m := col;
     OM.Hourly.uv_index := col |}.

Definition omSample (days hours : nat) : OM.Payload :=
  {| OM.current := Some omCurrentSample;
     OM.hourly := Some (omHourlySample hours);
     OM.daily := Some (omDailySample days) |}.

Definition wbEntrySample : WB.Entry :=
  {| WB.datetime := Some "2023-09-21"; WB.e_temp := Num (ofZ 20);
     WB.max_temp := Num (ofZ 24); WB.min_temp := Num (ofZ 15);
     WB.pop := Num (ofZ 10); WB.precip := Num 0;
     WB.e_weather := None |}.

Definition aqOpenMeteo (us_aqi : Z) : AQ.Value :=
  {| AQ.source := "open-meteo";
     AQ.data := Some {| AQ.main := None; AQ.us_aqi := Num (ofZ us_aqi) |} |}.

Definition aqOpenWeatherMap (aqi : Z) : AQ.Value :=
  {| AQ.source := "openweathermap";
     AQ.data := Some {| AQ.main := Some {| AQ.aqi := Num (ofZ aqi) |};
                        AQ.us_aqi := Undefined |} |}.

Definition noProps : Alert.Props :=
  {| Alert.headline := None; Alert.event := None; Alert.title := None;
     Alert.description := None; Alert.instruction := None;
     Alert.summary := None; Alert.severity := None |}.

(** A feature of the NOAA feed: everything under [properties]. *)
Definition nestedAlert (event severity : string) : Alert.t :=
  {| Alert.properties :=
       Some {| Alert.headline := None; Alert.event := Some event;
               Alert.title := None; Alert.description := None;
               Alert.instruction := None; Alert.summary := None;
               Alert.severity := Some severity |};
     Alert.own := noProps |}.

(** An alert that carries its fields itself. *)
Definition flatAlert (title severity : string) : Alert.t :=
  {| Alert.properties := None;
     Alert.own :=
       {| Alert.headline := None; Alert.event := None;
          Alert.title := Some title; Alert.description := None;
          Alert.instruction := None; Alert.summary := None;
          Alert.severity := Some severity |} |}.

(** The application of [app0] holding the given alerts. *)
Definition appWithAlerts (alerts : list Alert.t) : App :=
  set_weatherData (set_alerts alerts emptyData) app0.

(** The reason [fetchWithTimeout] rejects with. *)
Definition requestTimeout : string := "Request timeout".

(** Primary timed out; Secondary and Tertiary answered. *)
Definition resultsTwo : Results :=
  {| owmResult := Rejected requestTimeout;
     weatherbitResult :=
       Fulfilled {| WB.current := Some wbSample; WB.daily := None;
                    WB.hourly := None |};
     openMeteoResult := Fulfilled {| OM.data := omSample 10 30 |};
     aqResult := Fulfilled (aqOpenMeteo 42);
     alertsResult := Fulfilled {| Alert.source := "noaa"; Alert.alerts := [] |} |}.

(** Only Tertiary answered. *)
Definition resultsOne : Results :=
  {| owmResult := Rejected requestTimeout;
     weatherbitResult := Rejected requestTimeout;
     openMeteoResult := Fulfilled {| OM.data := omSample 3 5 |};
     aqResult := Fulfilled (aqOpenMeteo 42);
     alertsResult := Fulfilled {| Alert.source := "noaa"; Alert.alerts := [] |} |}.

(** No weather provider answered; air quality and alerts did. *)
Definition resultsNone : Results :=
  {| owmResult := Rejected requestTimeout;
     weatherbitResult := Rejected requestTimeout;
     openMeteoResult := Rejected requestTimeout;
     aqResult := Fulfilled (aqOpenMeteo 42);
     alertsResult :=
       Fulfilled {| Alert.source := "noaa";
                    Alert.alerts := [nestedAlert "Flood Warning" "Severe"] |} |}.

(** Weatherbit answered with its own daily series of ten entries. *)
Definition resultsNative : Results :=
  {| owmResult := Rejected requestTimeout;
     weatherbitResult :=
       Fulfilled {| WB.current := Some wbSample;
                    WB.daily := Some (repeat wbEntrySample 10);
                    WB.hourly := Some (repeat wbEntrySample 3) |};
     openMeteoResult := Fulfilled {| OM.data := omSample 2 2 |};
     aqResult := Rejected requestTimeout;
     alertsResult := Fulfilled {| Alert.source := "noaa"; Alert.alerts := [] |} |}.


(** All three providers answered. *)
Definition resultsAll : Results :=
  {| owmResult := Fulfilled {| OWM.current := owmSample |};
     weatherbitResult :=
       Fulfilled {| WB.current := Some wbSample; WB.daily := None;
                    WB.hourly := None |};
     openMeteoResult := Fulfilled {| OM.data := omSample 7 24 |};
     aqResult := Fulfilled (aqOpenWeatherMap 2);
     alertsResult := Fulfilled {| Alert.source := "noaa"; Alert.alerts := [] |} |}.

(** A record with only a temperature. *)
Definition reading (t : Qc) : Weather :=
  mkWeather None None (Num t) (Num 0) (Num 0) (Num 0) (Num 0) (Num 0)
            (Num 0) (Num 0) (Num 0) (Num 0) None None Undefined.

(** A record as a provider's normalizer names it, with a temperature. *)
Definition readingOf (p : Provider) (t : Qc) : Weather :=
  mkWeather (Some (providerId p)) None (Num t) (Num 0) (Num 0) (Num 0)
            (Num 0) (Num 0) (Num 0) (Num 0) (Num 0) (Num 0) None None
            Undefined.

Definition observationSample : Observation :=
  {| obs_id := 1700000000000; obs_type := "rain";
     obs_description := "Light drizzle"; intensity := 3;
     obs_location := "New Delhi"; obs_timestamp := "2023-11-14T22:13:20.000Z";
     coordinates := None |}.

(** A reading no rule of the advisories fires on. *)
Definition mildWeather : Weather :=
  mkWeather (Some "Open-Meteo") None (Num (ofZ 20)) (Num (ofZ 20))
            (Num (ofZ 50)) (Num (ofZ 1012)) (Num (ofZ 10)) (Num (ofZ 180))
            (Num (ofZ 10)) (Num 0) (Num (ofZ 30)) (Num 0)
            (Some "Partly cloudy") (Some "⛅") (Num (ofZ 1700000000)).

(** The reading of the specification's advisory example: UV index 5,
    35 degrees, humidity 20. *)
Definition hotDryWeather : Weather :=
  mkWeather (Some "Open-Meteo") None (Num (ofZ 35)) (Num (ofZ 36))
            (Num (ofZ 20)) (Num (ofZ 1012)) (Num (ofZ 10)) (Num (ofZ 180))
            (Num (ofZ 10)) (Num (ofZ 5)) (Num (ofZ 30)) (Num 0)
            (Some "Clear sky") (Some "☀️") (Num (ofZ 1700000000)).

(* ================================================================== *)
(** ** Air-quality and alert fetches *)

(** The bodies the two air-quality services answer with. *)
Module AirFetch.
Record OMBody : Type := { current : option AQ.Data }.
Record OWMBody : Type := { list : option (list AQ.Data) }.
End AirFetch.

(** [fetchAirQualityData()], given what the request to OpenWeatherMap
    comes to ([Thrown]: the fetch or the parsing of the body failed) and
    what the request to Open-Meteo comes to if it is made. *)
Definition fetchAirQualityData (owm : outcome AirFetch.OWMBody)
    (om : outcome AirFetch.OMBody) : settled AQ.Value :=
  match (data <- owm ;;
         list <- prop_of (AirFetch.list data) ;;
         Returned (nth_error list 0)) with
  | Returned first =>
      Fulfilled {| AQ.source := "openweathermap"; AQ.data := first |}
  | Thrown _ =>
      match om with
      | Returned data =>
          Fulfilled {| AQ.source := "open-meteo";
                       AQ.data := AirFetch.current data |}
      | Thrown fallbackError => Rejected fallbackError
      end
  end.

(** The answer of the NOAA service: [response.ok] and the parsed body. *)
Module NOAA.
Record Body : Type := { features : option (list Alert.t) }.
Record Response : Type := { ok : bool; json : outcome Body }.
End NOAA.

(** [createDemoAlerts(lat, lon, country)]. *)
Definition createDemoAlerts (lat lon : Qc) (country : string) : list Alert.t :=
  [].

(** [fetchGovernmentAlerts()] for the current location, given what the
    request to NOAA comes to if it is made.  The error thrown for a
    response that is not ok, whose message names the status, is only
    logged. *)
Definition fetchGovernmentAlerts (location : Location)
    (response : outcome NOAA.Response) : Alert.Value :=
  if String.eqb (country location) "US" then
    match (r <- response ;;
           if NOAA.ok r then NOAA.json r
           else Thrown "NOAA API responded with an error status") with
    | Returned data =>
        {| Alert.source := "noaa";
           Alert.alerts := match NOAA.features data with
                           | Some features => features
                           | None => []
                           end |}
    | Thrown _ => {| Alert.source := "error"; Alert.alerts := [] |}
    end
  else
    {| Alert.source := "demo";
       Alert.alerts := createDemoAlerts (lat location) (lon location)
                         (country location) |}.

(* ================================================================== *)
(** ** Refreshing *)

(** [refreshWeatherData()], given what the five promises settle to if
    the cycle runs. *)
Definition refreshWeatherData (results : Results) : M unit :=
  app <<- getApp ;;
  if isLoading app then ret tt
  else loadWeatherData results ;;; showToast "Weather data refreshed" "success".

(** The toast element holds the message and type of the last
    [showToast]. *)
Definition visibleToast (p : Page) : option (string * string) :=
  last (map Some (toasts p)) None.

(** The interval timers of the window: the identifier held in
    [this.refreshTimer], the identifiers of the running intervals, and
    the identifier [setInterval] gives out next (identifiers are
    positive). *)
Record Timers : Type := mkTimers {
  refreshTimer : option nat;
  intervals : list nat;
  nextId : nat
}.

Definition newTimers : Timers := mkTimers None [] 1.

Definition clearInterval (id : nat) (t : Timers) : Timers :=
  mkTimers (refreshTimer t) (remove Nat.eq_dec id (intervals t)) (nextId t).

Definition setInterval (t : Timers) : nat * Timers :=
  (nextId t,
   mkTimers (refreshTimer t) (nextId t :: intervals t) (S (nextId t))).

(** [setupAutoRefresh()]; the argument is [this.settings.AUTO_REFRESH]. *)
Definition setupAutoRefresh (AUTO_REFRESH : bool) (t : Timers) : Timers :=
  let t1 :=
    match refreshTimer t with
    | Some id => if Nat.eqb id 0 then t else clearInterval id t
    | None => t
    end in
  if AUTO_REFRESH then
    let (id, t2) := setInterval t1 in
    mkTimers (Some id) (intervals t2) (nextId t2)
  else t1.

(* ================================================================== *)
(** ** Showing the observations *)

(** What [formatRelativeTime] returns; [OnDate] stands for
    [time.toLocaleDateString()]. *)
Inductive RelativeTime : Type :=
| JustNow
| MinutesAgo (n : Z)
| HoursAgo (n : Z)
| DaysAgo (n : Z)
| OnDate (time : option Z).

(** [formatRelativeTime(timestamp)], given the milliseconds [new Date()]
    reads and those of [new Date(timestamp)], [None] for an invalid
    date (its time is [NaN], which fails every comparison). *)
Definition formatRelativeTime (now : Z) (time : option Z) : RelativeTime :=
  match time with
  | None => OnDate None
  | Some t =>
      let diffMs := (now - t)%Z in
      let diffMins := (diffMs / 60000)%Z in
      let diffHours := (diffMins / 60)%Z in
      let diffDays := (diffHours / 24)%Z in
      if (diffMins <? 1)%Z then JustNow
      else if (diffMins <? 60)%Z then MinutesAgo diffMins
      else if (diffHours <? 24)%Z then HoursAgo diffHours
      else if (diffDays <? 7)%Z then DaysAgo diffDays
      else OnDate (Some t)
  end.

(** [s.repeat(count)] for an integer count. *)
Definition jsRepeat (s : string) (count : Z) : outcome string :=
  if (count <? 0)%Z then Thrown "RangeError: Invalid count value"
  else Returned (String.concat "" (repeat s (Z.to_nat count))).

(** An entry of [#observations-list]: the type, the description and the
    stars (the icon of the type and the relative time are not
    followed). *)
Record ObservationItem : Type := mkObservationItem {
  shown_type : string;
  shown_description : string;
  shown_stars : string
}.

(** The two texts repeated for the intensity, as the script holds them
    (the first stands for a filled star, the second for a hollow one). *)
Definition filledStar : string := "‚òÖ".
Definition hollowStar : string := "‚òÜ".

Definition observationItem (obs : Observation) : outcome ObservationItem :=
  filled <- jsRepeat filledStar (intensity obs) ;;
  hollow <- jsRepeat hollowStar (5 - intensity obs)%Z ;;
  Returned (mkObservationItem (obs_type obs) (obs_description obs)
                              (filled ++ hollow)%string).

(** [displayObservations(observations)]: the entries written, none for
    the "No local observations yet" paragraph. *)
Definition displayObservations (observations : list Observation)
    : outcome (list ObservationItem) :=
  mapM observationItem (slice0 5 observations).

(** [loadObservations()]: what is written to the list, [None] when
    nothing is (the error is only logged). *)
Definition loadObservations (app : App) : option (list ObservationItem) :=
  match displayObservations (getStoredObservations app) with
  | Returned items => Some items
  | Thrown _ => None
  end.

(** Saving several observations one after the other. *)
Fixpoint saveAll (stack : nat) (observations : list Observation) : M unit :=
  match observations with
  | [] => ret tt
  | observation :: rest =>
      saveObservation stack observation ;;; saveAll stack rest
  end.

(* ================================================================== *)
(** ** Further notions used in the proofs *)

(** The rule of the advisories a tip comes from, in the order the rules
    are evaluated; the default tip comes last. *)
Definition ruleOf (t : Tip) : nat :=
  match t with
  | UVTip _ => 0
  | HighTemperatureTip | FreezingTip => 1
  | HighHumidityTip | LowHumidityTip => 2
  | PoorAirQualityTip => 3
  | StrongWindTip => 4
  | GreatWeatherTip => 5
  end.

(** The toast of the [catch] block of [loadWeatherData]. *)
Definition loadErrorToast : string * string :=
  ("Error loading weather data. Please try again.", "error").

(** The page is the same. *)
Definition samePage (a b : App) : Prop := page a = page b.

(** The weather data and the page are the same. *)
Definition sameDataAndPage (a b : App) : Prop :=
  weatherData a = weatherData b /\ page a = page b.

(** The toasts are the same. *)
Definition sameToasts (a b : App) : Prop :=
  toasts (page a) = toasts (page b).

(** The air quality held is the same. *)
Definition sameAirQuality (a b : App) : Prop :=
  airQuality (weatherData a) = airQuality (weatherData b).

(** The alerts held are the same. *)
Definition sameAlerts (a b : App) : Prop :=
  alerts (weatherData a) = alerts (weatherData b).

(** OpenWeatherMap answered with a body that has no [main] (an error
    body, say); Secondary and Tertiary answered well. *)
Definition resultsMalformed : Results :=
  {| owmResult :=
       Fulfilled {| OWM.current :=
                      {| OWM.main := None; OWM.wind := None;
                         OWM.visibility := Undefined; OWM.clouds := None;
                         OWM.weather := None; OWM.dt := Undefined |} |};
     weatherbitResult :=
       Fulfilled {| WB.current := Some wbSample; WB.daily := None;
                    WB.hourly := None |};
     openMeteoResult := Fulfilled {| OM.data := omSample 7 24 |};
     aqResult := Fulfilled (aqOpenMeteo 42);
     alertsResult := Fulfilled {| Alert.source := "noaa"; Alert.alerts := [] |} |}.

(** The application after a cycle that stored a reading, air quality
    and an alert. *)
Definition app1 : App :=
  set_weatherData
    (mkWeatherData (Some mildWeather) [] [] [nestedAlert "Flood Warning" "Severe"]
                   (Some (aqOpenMeteo 42)))
    app0.

(** The cycle of [resultsAll], but OpenWeatherMap's air-pollution
    service answered with an empty list (and Open-Meteo's would have
    answered well). *)
Definition resultsEmptyAir : Results :=
  {| owmResult := owmResult resultsAll;
     weatherbitResult := weatherbitResult resultsAll;
     openMeteoResult := openMeteoResult resultsAll;
     aqResult :=
       fetchAirQualityData
         (Returned {| AirFetch.list := Some [] |})
         (Returned {| AirFetch.current :=
                        Some {| AQ.main := None; AQ.us_aqi := Num (ofZ 42) |} |});
     alertsResult := alertsResult resultsAll |}.

(** A location in the US, and what NOAA answers for it. *)
Definition newYork : Location :=
  {| lat := ofDec 407128 10000; lon := ofDec (-740060) 10000;
     name := "New York, NY"; country := "US" |}.

Definition noaaSample : NOAA.Response :=
  {| NOAA.ok := true;
     NOAA.json :=
       Returned {| NOAA.features := Some [nestedAlert "Flood Warning" "Severe"] |} |}.


(** The UV index Weatherbit reports ([data.uv || 0]); zero when its
    fetch was rejected. *)
Definition weatherbitUv (results : Results) : Qc :=
  match weatherbitResult results with
  | Fulfilled v =>
      match WB.current v with
      | Some data => orZero (WB.uv data)
      | None => 0
      end
  | Rejected _ => 0
  end.

(** The UV index in the record of a provider. *)
Definition uvShare (results : Results) (p : Provider) : Qc :=
  match p with
  | Secondary => weatherbitUv results
  | Primary | Tertiary => 0
  end.

(** The providers whose fetch was fulfilled, in the order of the pushes. *)
Definition suppliers (results : Results) : list Provider :=
  filter (supplied results) [Primary; Secondary; Tertiary].

(** All three providers answered, Weatherbit with a UV index of 9. *)
Definition resultsSunny : Results :=
  {| owmResult := owmResult resultsAll;
     weatherbitResult :=
       Fulfilled
         {| WB.current :=
              Some {| WB.temp := Num (ofZ 20); WB.app_temp := Num (ofZ 20);
                      WB.rh := Num (ofZ 55); WB.pres := Num (ofZ 1010);
                      WB.wind_spd := Num (ofZ 4); WB.wind_dir := Num (ofZ 170);
                      WB.vis := Num (ofZ 9); WB.uv := Num (ofZ 9);
                      WB.clouds := Num (ofZ 35);
                      WB.weather := WB.weather wbSample |};
            WB.daily := None; WB.hourly := None |};
     openMeteoResult := openMeteoResult resultsAll;
     aqResult := aqResult resultsAll;
     alertsResult := alertsResult resultsAll |}.

(** The toast of [refreshWeatherData]. *)
Definition refreshedToast : string * string :=
  ("Weather data refreshed", "success").

(** The timers after calls of [setupAutoRefresh] made one after the
    other, with the values [this.settings.AUTO_REFRESH] has at each. *)
Definition setups (settings : list bool) (t : Timers) : Timers :=
  fold_left (fun t AUTO_REFRESH => setupAutoRefresh AUTO_REFRESH t) settings t.

(** The running intervals are the one held in [this.refreshTimer], if
    any, and identifiers are positive and below the next one. *)
Definition timersKept (t : Timers) : Prop :=
  (0 < nextId t)%nat /\
  (intervals t = [] \/
   exists id, intervals t = [id] /\ refreshTimer t = Some id) /\
  (forall id, refreshTimer t = Some id -> (0 < id < nextId t)%nat).

(** An intensity [repeat] accepts for both rows of stars. *)
Definition showable (obs : Observation) : Prop :=
  (0 <= intensity obs <= 5)%Z.

Definition observationOf (n : Z) : Observation :=
  {| obs_id := n; obs_type := "rain"; obs_description := "Light rain";
     intensity := n; obs_location := "Delhi";
     obs_timestamp := "2023-11-14T22:13:20.000Z"; coordinates := None |}.

(** The application of [app0] with the fallback to [localStorage]. *)
Definition appLocal : App := set_useLocalStorage true app0.

(* ================================================================== *)
(** * Properties *)

Unset Implicit Arguments.

(** ** Arithmetic of the rounding *)

Lemma Qfloor_unique (q : Q) (n : Z) :
  (inject_Z n <= q)%Q -> (q < inject_Z (n + 1))%Q -> Qfloor q = n.
Proof.
  intros Hle Hlt.
  assert (H1 : (n <= Qfloor q)%Z).
  { rewrite <- (Qfloor_Z n). now apply Qfloor_resp_le. }
  assert (H2 : (Qfloor q < n + 1)%Z).
  { rewrite Zlt_Qlt. eapply Qle_lt_trans; [apply Qfloor_le | exact Hlt]. }
  lia.
Qed.

Lemma this_ofZ (z : Z) : (this (ofZ z) == inject_Z z)%Q.
Proof. unfold ofZ, Q2Qc. cbn [this]. apply Qred_correct. Qed.

Lemma this_Q2Qc (q : Q) : (this (Q2Qc q) == q)%Q.
Proof. unfold Q2Qc. cbn [this]. apply Qred_correct. Qed.

Lemma MathFloor_le (x : Qc) : ofZ (MathFloor x) <= x.
Proof.
  unfold Qcle. rewrite this_ofZ. apply Qfloor_le.
Qed.

Lemma MathFloor_lt (x : Qc) : x < ofZ (MathFloor x + 1).
Proof.
  unfold Qclt. rewrite this_ofZ. apply Qlt_floor.
Qed.

Lemma MathFloor_unique (x : Qc) (n : Z) :
  ofZ n <= x -> x < ofZ (n + 1) -> MathFloor x = n.
Proof.
  unfold Qcle, Qclt. rewrite !this_ofZ. apply Qfloor_unique.
Qed.

Lemma ofZ_plus (a b : Z) : ofZ (a + b) = ofZ a + ofZ b.
Proof.
  apply Qc_is_canon. unfold Qcplus. rewrite !this_Q2Qc, !this_ofZ.
  rewrite inject_Z_plus. reflexivity.
Qed.

Lemma ofZ_opp (a : Z) : ofZ (- a) = - ofZ a.
Proof.
  apply Qc_is_canon. unfold Qcopp. rewrite !this_Q2Qc, !this_ofZ.
  rewrite inject_Z_opp. reflexivity.
Qed.


#[local] Instance Q2Qc_Proper : Proper (Qeq ==> eq) Q2Qc.
Proof. intros a b H. now apply Q2Qc_eq_iff. Qed.

Lemma this_ofDec (n : Z) (d : positive) : (this (ofDec n d) == n # d)%Q.
Proof. apply this_Q2Qc. Qed.

Ltac to_Q :=
  unfold Qcle, Qclt, Qcminus, Qcplus, Qcopp, Qcmult in *;
  repeat match goal with
         | H : context [this (Q2Qc _)] |- _ => rewrite this_Q2Qc in H
         | H : context [this (ofZ _)] |- _ => rewrite this_ofZ in H
         | H : context [this (ofDec _ _)] |- _ => rewrite this_ofDec in H
         | |- context [this (Q2Qc _)] => rewrite this_Q2Qc
         | |- context [this (ofZ _)] => rewrite this_ofZ
         | |- context [this (ofDec _ _)] => rewrite this_ofDec
         end;
  unfold inject_Z in *.

(** Closed equations between numbers: evaluate, then compare the
    fractions. *)
Ltac num_eq :=
  vm_compute;
  first [ reflexivity
        | repeat match goal with
                 | |- @eq Qc _ _ => apply Qc_is_canon; reflexivity
                 | |- _ => progress f_equal
                 end ].

(** [roundHalfUp1 x] is the multiple of 1/10 nearest to [x], the upper
    one when two are equally near. *)
Lemma roundHalfUp1_nearest (x : Qc) :
  exists z : Z, roundHalfUp1 x = ofZ z / ofZ 10 /\
    x * ofZ 10 - ofDec 1 2 < ofZ z /\ ofZ z <= x * ofZ 10 + ofDec 1 2.
Proof.
  exists (MathFloor (x * ofZ 10 + ofDec 1 2)). split; [reflexivity|].
  pose proof (MathFloor_le (x * ofZ 10 + ofDec 1 2)) as Hle.
  pose proof (MathFloor_lt (x * ofZ 10 + ofDec 1 2)) as Hlt.
  split; [|exact Hle].
  rewrite ofZ_plus in Hlt.
  set (z := MathFloor _) in *. clearbody z.
  to_Q. lra.
Qed.

Lemma MathFloor_opp_shift (t : Qc) :
  (forall z : Z, t <> ofZ z) ->
  MathFloor (- t + ofZ 1) = (- MathFloor t)%Z.
Proof.
  intro Hn.
  pose proof (MathFloor_le t) as Hle.
  pose proof (MathFloor_lt t) as Hlt.
  assert (Hne : ofZ (MathFloor t) < t).
  { destruct (Qcle_lt_or_eq _ _ Hle) as [H|H]; [exact H|].
    exfalso. apply (Hn (MathFloor t)). now symmetry. }
  rewrite ofZ_plus in Hlt.
  apply MathFloor_unique; rewrite ?ofZ_plus, ?ofZ_opp;
    set (z := MathFloor t) in *; clearbody z; to_Q; lra.
Qed.

Lemma roundHalfAway_no_tie (x : Qc) :
  (forall z : Z, x * ofZ 10 + ofDec 1 2 <> ofZ z) ->
  roundHalfAwayFromZero1 x = roundHalfUp1 x.
Proof.
  intro Hn. unfold roundHalfAwayFromZero1, roundHalfUp1.
  destruct (Qc_ltb x 0); [|reflexivity].
  replace (- x * ofZ 10 + ofDec 1 2) with (- (x * ofZ 10 + ofDec 1 2) + ofZ 1).
  - rewrite (MathFloor_opp_shift _ Hn), ofZ_opp. field. discriminate.
  - apply Qc_is_canon. to_Q. ring.
Qed.

(** ** The ensemble *)

Lemma sumField_accumulate (f : NumField) (e : Sums) (s : Weather) :
  sumField f (accumulate e s) = sumField f e + contribution f s.
Proof. destruct f; reflexivity. Qed.

Lemma sumField_fold (f : NumField) (srcs : list Weather) :
  forall e, sumField f (fold_left accumulate srcs e)
            = sumField f e + total (map (contribution f) srcs).
Proof.
  induction srcs as [|s r IH]; intro e; simpl.
  - ring.
  - rewrite IH, sumField_accumulate. ring.
Qed.

Lemma sumField_zero (f : NumField) : sumField f zeroSums = 0.
Proof. destruct f; reflexivity. Qed.

Lemma average_roundHalfUp1 (t : Qc) (n : nat) :
  average t n = roundHalfUp1 (t / ofZ (Z.of_nat n)).
Proof. unfold average, roundHalfUp1, MathRound. reflexivity. Qed.

Lemma Qc_ltb_false_of_le (x : Qc) : 0 <= x -> Qc_ltb x 0 = false.
Proof.
  intro H. unfold Qc_ltb. destruct (x ?= 0) eqn:E; auto.
  apply Qclt_alt in E. exfalso. apply (Qcle_not_lt _ _ H E).
Qed.

Lemma roundHalfAway_nonneg (x : Qc) :
  0 <= x -> roundHalfAwayFromZero1 x = roundHalfUp1 x.
Proof.
  intro H. unfold roundHalfAwayFromZero1. now rewrite Qc_ltb_false_of_le.
Qed.

Lemma createEnsembleWeather_two (a b : Weather) (r : list Weather) :
  createEnsembleWeather (a :: b :: r) = Some (ensembleOf (a :: b :: r) a).
Proof. reflexivity. Qed.

Lemma field_ensembleOf (f : NumField) (srcs : list Weather) (s0 : Weather) :
  field f (ensembleOf srcs s0)
  = Num (average (sumField f (fold_left accumulate srcs zeroSums))
                 (List.length srcs)).
Proof. destruct f; reflexivity. Qed.

Lemma field_ensembleOf_mean (f : NumField) (srcs : list Weather) (s0 : Weather) :
  field f (ensembleOf srcs s0)
  = Num (roundHalfUp1 (mean (map (contribution f) srcs))).
Proof.
  rewrite field_ensembleOf, average_roundHalfUp1, sumField_fold, sumField_zero.
  unfold mean. rewrite length_map.
  replace (0 + total (map (contribution f) srcs))
    with (total (map (contribution f) srcs)) by ring.
  reflexivity.
Qed.

(** A finite field contributes its value. *)
Lemma contribution_finite (f : NumField) (s : Weather) (q : Qc) :
  field f s = Num q -> contribution f s = q.
Proof.
  intro H. unfold contribution, orZero, orNum0, truthy. rewrite H.
  unfold Qc_eqb. destruct (Qc_eq_dec q 0) as [->|]; reflexivity.
Qed.

Example ensemble_10_11 :
  option_map temperature (createEnsembleWeather [reading (ofZ 10); reading (ofZ 11)])
  = Some (Num (ofDec 105 10)).
Proof. num_eq. Qed.

Example ensemble_single (r : Weather) : createEnsembleWeather [r] = Some r.
Proof. reflexivity. Qed.

Example ensemble_empty : createEnsembleWeather [] = None.
Proof. reflexivity. Qed.

(** ** The arithmetic of doubles *)

Lemma digits2_pos_iter (m p : positive) :
  digits2_pos (Pos.iter xO m p) = (digits2_pos m + p)%positive.
Proof.
  induction p as [|p IH] using Pos.peano_ind.
  - simpl. lia.
  - rewrite Pos.iter_succ. simpl. rewrite IH. lia.
Qed.

Lemma iter_xO_mul (m p : positive) :
  Pos.iter xO m p = (m * Pos.pow 2 p)%positive.
Proof.
  induction p as [|p IH] using Pos.peano_ind.
  - simpl. lia.
  - rewrite Pos.iter_succ, IH, Pos.pow_succ_r. lia.
Qed.

(** A number of [d] binary digits is at least [2^(d-1)]. *)
Lemma digits2_pos_lower (m : positive) :
  (2 ^ (Zpos (digits2_pos m) - 1) <= Zpos m)%Z.
Proof.
  induction m as [m IH|m IH|]; cbn [digits2_pos].
  - rewrite Pos2Z.inj_succ.
    replace (Z.succ (Zpos (digits2_pos m)) - 1)%Z
      with (Z.succ (Zpos (digits2_pos m) - 1)) by lia.
    rewrite Z.pow_succ_r by lia. lia.
  - rewrite Pos2Z.inj_succ.
    replace (Z.succ (Zpos (digits2_pos m)) - 1)%Z
      with (Z.succ (Zpos (digits2_pos m) - 1)) by lia.
    rewrite Z.pow_succ_r by lia. lia.
  - simpl. lia.
Qed.

(** A mantissa of 53 bits with an exponent in range is kept as it is. *)
Lemma binary_round_aux_exact (s : bool) (mz : positive) (ez : Z) :
  Zpos (digits2_pos mz) = 53%Z -> (-1074 <= ez <= 971)%Z ->
  binary_round_aux Binary64.prec Binary64.emax s (Zpos mz) ez loc_Exact
  = S754_finite s mz ez.
Proof.
  intros Hd He. unfold binary_round_aux, shr_fexp, fexp, emin.
  cbn [Zdigits2 shr_record_of_loc]. rewrite Hd.
  unfold Binary64.prec, Binary64.emax.
  replace (Z.max (53 + ez - 53) (3 - 1024 - 53) - ez)%Z with 0%Z by lia.
  cbn [shr shr_m loc_of_shr_record round_nearest_even Zdigits2 shr_record_of_loc].
  rewrite Hd.
  replace (Z.max (53 + ez - 53) (3 - 1024 - 53) - ez)%Z with 0%Z by lia.
  cbn [shr shr_m].
  destruct (Z.leb_spec ez (1024 - 53)); [reflexivity | lia].
Qed.

(** An integer of at most 53 bits is converted without rounding: its
    mantissa is shifted to 53 bits. *)
Lemma ofZ_small (s : bool) (m : positive) :
  (Zpos (digits2_pos m) <= 53)%Z ->
  exists mz,
    Binary64.ofZ (cond_Zopp s (Zpos m))
    = S754_finite s mz (Zpos (digits2_pos m) - 53) /\
    Zpos mz = (Zpos m * 2 ^ (53 - Zpos (digits2_pos m)))%Z.
Proof.
  intro Hd. unfold Binary64.ofZ.
  assert (E : binary_normalize Binary64.prec Binary64.emax
                (cond_Zopp s (Zpos m)) 0 false
              = binary_round Binary64.prec Binary64.emax s m 0)
    by now destruct s.
  rewrite E. unfold binary_round, fexp, emin, Binary64.prec, Binary64.emax.
  replace (Z.max (Zpos (digits2_pos m) + 0 - 53) (3 - 1024 - 53))%Z
    with (Zpos (digits2_pos m) - 53)%Z by lia.
  unfold shl_align.
  destruct (Zpos (digits2_pos m) - 53 - 0)%Z as [|p|p] eqn:Ep; try lia.
  - exists m. split.
    + replace (Zpos (digits2_pos m) - 53)%Z with 0%Z by lia.
      apply binary_round_aux_exact; lia.
    + replace (53 - Zpos (digits2_pos m))%Z with 0%Z by lia. lia.
  - exists (Pos.iter xO m p). split.
    + apply binary_round_aux_exact; [|lia].
      rewrite digits2_pos_iter. lia.
    + rewrite iter_xO_mul.
      replace (53 - Zpos (digits2_pos m))%Z with (Zpos p) by lia.
      rewrite Pos2Z.inj_mul, Pos2Z.inj_pow. reflexivity.
Qed.

Lemma pow2_neg (d : Z) :
  (0 <= d)%Z -> (inject_Z (2 ^ d) * Binary64.pow2 (- d) == 1)%Q.
Proof.
  intro Hd. destruct d as [|p|p]; try lia.
  - reflexivity.
  - cbn [Z.opp Binary64.pow2]. rewrite <- Pos2Z.inj_pow.
    unfold Qeq, Qmult, inject_Z. cbn [Qnum Qden]. lia.
Qed.

(** The conversion of an integer below [2^53] in magnitude is exact. *)
Lemma exact_ofZ (k : Z) :
  (- 2 ^ 53 < k < 2 ^ 53)%Z ->
  Binary64.exact (Binary64.ofZ k) = Some (ofZ k).
Proof.
  intro Hk. destruct k as [|m|m].
  - reflexivity.
  - assert (Hd : (Zpos (digits2_pos m) <= 53)%Z).
    { pose proof (digits2_pos_lower m) as Hl.
      destruct (Z.le_gt_cases (Zpos (digits2_pos m)) 53) as [H|H]; [exact H|].
      exfalso.
      assert (2 ^ 53 <= 2 ^ (Zpos (digits2_pos m) - 1))%Z
        by (apply Z.pow_le_mono_r; lia).
      lia. }
    destruct (ofZ_small false m Hd) as (mz & E & Hmz).
    cbn [cond_Zopp] in E. rewrite E. cbn [Binary64.exact cond_Zopp].
    f_equal. unfold ofZ. apply Q2Qc_eq_iff. rewrite Hmz, inject_Z_mult.
    replace (Zpos (digits2_pos m) - 53)%Z
      with (- (53 - Zpos (digits2_pos m)))%Z by lia.
    rewrite <- Qmult_assoc, pow2_neg by lia. ring.
  - assert (Hd : (Zpos (digits2_pos m) <= 53)%Z).
    { pose proof (digits2_pos_lower m) as Hl.
      destruct (Z.le_gt_cases (Zpos (digits2_pos m)) 53) as [H|H]; [exact H|].
      exfalso.
      assert (2 ^ 53 <= 2 ^ (Zpos (digits2_pos m) - 1))%Z
        by (apply Z.pow_le_mono_r; lia).
      lia. }
    destruct (ofZ_small true m Hd) as (mz & E & Hmz).
    cbn [cond_Zopp] in E. change (- Zpos m)%Z with (Zneg m) in E.
    rewrite E. cbn [Binary64.exact cond_Zopp].
    f_equal. unfold ofZ. apply Q2Qc_eq_iff.
    change (- Zpos mz)%Z with (- (Zpos mz))%Z. rewrite Hmz.
    rewrite <- Z.mul_opp_l, inject_Z_mult.
    replace (Zpos (digits2_pos m) - 53)%Z
      with (- (53 - Zpos (digits2_pos m)))%Z by lia.
    rewrite <- Qmult_assoc, pow2_neg by lia.
    change (- Zpos m)%Z with (Zneg m). ring.
Qed.

(** An integral number is its own rounding. *)
Lemma MathFloor_integer (n : Z) : MathFloor (ofZ n + ofDec 1 2) = n.
Proof.
  apply MathFloor_unique; rewrite ?ofZ_plus; to_Q; lra.
Qed.

Lemma pow2_nonneg (e : Z) :
  (0 <= e)%Z -> (Binary64.pow2 e == inject_Z (2 ^ e))%Q.
Proof.
  intro He. destruct e as [|p|p]; try lia.
  - reflexivity.
  - cbn [Binary64.pow2]. rewrite Pos2Z.inj_pow. reflexivity.
Qed.

(** [Math.round] of a double below [2^52] in magnitude is exactly
    [floor(x + 1/2)]. *)
Lemma MathRound_exact (x : spec_float) (q : Qc) :
  Binary64.exact x = Some q ->
  - ofZ (2 ^ 52) < q -> q < ofZ (2 ^ 52) ->
  Binary64.exact (Binary64.MathRound x)
  = Some (ofZ (MathFloor (q + ofDec 1 2))).
Proof.
  intros Hx Hlo Hhi. destruct x as [s|s| |s m e]; try discriminate Hx.
  - cbn [Binary64.exact] in Hx. injection Hx as <-.
    cbn [Binary64.MathRound Binary64.exact]. f_equal.
  - cbn [Binary64.exact] in Hx. injection Hx as Hq.
    set (M := cond_Zopp s (Zpos m)) in *.
    cbn [Binary64.MathRound]. fold M.
    destruct (Z.leb_spec 0 e) as [He|He].
    + cbn [Binary64.exact]. fold M. f_equal.
      assert (E : q = ofZ (M * 2 ^ e)).
      { rewrite <- Hq. unfold ofZ. apply Q2Qc_eq_iff.
        rewrite (pow2_nonneg e He), inject_Z_mult. reflexivity. }
      rewrite Hq. rewrite E at 2. rewrite MathFloor_integer. exact E.
    + set (P := (2 ^ (- e))%Z).
      assert (HP : (0 < P)%Z) by (apply Z.pow_pos_nonneg; lia).
      assert (HP2 : (2 ^ (1 - e) = 2 * P)%Z).
      { replace (1 - e)%Z with (Z.succ (- e)) by lia.
        apply Z.pow_succ_r. lia. }
      rewrite HP2.
      set (k := ((2 * M + P) / (2 * P))%Z).
      assert (Hk1 : (2 * P * k <= 2 * M + P)%Z)
        by (apply Z.mul_div_le; lia).
      assert (Hk2 : (2 * M + P < 2 * P * Z.succ k)%Z)
        by (apply Z.mul_succ_div_gt; lia).
      assert (HqP : (this q * inject_Z P == inject_Z M)%Q).
      { rewrite <- Hq, this_Q2Qc. unfold P.
        pose proof (pow2_neg (- e) ltac:(lia)) as Hp.
        rewrite Z.opp_involutive in Hp.
        transitivity (inject_Z M * (inject_Z (2 ^ (- e)) * Binary64.pow2 e))%Q;
          [ring | rewrite Hp; ring]. }
      assert (HPQ : (0 < inject_Z P)%Q)
        by (change 0%Q with (inject_Z 0); rewrite <- Zlt_Qlt; exact HP).
      rewrite Zle_Qle in Hk1. rewrite Zlt_Qlt in Hk2.
      rewrite !inject_Z_mult, !inject_Z_plus, !inject_Z_mult in Hk1.
      rewrite !inject_Z_mult, !inject_Z_plus, !inject_Z_mult in Hk2.
      unfold Z.succ in Hk2. rewrite inject_Z_plus in Hk2.
      assert (Hfloor : MathFloor (q + ofDec 1 2) = k).
      { apply MathFloor_unique; rewrite ?ofZ_plus.
        - unfold Qcle, Qcplus. rewrite this_Q2Qc, this_ofZ, this_ofDec.
          set (t := this q) in *. set (PQ := inject_Z P) in *.
          set (kQ := inject_Z k) in *. set (MQ := inject_Z M) in *.
          change (inject_Z 2) with 2%Q in *.
          nra.
        - unfold Qclt, Qcplus. rewrite !this_Q2Qc, !this_ofZ, this_ofDec.
          set (t := this q) in *. set (PQ := inject_Z P) in *.
          set (kQ := inject_Z k) in *. set (MQ := inject_Z M) in *.
          change (inject_Z 2) with 2%Q in *.
          change (inject_Z 1) with 1%Q in *.
          nra. }
      rewrite Hfloor.
      destruct (Z.eqb_spec k 0) as [Hk0|Hk0].
      * rewrite Hk0. reflexivity.
      * apply exact_ofZ.
        pose proof (MathFloor_le (q + ofDec 1 2)) as Hle.
        pose proof (MathFloor_lt (q + ofDec 1 2)) as Hlt.
        rewrite Hfloor in Hle, Hlt.
        assert (H1 : ofZ (- 2 ^ 52 - 1) < ofZ k).
        { rewrite ofZ_plus in Hlt.
          clear - Hlt Hlo. revert Hlt Hlo.
          unfold Qclt, Qcplus, Qcopp.
          rewrite ?this_Q2Qc, ?this_ofZ, ?this_ofDec.
          set (t := this q). set (kQ := inject_Z k).
          change (inject_Z 1) with 1%Q.
          change (inject_Z (2 ^ 52)) with (4503599627370496 # 1)%Q.
          change (inject_Z (- 2 ^ 52 - 1)) with (- 4503599627370497 # 1)%Q.
          intros. lra. }
        assert (H2 : ofZ k < ofZ (2 ^ 52 + 1)).
        { clear - Hle Hhi. revert Hle Hhi.
          unfold Qclt, Qcle, Qcplus, Qcopp.
          rewrite ?this_Q2Qc, ?this_ofZ, ?this_ofDec.
          set (t := this q). set (kQ := inject_Z k).
          change (inject_Z (2 ^ 52)) with (4503599627370496 # 1)%Q.
          change (inject_Z (2 ^ 52 + 1)) with (4503599627370497 # 1)%Q.
          intros. lra. }
        unfold Qclt in H1, H2. rewrite !this_ofZ in H1, H2.
        rewrite <- Zlt_Qlt in H1, H2.
        change (2 ^ 53)%Z with 9007199254740992%Z.
        change (2 ^ 52)%Z with 4503599627370496%Z in H1, H2.
        lia.
Qed.

Lemma double_sumField_accumulate (f : NumField) (e : Binary64.Sums)
      (s : Binary64.Weather) :
  Binary64.sumField f (Binary64.accumulate e s)
  = Binary64.add (Binary64.sumField f e) (Binary64.contribution f s).
Proof. destruct f; reflexivity. Qed.

Lemma double_sumField_fold (f : NumField) (srcs : list Binary64.Weather) :
  forall e,
    Binary64.sumField f (fold_left Binary64.accumulate srcs e)
    = fold_left Binary64.add (map (Binary64.contribution f) srcs)
                (Binary64.sumField f e).
Proof.
  induction srcs as [|s r IH]; intro e; simpl.
  - reflexivity.
  - rewrite IH, double_sumField_accumulate. reflexivity.
Qed.

Lemma double_field_ensembleOf (f : NumField) (srcs : list Binary64.Weather)
      (s0 : Binary64.Weather) :
  Binary64.field f (Binary64.ensembleOf srcs s0)
  = Binary64.Number
      (Binary64.average (Binary64.total (map (Binary64.contribution f) srcs))
                        (List.length srcs)).
Proof.
  unfold Binary64.total.
  replace Binary64.zero with (Binary64.sumField f Binary64.zeroSums)
    by (destruct f; reflexivity).
  rewrite <- double_sumField_fold. destruct f; reflexivity.
Qed.

(** The rounded integer, read as tenths, is the rounding of the scaled
    mean to one decimal with ties upwards; it is the rounding with ties
    away from zero when the scaled mean is not negative or not a tie. *)
Lemma tenths_of_rounded (q : Qc) :
  let k := MathFloor (q + ofDec 1 2) in
  ofZ k / ofZ 10 = roundHalfUp1 (q / ofZ 10) /\
  q - ofDec 1 2 < ofZ k /\ ofZ k <= q + ofDec 1 2 /\
  (0 <= q -> ofZ k / ofZ 10 = roundHalfAwayFromZero1 (q / ofZ 10)) /\
  ((forall z : Z, q + ofDec 1 2 <> ofZ z) ->
   ofZ k / ofZ 10 = roundHalfAwayFromZero1 (q / ofZ 10)).
Proof.
  intro k.
  assert (E : q / ofZ 10 * ofZ 10 = q) by (field; discriminate).
  assert (Hup : ofZ k / ofZ 10 = roundHalfUp1 (q / ofZ 10))
    by (unfold roundHalfUp1; rewrite E; reflexivity).
  pose proof (MathFloor_le (q + ofDec 1 2)) as Hle.
  pose proof (MathFloor_lt (q + ofDec 1 2)) as Hlt.
  fold k in Hle, Hlt. rewrite ofZ_plus in Hlt.
  split; [exact Hup|]. split; [|split; [exact Hle|split]].
  - clearbody k. clear - Hlt. to_Q. lra.
  - intro H0. rewrite Hup. symmetry. apply roundHalfAway_nonneg.
    clear - H0. unfold Qcdiv. 
    replace 0 with (0 * / ofZ 10) by ring.
    apply Qcmult_le_compat_r; [exact H0 | discriminate].
  - intro Hn. rewrite Hup. symmetry. apply roundHalfAway_no_tie.
    rewrite E. exact Hn.
Qed.

(** C1, as amended.  For two or more records, every numeric field of the
    ensemble is computed in double precision as
    [Math.round(mean * 10) / 10], where [mean] is the sum of the records'
    contributions, added from left to right, divided by their number.
    [Math.round] is exact: on the scaled mean [y] it yields the integer
    [floor(y + 1/2)], the nearest one, the upper one at a tie.  So the
    field is [y] rounded to the nearest tenth with ties towards
    +infinity; this is the rounding away from zero whenever [y] is not
    negative or is not a tie, and only then. *)
Theorem C1_ensemble_field_is_rounded_mean (srcs : list Binary64.Weather)
        (f : NumField) :
  (2 <= List.length srcs)%nat ->
  exists e,
    Binary64.createEnsembleWeather srcs = Some e /\
    let y := Binary64.mul
               (Binary64.mean (map (Binary64.contribution f) srcs))
               (Binary64.ofZ 10) in
    Binary64.field f e
    = Binary64.Number (Binary64.div (Binary64.MathRound y) (Binary64.ofZ 10)) /\
    forall q : Qc,
      Binary64.exact y = Some q ->
      - ofZ (2 ^ 52) < q -> q < ofZ (2 ^ 52) ->
      exists k : Z,
        Binary64.exact (Binary64.MathRound y) = Some (ofZ k) /\
        k = MathFloor (q + ofDec 1 2) /\
        ofZ k / ofZ 10 = roundHalfUp1 (q / ofZ 10) /\
        q - ofDec 1 2 < ofZ k /\ ofZ k <= q + ofDec 1 2 /\
        (0 <= q -> ofZ k / ofZ 10 = roundHalfAwayFromZero1 (q / ofZ 10)) /\
        ((forall z : Z, q + ofDec 1 2 <> ofZ z) ->
         ofZ k / ofZ 10 = roundHalfAwayFromZero1 (q / ofZ 10)).
Proof.
  intro Hlen.
  destruct srcs as [|a [|b r]]; cbn [List.length] in Hlen; try lia.
  exists (Binary64.ensembleOf (a :: b :: r) a). split; [reflexivity|].
  cbv zeta. split.
  - rewrite double_field_ensembleOf. unfold Binary64.average, Binary64.mean.
    rewrite length_map. reflexivity.
  - intros q Hq Hlo Hhi.
    exists (MathFloor (q + ofDec 1 2)).
    split; [exact (MathRound_exact _ q Hq Hlo Hhi)|].
    split; [reflexivity|].
    exact (tenths_of_rounded q).
Qed.

Lemma C1_ensemble_field_is_rounded_mean_witness :
  (2 <= List.length [Binary64.reading (Binary64.ofZ 10);
                     Binary64.reading (Binary64.ofZ 11)])%nat /\
  exists e,
    Binary64.createEnsembleWeather
      [Binary64.reading (Binary64.ofZ 10); Binary64.reading (Binary64.ofZ 11)]
    = Some e /\
    Binary64.temperature e = Binary64.Number (Binary64.ofDec 105 10) /\
    Binary64.exact (Binary64.ofDec 105 10) = Some (ofDec 21 2).
Proof.
  split; [simpl; lia|].
  destruct (C1_ensemble_field_is_rounded_mean
              [Binary64.reading (Binary64.ofZ 10);
               Binary64.reading (Binary64.ofZ 11)] Temperature)
    as (e & He & Hf & _); [simpl; lia|].
  exists e. split; [exact He|]. split.
  - exact Hf.
  - vm_compute. f_equal. apply Qc_is_canon. reflexivity.
Defined.

(** The examples of the double arithmetic: decimal readings are not
    exact, so the scaled mean of 10.1 and 10.2 falls just below the tie
    101.5, and that of 23.05, 21.5 and 21 just below 218.5. *)
Example double_ensemble_10_1_10_2 :
  option_map Binary64.temperature
    (Binary64.createEnsembleWeather
       [Binary64.reading (Binary64.ofDec 101 10);
        Binary64.reading (Binary64.ofDec 102 10)])
  = Some (Binary64.Number (Binary64.ofDec 101 10)).
Proof. vm_compute. reflexivity. Qed.

Example double_ensemble_three :
  option_map Binary64.temperature
    (Binary64.createEnsembleWeather
       [Binary64.reading (Binary64.ofDec 2305 100);
        Binary64.reading (Binary64.ofDec 215 10);
        Binary64.reading (Binary64.ofZ 21)])
  = Some (Binary64.Number (Binary64.ofDec 218 10)).
Proof. vm_compute. reflexivity. Qed.

(** The claim as worded fails on a negative tie: the readings -1 and
    -1.5 are exact, their mean is -1.25, which rounds away from zero to
    -1.3, and the ensemble holds -1.2. *)
Lemma C1_counterexample :
  let srcs := [Binary64.reading (Binary64.ofZ (-1));
               Binary64.reading (Binary64.ofDec (-15) 10)] in
  map (fun s => Binary64.exact (Binary64.contribution Temperature s)) srcs
  = [Some (ofZ (-1)); Some (ofDec (-3) 2)] /\
  mean [ofZ (-1); ofDec (-3) 2] = ofDec (-5) 4 /\
  roundHalfAwayFromZero1 (ofDec (-5) 4) = ofDec (-13) 10 /\
  option_map Binary64.temperature (Binary64.createEnsembleWeather srcs)
  = Some (Binary64.Number (Binary64.ofDec (-12) 10)) /\
  Binary64.ofDec (-12) 10 <> Binary64.ofDec (-13) 10.
Proof.
  cbv zeta.
  split; [num_eq|]. split; [num_eq|]. split; [num_eq|].
  split; [vm_compute; reflexivity | vm_compute; discriminate].
Qed.

(** ** Normalizers and the order of the sources *)

Lemma normalizeWeatherbitData_returned (d : option WB.Current) (app app' : App)
    (w : Weather) :
  normalizeWeatherbitData d app = (Returned w, app') ->
  exists data weather,
    d = Some data /\ WB.weather data = Some weather /\
    w = weatherbitRecord data weather (readings app (reads app)) /\
    app' = ticked app.
Proof.
  unfold normalizeWeatherbitData, bind, lift, prop_of, dateNow, ret.
  destruct d as [data|]; [|discriminate].
  destruct (WB.weather data) as [weather|] eqn:Ew; [|discriminate].
  intro H. injection H as <- <-. exists data, weather. repeat split; auto.
Qed.

Lemma normalizeOpenMeteoData_returned (d : OM.Payload) (app app' : App)
    (w : Weather) :
  normalizeOpenMeteoData d app = (Returned w, app') ->
  exists current,
    OM.current d = Some current /\
    w = openMeteoRecord current (readings app (reads app)) /\
    app' = ticked app.
Proof.
  unfold normalizeOpenMeteoData, bind, lift, prop_of, dateNow, ret.
  destruct (OM.current d) as [current|] eqn:Ec; [|discriminate].
  intro H. injection H as <- <-. exists current. repeat split; auto.
Qed.

Lemma bind_returned {A B} (m : M A) (k : A -> M B) (app app' : App) (b : B) :
  bind m k app = (Returned b, app') ->
  exists a app1, m app = (Returned a, app1) /\ k a app1 = (Returned b, app').
Proof.
  unfold bind. destruct (m app) as [[a|e] app1]; [|discriminate].
  intro H. now exists a, app1.
Qed.

Lemma normalizeOpenWeatherMapData_recordOf (d : OWM.Current) (w : Weather) :
  normalizeOpenWeatherMapData d = Returned w -> recordOf Primary w.
Proof.
  unfold normalizeOpenWeatherMapData, obind, prop_of.
  destruct (OWM.main d), (OWM.wind d), (OWM.clouds d), (OWM.weather d) as [l|];
    try discriminate.
  destruct (nth_error l 0); [|discriminate].
  intro H. injection H as <-. split; reflexivity.
Qed.

Lemma normalizeWeatherbitData_recordOf (d : option WB.Current) (app app' : App)
    (w : Weather) :
  normalizeWeatherbitData d app = (Returned w, app') ->
  recordOf Secondary w /\ weatherData app' = weatherData app.
Proof.
  intro H. apply normalizeWeatherbitData_returned in H.
  destruct H as (data & weather & _ & _ & -> & ->). repeat split.
Qed.

Lemma normalizeOpenMeteoData_recordOf (d : OM.Payload) (app app' : App)
    (w : Weather) :
  normalizeOpenMeteoData d app = (Returned w, app') ->
  recordOf Tertiary w /\ weatherData app' = weatherData app.
Proof.
  intro H. apply normalizeOpenMeteoData_returned in H.
  destruct H as (cur & _ & -> & ->). repeat split.
Qed.

Lemma recordsOf_snoc (ps : list Provider) (srcs : list Weather)
    (p : Provider) (w : Weather) :
  recordsOf ps srcs -> recordOf p w -> recordsOf (ps ++ [p]) (srcs ++ [w]).
Proof.
  intros H Hw. apply Forall2_app; [exact H|]. constructor; [exact Hw|constructor].
Qed.

Lemma currentWeatherSources_order (results : Results) (app app' : App)
    (srcs : list Weather) :
  currentWeatherSources results app = (Returned srcs, app') ->
  recordsOf (filter (supplied results) [Primary; Secondary; Tertiary]) srcs /\
  weatherData app' = weatherData app.
Proof.
  unfold currentWeatherSources. intro H.
  apply bind_returned in H as (s1 & a1 & H1 & H).
  apply bind_returned in H as (s2 & a2 & H2 & H3).
  assert (S1 : recordsOf (filter (supplied results) [Primary]) s1 /\ a1 = app).
  { simpl. destruct (owmResult results) as [v|r]; simpl.
    - apply bind_returned in H1 as (w & a & Hw & Hr).
      unfold lift in Hw. injection Hw as Hw <-.
      injection Hr as <- <-. split; [|reflexivity].
      constructor; [|constructor].
      now apply normalizeOpenWeatherMapData_recordOf in Hw.
    - injection H1 as <- <-. split; [constructor|reflexivity]. }
  destruct S1 as [S1 ->].
  assert (S2 : recordsOf (filter (supplied results) [Primary; Secondary]) s2 /\
               weatherData a2 = weatherData app).
  { change [Primary; Secondary] with ([Primary] ++ [Secondary]).
    rewrite filter_app. simpl filter at 2.
    destruct (weatherbitResult results) as [v|r]; simpl isFulfilled; cbv iota.
    - apply bind_returned in H2 as (w & a & Hw & Hr).
      injection Hr as <- <-.
      apply normalizeWeatherbitData_recordOf in Hw as [Hw Ha].
      split; [|exact Ha]. now apply recordsOf_snoc.
    - injection H2 as <- <-. rewrite app_nil_r. now split. }
  destruct S2 as [S2 E2].
  change [Primary; Secondary; Tertiary] with ([Primary; Secondary] ++ [Tertiary]).
  rewrite filter_app. simpl filter at 2.
  destruct (openMeteoResult results) as [v|r]; simpl isFulfilled; cbv iota.
  - apply bind_returned in H3 as (w & a & Hw & Hr).
    injection Hr as <- <-.
    apply normalizeOpenMeteoData_recordOf in Hw as [Hw Ha].
    split; [|now rewrite Ha]. now apply recordsOf_snoc.
  - injection H3 as <- <-. rewrite app_nil_r. now split.
Qed.

Lemma recordsOf_sources (ps : list Provider) (srcs : list Weather) :
  recordsOf ps srcs -> map source srcs = map named ps.
Proof.
  induction 1 as [|p w ps srcs [Hs _] _ IH]; simpl; [reflexivity|].
  now rewrite Hs, IH.
Qed.

Lemma Provider_eqb_eq (p q : Provider) : Provider_eqb p q = true <-> p = q.
Proof. destruct p, q; simpl; split; (reflexivity || discriminate). Qed.

(** Putting any listing of the suppliers in priority order gives the
    order in which [processEnsembleData] pushes the records. *)
Lemma priorityOrder_supplied (results : Results) (S : list Provider) :
  (forall p, In p S <-> supplied results p = true) ->
  priorityOrder S = filter (supplied results) [Primary; Secondary; Tertiary].
Proof.
  intro H. unfold priorityOrder. apply filter_ext. intro p.
  destruct (supplied results p) eqn:E.
  - apply existsb_exists. exists p. split; [now apply H | now apply Provider_eqb_eq].
  - destruct (existsb (Provider_eqb p) S) eqn:X; [|reflexivity].
    apply existsb_exists in X as (q & Hq & Hpq).
    apply Provider_eqb_eq in Hpq as <-. apply H in Hq. congruence.
Qed.

(** ** Methods that keep a relation between the application before
    and after *)

Section Preservation.

Variable P : App -> App -> Prop.
Hypothesis P_refl : forall a, P a a.
Hypothesis P_trans : forall a b c, P a b -> P b c -> P a c.

Lemma preserves_ret {A} (a : A) : preserves P (ret a).
Proof. intro app. apply P_refl. Qed.

Lemma preserves_throw {A} (e : string) : preserves P (@throw A e).
Proof. intro app. apply P_refl. Qed.

Lemma preserves_lift {A} (o : outcome A) : preserves P (lift o).
Proof. intro app. apply P_refl. Qed.

Lemma preserves_getApp : preserves P getApp.
Proof. intro app. apply P_refl. Qed.

Lemma preserves_bind {A B} (m : M A) (k : A -> M B) :
  preserves P m -> (forall a, preserves P (k a)) -> preserves P (bind m k).
Proof.
  intros Hm Hk app. unfold bind.
  specialize (Hm app). destruct (m app) as [[a|e] app1]; simpl in *.
  - eapply P_trans; [exact Hm | apply Hk].
  - exact Hm.
Qed.

Lemma preserves_modify (f : App -> App) :
  (forall app, P app (f app)) -> preserves P (modify f).
Proof. intros H app. apply H. Qed.

Lemma preserves_tryCatchFinally (body : M unit) (handler : string -> M unit)
    (final : M unit) :
  preserves P body -> (forall e, preserves P (handler e)) -> preserves P final ->
  preserves P (tryCatchFinally body handler final).
Proof.
  intros Hb Hh Hf app. unfold tryCatchFinally.
  specialize (Hb app). destruct (body app) as [[u|e] app1]; simpl in *.
  - eapply P_trans; [exact Hb | apply Hf].
  - specialize (Hh e app1). destruct (handler e app1) as [[u|e'] app2]; simpl in *.
    + eapply P_trans; [exact Hb|]. eapply P_trans; [exact Hh | apply Hf].
    + specialize (Hf app2). destruct (final app2) as [[u|e3] app3]; simpl in *;
        (eapply P_trans; [exact Hb|]; eapply P_trans; [exact Hh | exact Hf]).
Qed.

End Preservation.

(** ** What a cycle leaves in [weatherData.current] *)

Lemma sameButForecasts_refl (a : App) : sameButForecasts a a.
Proof. repeat split. Qed.

Lemma sameButForecasts_trans (a b c : App) :
  sameButForecasts a b -> sameButForecasts b c -> sameButForecasts a c.
Proof.
  intros (H1 & H2 & H3 & H4 & H5) (K1 & K2 & K3 & K4 & K5).
  repeat split; etransitivity; eassumption.
Qed.

Lemma processEnsembleForecasts_keeps (results : Results) :
  preserves sameButForecasts (processEnsembleForecasts results).
Proof.
  pose proof sameButForecasts_refl as R.
  pose proof sameButForecasts_trans as T.
  unfold processEnsembleForecasts.
  repeat first
    [ apply (preserves_bind _ T)
    | apply (preserves_ret _ R)
    | apply (preserves_lift _ R)
    | match goal with
      | |- forall _, preserves _ _ => intro
      | |- preserves _ (match ?x with _ => _ end) => destruct x
      | |- preserves _ (modifyData _) =>
          apply preserves_modify; intro; repeat split
      end ].
Qed.

Lemma snd_bind {A B} (m : M A) (k : A -> M B) (app : App) :
  snd (bind m k app)
  = match m app with
    | (Returned a, app1) => snd (k a app1)
    | (Thrown _, app1) => app1
    end.
Proof. unfold bind. now destruct (m app) as [[a|e] app1]. Qed.

Lemma processEnsembleData_current (results : Results) (app : App) :
  let app' := snd (processEnsembleData results app) in
  match currentWeatherSources results app with
  | (Returned srcs, _) => current (weatherData app') = createEnsembleWeather srcs
  | (Thrown _, app1) => app' = app1
  end.
Proof.
  cbv zeta. unfold processEnsembleData. rewrite snd_bind.
  destruct (currentWeatherSources results app) as [[srcs|e] app1]; [|reflexivity].
  rewrite snd_bind. unfold modifyData at 1, modify at 1.
  set (app2 := set_weatherData _ app1).
  assert (H2 : current (weatherData app2) = createEnsembleWeather srcs)
    by reflexivity.
  clearbody app2. rewrite snd_bind.
  destruct (processEnsembleForecasts_keeps results app2) as [Hc _].
  destruct (processEnsembleForecasts results app2) as [[[]|e] app3];
    simpl in Hc; [|now rewrite <- Hc].
  rewrite <- H2, Hc.
  unfold bind, modifyData, modify, ret.
  destruct (aqResult results), (alertsResult results); reflexivity.
Qed.

(** ** C2: the order of the contributing providers *)

Lemma sources_ensembleOf (srcs : list Weather) (s0 : Weather) :
  sources (ensembleOf srcs s0) = Some (map source srcs).
Proof. reflexivity. Qed.

(** Primary fails, Secondary reports 20 degrees and Tertiary 22: the
    consensus is 21 from Secondary and Tertiary. *)
Example cycle_two_providers :
  let stored := current (weatherData (snd (processEnsembleData resultsTwo app0))) in
  option_map temperature stored = Some (Num (ofZ 21)) /\
  option_map sources stored = Some (Some [Some "Weatherbit"; Some "Open-Meteo"]).
Proof.
  cbv zeta. split; [num_eq|reflexivity].
Qed.

Example cycle_three_providers :
  option_map sources
    (current (weatherData (snd (processEnsembleData resultsAll app0))))
  = Some (Some [Some "OpenWeatherMap"; Some "Weatherbit"; Some "Open-Meteo"]).
Proof. reflexivity. Qed.

(** C2, as amended.  Let [S] list, in any order, the providers whose
    fetch was fulfilled, and let no normalizer throw.  With two or more
    providers, the ensemble [processEnsembleData] stores lists as its
    sources exactly [S] in the order Primary, Secondary, Tertiary: the
    records are always pushed in that order.  With one provider the
    stored reading is that provider's record, unchanged, which has no
    list of sources.  [createEnsembleWeather] itself keeps the order of
    the list it is given. *)
Theorem C2_sources_follow_push_order (results : Results) (app : App)
    (S : list Provider) :
  (forall p, In p S <-> supplied results p = true) ->
  (exists srcs app1, currentWeatherSources results app = (Returned srcs, app1)) ->
  let stored := current (weatherData (snd (processEnsembleData results app))) in
  ((2 <= List.length (priorityOrder S))%nat ->
   exists e, stored = Some e /\
     sources e = Some (map named (priorityOrder S))) /\
  (forall p, priorityOrder S = [p] ->
   exists r, stored = Some r /\ source r = named p /\ sources r = None) /\
  (forall l, (2 <= List.length l)%nat ->
   option_map sources (createEnsembleWeather l) = Some (Some (map source l))).
Proof.
  intros HS (srcs & app1 & Hsrcs). cbv zeta.
  pose proof (processEnsembleData_current results app) as Hcur.
  cbv zeta in Hcur. rewrite Hsrcs in Hcur. rewrite Hcur.
  apply currentWeatherSources_order in Hsrcs as [Hrec _].
  rewrite <- (priorityOrder_supplied results S HS) in Hrec.
  split; [|split].
  - intro Hlen.
    pose proof (Forall2_length Hrec) as Hl.
    pose proof (recordsOf_sources _ _ Hrec) as Hm.
    destruct srcs as [|a [|b r]]; simpl in Hl; try lia.
    exists (ensembleOf (a :: b :: r) a). split; [reflexivity|].
    now rewrite sources_ensembleOf, Hm.
  - intros p Hp. rewrite Hp in Hrec.
    inversion Hrec as [|p' r ps rs [Hs Hn] Hrest]; subst.
    inversion Hrest; subst.
    exists r. now repeat split.
  - intros l Hlen. destruct l as [|a [|b r]]; simpl in Hlen; try lia.
    reflexivity.
Qed.

Lemma C2_sources_follow_push_order_witness :
  exists e,
    current (weatherData (snd (processEnsembleData resultsTwo app0))) = Some e /\
    sources e = Some [Some "Weatherbit"; Some "Open-Meteo"].
Proof.
  destruct (C2_sources_follow_push_order resultsTwo app0 [Tertiary; Secondary])
    as [H _].
  - intros [| |]; simpl; split; intro H;
      try discriminate; try reflexivity; try tauto;
      destruct H as [H|[H|[]]]; discriminate.
  - eexists _, _. vm_compute. reflexivity.
  - destruct H as (e & He & Hs); [vm_compute; lia|].
    exists e. split; [exact He | exact Hs].
Defined.

(** C2 as stated fails on the aggregator: given Secondary's record
    before Primary's, it lists them in that order; and for a single
    record it returns the record, which has no list of sources. *)
Lemma C2_counterexample :
  option_map sources
    (createEnsembleWeather [readingOf Secondary (ofZ 20); readingOf Primary (ofZ 22)])
  = Some (Some [Some "Weatherbit"; Some "OpenWeatherMap"]) /\
  option_map sources
    (createEnsembleWeather [readingOf Secondary (ofZ 20); readingOf Primary (ofZ 22)])
  <> Some (Some (map named (priorityOrder [Secondary; Primary]))) /\
  option_map sources (createEnsembleWeather [readingOf Tertiary (ofZ 22)])
  <> Some (Some (map named (priorityOrder [Tertiary]))).
Proof.
  split; [reflexivity|]. split; intro H; vm_compute in H; discriminate H.
Qed.

(** ** C3: repeating a normalization *)

Lemma withoutTimestamp_weatherbitRecord (data : WB.Current)
    (weather : WB.Condition) (now now' : Z) :
  withoutTimestamp (weatherbitRecord data weather now)
  = withoutTimestamp (weatherbitRecord data weather now').
Proof. reflexivity. Qed.

Lemma withoutTimestamp_openMeteoRecord (current : OM.Current.t) (now now' : Z) :
  withoutTimestamp (openMeteoRecord current now)
  = withoutTimestamp (openMeteoRecord current now').
Proof. reflexivity. Qed.

(** C3, as amended.  Two normalizations of one payload, made in any two
    states of the application, agree on every field but [timestamp]:
    Weatherbit's and Open-Meteo's records take it from the clock
    ([Date.now() / 1000]), so they are identical when the clock reads the
    same, and OpenWeatherMap's normalizer does not depend on the state
    at all. *)
Theorem C3_normalize_repeatable_up_to_timestamp (app1 app2 : App) :
  (forall d w1 w2 a1 a2,
     normalizeWeatherbitData d app1 = (Returned w1, a1) ->
     normalizeWeatherbitData d app2 = (Returned w2, a2) ->
     withoutTimestamp w1 = withoutTimestamp w2 /\
     timestamp w1 = Num (ofZ (nextReading app1) / ofZ 1000) /\
     (nextReading app1 = nextReading app2 -> w1 = w2)) /\
  (forall d w1 w2 a1 a2,
     normalizeOpenMeteoData d app1 = (Returned w1, a1) ->
     normalizeOpenMeteoData d app2 = (Returned w2, a2) ->
     withoutTimestamp w1 = withoutTimestamp w2 /\
     timestamp w1 = Num (ofZ (nextReading app1) / ofZ 1000) /\
     (nextReading app1 = nextReading app2 -> w1 = w2)) /\
  (forall d,
     fst (lift (normalizeOpenWeatherMapData d) app1)
     = fst (lift (normalizeOpenWeatherMapData d) app2)).
Proof.
  split; [|split].
  - intros d w1 w2 a1 a2 H1 H2.
    apply normalizeWeatherbitData_returned in H1 as (x & c & -> & Hc & -> & _).
    apply normalizeWeatherbitData_returned in H2 as (y & c' & Hy & Hc' & -> & _).
    injection Hy as <-. rewrite Hc in Hc'. injection Hc' as <-.
    split; [apply withoutTimestamp_weatherbitRecord|].
    split; [reflexivity|]. unfold nextReading. now intros ->.
  - intros d w1 w2 a1 a2 H1 H2.
    apply normalizeOpenMeteoData_returned in H1 as (c & Hc & -> & _).
    apply normalizeOpenMeteoData_returned in H2 as (c' & Hc' & -> & _).
    rewrite Hc in Hc'. injection Hc' as <-.
    split; [apply withoutTimestamp_openMeteoRecord|].
    split; [reflexivity|]. unfold nextReading. now intros ->.
  - reflexivity.
Qed.

Lemma C3_normalize_repeatable_up_to_timestamp_witness :
  withoutTimestamp (weatherbitRecord wbSample
                      {| WB.description := Some "Scattered clouds";
                         WB.code := Num (ofZ 802) |} 1700000000000)
  = withoutTimestamp (weatherbitRecord wbSample
                      {| WB.description := Some "Scattered clouds";
                         WB.code := Num (ofZ 802) |} 1700000001000).
Proof.
  destruct (C3_normalize_repeatable_up_to_timestamp app0 (ticked app0))
    as [H _].
  refine (proj1 (H (Some wbSample) _ _ (ticked app0) (ticked (ticked app0)) _ _));
    reflexivity.
Defined.

(** C3 as stated fails: two normalizations of one Weatherbit payload,
    one after the other, give records with different timestamps. *)
Lemma C3_counterexample :
  let first := normalizeWeatherbitData (Some wbSample) app0 in
  let second := normalizeWeatherbitData (Some wbSample) (snd first) in
  option_map timestamp
    (match fst first with Returned w => Some w | Thrown _ => None end)
  = Some (Num (ofZ 1700000000)) /\
  option_map timestamp
    (match fst second with Returned w => Some w | Thrown _ => None end)
  = Some (Num (ofZ 1700000001)) /\
  fst first <> fst second.
Proof.
  cbv zeta.
  split; [num_eq|]. split; [num_eq|].
  intro H. vm_compute in H. discriminate H.
Qed.

(** ** C4: fields a provider does not report *)






(** ** C6: the air-quality rule of the advisories *)

Lemma Qc_ltb_100_false (q : Qc) : q <= ofZ 5 -> Qc_ltb (ofZ 100) q = false.
Proof.
  intro H. unfold Qc_ltb. destruct (ofZ 100 ?= q) eqn:E; auto.
  apply Qclt_alt in E. exfalso.
  assert (H5 : ofZ 5 < ofZ 100) by reflexivity.
  apply (Qclt_not_le _ _ (Qclt_trans _ _ _ H5 E) H).
Qed.

Lemma otherTips_no_air (weather : Weather) :
  ~ In PoorAirQualityTip (fst (otherTips weather) ++ snd (otherTips weather)).
Proof.
  unfold otherTips. cbn [fst snd].
  repeat match goal with
         | |- context [if ?b then _ else _] => destruct b
         end; simpl; intuition discriminate.
Qed.

Lemma healthTipsFor_with_index (weather : Weather) (source : string)
    (data : AQ.Data) (aqi : jsnum) :
  (if String.eqb source "openweathermap"
   then option_map AQ.aqi (AQ.main data) else Some (AQ.us_aqi data)) = Some aqi ->
  healthTipsFor weather (Some {| AQ.source := source; AQ.data := Some data |})
  = Returned
      (match fst (otherTips weather)
             ++ (if jsgt aqi (ofZ 100) then [PoorAirQualityTip] else [])
             ++ snd (otherTips weather) with
       | [] => [GreatWeatherTip]
       | tips => tips
       end).
Proof.
  intro H. unfold healthTipsFor, otherTips. cbn [AQ.source AQ.data fst snd].
  destruct (String.eqb source "openweathermap").
  - destruct (AQ.main data) as [main|]; [|discriminate].
    injection H as <-. cbn [prop_of obind]. rewrite <- !app_assoc.
    f_equal. now destruct (_ ++ _).
  - injection H as <-. cbn [obind]. rewrite <- !app_assoc.
    f_equal. now destruct (_ ++ _).
Qed.

(** UV index 5, 35 degrees and humidity 20 give three tips, in the
    order of the rules. *)
Example healthTips_hot_dry :
  healthTipsFor hotDryWeather None
  = Returned [UVTip (ofZ 5); HighTemperatureTip; LowHumidityTip].
Proof. num_eq. Qed.

(** C6, the code against the claim: for a reading of OpenWeatherMap,
    whose index is on the scale 1 to 5, the index itself is compared
    with 100, so the air-quality tip is never among the tips. *)
Theorem C6_openweathermap_index_compared_unmapped (weather : Weather)
    (aqi : Qc) (us_aqi : jsnum) :
  aqi <= ofZ 5 ->
  exists tips,
    healthTipsFor weather
      (Some {| AQ.source := "openweathermap";
               AQ.data := Some {| AQ.main := Some {| AQ.aqi := Num aqi |};
                                  AQ.us_aqi := us_aqi |} |})
    = Returned tips /\ ~ In PoorAirQualityTip tips.
Proof.
  intro H. eexists. split.
  - apply healthTipsFor_with_index with (aqi := Num aqi). reflexivity.
  - cbn [jsgt toNumber]. rewrite (Qc_ltb_100_false _ H). cbn [app].
    pose proof (otherTips_no_air weather) as Hn.
    destruct (fst (otherTips weather) ++ snd (otherTips weather)) eqn:E.
    + simpl. intuition discriminate.
    + exact Hn.
Qed.

Lemma C6_openweathermap_index_compared_unmapped_witness :
  exists tips,
    healthTipsFor mildWeather (Some (aqOpenWeatherMap 5)) = Returned tips /\
    ~ In PoorAirQualityTip tips.
Proof.
  apply (C6_openweathermap_index_compared_unmapped mildWeather (ofZ 5) Undefined).
  vm_compute. discriminate.
Defined.

(** The worst index of OpenWeatherMap's scale, which the air-quality
    card labels Very Poor, leaves the tips at the default one. *)
Example healthTips_very_poor_air :
  healthTipsFor mildWeather (Some (aqOpenWeatherMap 5))
  = Returned [GreatWeatherTip] /\
  option_map (fun shown => option_map label (snd shown))
    (aqiShown (page (snd (updateAirQualityDisplay
       (set_weatherData (set_airQuality (Some (aqOpenWeatherMap 5)) emptyData)
                        app0)))))
  = Some (Some "Very Poor").
Proof. split; vm_compute; reflexivity. Qed.

(** On Open-Meteo's 0-500 scale the rule fires exactly above 100. *)
Lemma healthTipsFor_us_aqi (weather : Weather) (us_aqi : jsnum)
    (main : option AQ.Main) :
  exists tips,
    healthTipsFor weather
      (Some {| AQ.source := "open-meteo";
               AQ.data := Some {| AQ.main := main; AQ.us_aqi := us_aqi |} |})
    = Returned tips /\
    (In PoorAirQualityTip tips <-> jsgt us_aqi (ofZ 100) = true).
Proof.
  eexists. split.
  - apply healthTipsFor_with_index with (aqi := us_aqi). reflexivity.
  - pose proof (otherTips_no_air weather) as Hn.
    destruct (jsgt us_aqi (ofZ 100)).
    + split; [reflexivity|]. intros _.
      destruct (fst (otherTips weather)); simpl.
      * now left.
      * right. apply in_or_app. right. now left.
    + cbn [app]. split; [|discriminate]. intro H. exfalso.
      destruct (fst (otherTips weather) ++ snd (otherTips weather)) eqn:E.
      * simpl in H. intuition discriminate.
      * now apply Hn.
Qed.

(** ** C5: a cycle without any weather provider *)

Lemma processEnsembleData_noneSupplied (results : Results) (app : App) :
  noneSupplied results ->
  processEnsembleData results app
  = (Returned tt,
     set_weatherData (dataWithoutProviders results (weatherData app)) app).
Proof.
  intro H.
  pose proof (H Primary) as H1. pose proof (H Secondary) as H2.
  pose proof (H Tertiary) as H3. simpl in H1, H2, H3.
  unfold processEnsembleData, currentWeatherSources, processEnsembleForecasts,
    dataWithoutProviders, nativeSeries.
  destruct (owmResult results); [discriminate|].
  destruct (weatherbitResult results); [discriminate|].
  destruct (openMeteoResult results); [discriminate|].
  destruct (aqResult results), (alertsResult results); reflexivity.
Qed.

Lemma updateAirQualityDisplay_readable (app : App) :
  aqReadable (airQuality (weatherData app)) = true ->
  exists shown,
    updateAirQualityDisplay app
    = (Returned tt,
       set_page (mkPage shown (healthTips (page app)) (alertsCard (page app))
                        (bannerVisible (page app)) (alertMessages (page app))
                        (toasts (page app))) app).
Proof.
  unfold aqReadable, updateAirQualityDisplay, bind, getApp.
  destruct (airQuality (weatherData app)) as [aq|].
  - destruct (String.eqb (AQ.source aq) "openweathermap").
    + destruct (AQ.data aq) as [data|]; [|discriminate].
      unfold lift, prop_of.
      destruct (AQ.main data) as [main|]; [|discriminate].
      intros _. eexists. reflexivity.
    + destruct (String.eqb (AQ.source aq) "open-meteo").
      * destruct (AQ.data aq) as [data|]; [|discriminate].
        intros _. eexists. reflexivity.
      * intros _. eexists. reflexivity.
  - intros _. exists (aqiShown (page app)). unfold ret, set_page.
    destruct app as [? ? ? ? ? [] ? ?]. reflexivity.
Qed.

Lemma updateAlertsDisplay_returns (app : App) :
  fst (updateAlertsDisplay app) = Returned tt /\
  toasts (page (snd (updateAlertsDisplay app))) = toasts (page app) /\
  weatherData (snd (updateAlertsDisplay app)) = weatherData app.
Proof.
  unfold updateAlertsDisplay, bind, getApp, modifyPage, modify.
  destruct (alerts (weatherData app)) as [|a l]; [repeat split|].
  destruct (severeAlerts (a :: l)); repeat split.
Qed.

Lemma sameData_refl (a : App) : sameData a a.
Proof. reflexivity. Qed.

Lemma sameData_trans (a b c : App) : sameData a b -> sameData b c -> sameData a c.
Proof. unfold sameData. congruence. Qed.

Ltac keeps R T :=
  repeat first
    [ apply (preserves_bind _ T)
    | apply (preserves_ret _ R)
    | apply (preserves_lift _ R)
    | apply (preserves_throw _ R)
    | apply (preserves_getApp _ R)
    | match goal with
      | |- forall _, preserves _ _ => intro
      | |- preserves _ (match ?x with _ => _ end) => destruct x
      | |- preserves _ (if ?x then _ else _) => destruct x
      | |- preserves _ (modifyPage _) => apply preserves_modify; intro; reflexivity
      | |- preserves _ (modify _) => apply preserves_modify; intro; reflexivity
      end ].

Lemma displayUpdates_keep_data : preserves sameData displayUpdates.
Proof.
  pose proof sameData_refl as R. pose proof sameData_trans as T.
  unfold displayUpdates, updateWeatherDisplay, updateForecastDisplay,
    updateAirQualityDisplay, updateHealthTips, updateAlertsDisplay.
  keeps R T.
Qed.

Lemma tryCatchFinally_bind_returned {A} (m : M A) (k : A -> M unit)
    (handler : string -> M unit) (final : M unit) (app app1 : App) (a : A) :
  m app = (Returned a, app1) ->
  tryCatchFinally (bind m k) handler final app
  = tryCatchFinally (k a) handler final app1.
Proof. intro H. unfold tryCatchFinally, bind. now rewrite H. Qed.

Lemma displayUpdates_quiet (app : App) :
  current (weatherData app) = None ->
  aqReadable (airQuality (weatherData app)) = true ->
  exists app', displayUpdates app = (Returned tt, app') /\
    toasts (page app') = toasts (page app).
Proof.
  intros Hc Hr. unfold displayUpdates.
  unfold bind at 1, updateWeatherDisplay, bind at 1, getApp at 1.
  rewrite Hc. unfold ret at 1, updateForecastDisplay, bind at 1, ret at 1.
  destruct (updateAirQualityDisplay_readable app Hr) as [shown Haq].
  unfold bind at 1. rewrite Haq.
  set (app1 := set_page _ app).
  unfold bind at 1, updateHealthTips, bind at 1, getApp at 1.
  change (current (weatherData app1)) with (current (weatherData app)).
  rewrite Hc. unfold ret at 1.
  destruct (updateAlertsDisplay_returns app1) as (Ho & Ht & _).
  destruct (updateAlertsDisplay app1) as [o app2]. simpl in Ho, Ht.
  subst o. exists app2. split; [reflexivity|exact Ht].
Qed.
Lemma loadWeatherData_noneSupplied (results : Results) (app : App) :
  noneSupplied results ->
  currentLocation app <> None ->
  loadWeatherData results app
  = tryCatchFinally displayUpdates loadError hideLoading
      (set_weatherData (dataWithoutProviders results (weatherData app))
                       (set_isLoading true app)).
Proof.
  intros Hnone Hloc.
  unfold loadWeatherData, bind at 1, getApp at 1.
  destruct (currentLocation app) as [loc|] eqn:El; [clear Hloc|congruence].
  unfold bind at 1, showLoading, modify at 1.
  change (processEnsembleData results;;; updateWeatherDisplay;;;
          updateForecastDisplay;;; updateAirQualityDisplay;;;
          updateHealthTips;;; updateAlertsDisplay)
    with (bind (processEnsembleData results) (fun _ => displayUpdates)).
  erewrite tryCatchFinally_bind_returned
    by apply (processEnsembleData_noneSupplied results _ Hnone).
  reflexivity.
Qed.

(** C5, as amended.  When none of the three weather fetches is
    fulfilled, the cycle leaves the consensus reading absent ([null]),
    stores the air-quality and alert results that were fulfilled, and
    raises nothing: provided the air quality held can be displayed, the
    cycle returns normally and adds no toast. *)
Theorem C5_no_provider_cycle_is_silent (results : Results) (app : App) :
  noneSupplied results ->
  currentLocation app <> None ->
  let result := loadWeatherData results app in
  let after := weatherData (snd result) in
  current after = None /\
  (forall v, aqResult results = Fulfilled v -> airQuality after = Some v) /\
  (forall v, alertsResult results = Fulfilled v -> alerts after = Alert.alerts v) /\
  (aqReadable (airQuality after) = true -> signalled app result = false).
Proof.
  intros Hnone Hloc. cbv zeta.
  rewrite (loadWeatherData_noneSupplied results app Hnone Hloc).
  set (wd := dataWithoutProviders results (weatherData app)).
  set (app2 := set_weatherData wd (set_isLoading true app)).
  assert (Hdata : weatherData (snd (tryCatchFinally displayUpdates loadError
                                      hideLoading app2)) = wd).
  { symmetry.
    refine (preserves_tryCatchFinally sameData sameData_trans
              displayUpdates loadError hideLoading displayUpdates_keep_data
              _ _ app2).
    - intros e a. reflexivity.
    - intro a. reflexivity. }
  rewrite Hdata.
  split; [reflexivity|]. split; [|split].
  - intros v Hv. unfold wd, dataWithoutProviders. now rewrite Hv.
  - intros v Hv. unfold wd, dataWithoutProviders. now rewrite Hv.
  - intro Hr.
    destruct (displayUpdates_quiet app2 eq_refl Hr) as (app3 & H3 & Ht).
    unfold tryCatchFinally. rewrite H3.
    unfold signalled, hideLoading, modify. simpl.
    change (toasts (page app2)) with (toasts (page app)) in Ht.
    rewrite Ht. now rewrite Nat.eqb_refl.
Qed.

Lemma C5_no_provider_cycle_is_silent_witness :
  let result := loadWeatherData resultsNone app0 in
  current (weatherData (snd result)) = None /\
  signalled app0 result = false.
Proof.
  destruct (C5_no_provider_cycle_is_silent resultsNone app0) as (H1 & _ & _ & H4).
  - intros [| |]; reflexivity.
  - discriminate.
  - split; [exact H1|]. apply H4. vm_compute. reflexivity.
Defined.

(** C5 as stated fails: with no weather provider, air quality and one
    severe alert fulfilled, the reading is absent and the results are
    stored, but the cycle returns normally and shows no toast. *)
Lemma C5_counterexample :
  let result := loadWeatherData resultsNone app0 in
  noneSupplied resultsNone /\
  current (weatherData (snd result)) = None /\
  airQuality (weatherData (snd result)) = Some (aqOpenMeteo 42) /\
  alerts (weatherData (snd result)) = [nestedAlert "Flood Warning" "Severe"] /\
  fst result = Returned tt /\
  toasts (page (snd result)) = [] /\
  signalled app0 result = false.
Proof.
  cbv zeta. split; [intros [| |]; reflexivity|].
  split; [vm_compute; reflexivity|].
  split; [reflexivity|].
  split; [reflexivity|].
  split; [vm_compute; reflexivity|].
  split; vm_compute; reflexivity.
Qed.

(** ** C7: the forecast series *)

Lemma mapM_firstn {A B} (f : A -> outcome B) (k : nat) :
  forall (l : list A) (r : list B),
    mapM f l = Returned r -> mapM f (firstn k l) = Returned (firstn k r).
Proof.
  induction k as [|k IH]; intros l r H; [reflexivity|].
  destruct l as [|a l]; simpl in *.
  - injection H as <-. reflexivity.
  - unfold obind in *. destruct (f a) as [b|e]; [|discriminate].
    destruct (mapM f l) as [bs|e] eqn:E; [|discriminate].
    injection H as <-. now rewrite (IH l bs E).
Qed.


Lemma mapM_total {A B} (f : A -> outcome B) (l : list A) :
  (forall a, exists b, f a = Returned b) -> exists r, mapM f l = Returned r.
Proof.
  intro H. induction l as [|a l [r IH]]; simpl; [now eexists|].
  destruct (H a) as [b Hb]. rewrite Hb, IH. simpl. now eexists.
Qed.

Lemma mapM_length {A B} (f : A -> outcome B) :
  forall (l : list A) (r : list B),
    mapM f l = Returned r -> List.length r = List.length l.
Proof.
  induction l as [|a l IH]; intros r H; simpl in *.
  - injection H as <-. reflexivity.
  - unfold obind in *. destruct (f a) as [b|e]; [|discriminate].
    destruct (mapM f l) as [bs|e] eqn:E; [|discriminate].
    injection H as <-. simpl. now rewrite (IH bs).
Qed.

Lemma dailySlot_total (daily : OM.Daily.t) (time : list string) :
  dailyComplete daily = true ->
  forall i, exists s, dailySlot daily time i = Returned s.
Proof.
  unfold dailyComplete, dailySlot. intros H i.
  destruct (OM.Daily.time daily), (OM.Daily.temperature_2m_max daily),
    (OM.Daily.temperature_2m_min daily), (OM.Daily.weather_code daily),
    (OM.Daily.precipitation_sum daily), (OM.Daily.wind_speed_10m_max daily),
    (OM.Daily.uv_index_max daily),
    (OM.Daily.precipitation_probability_max daily); try discriminate.
  simpl. now eexists.
Qed.

Lemma hourlySlot_total (hourly : OM.Hourly.t) (time : list string) :
  hourlyComplete hourly = true ->
  forall i, exists s, hourlySlot hourly time i = Returned s.
Proof.
  unfold hourlyComplete, hourlySlot. intros H i.
  destruct (OM.Hourly.time hourly), (OM.Hourly.temperature_2m hourly),
    (OM.Hourly.apparent_temperature hourly),
    (OM.Hourly.relative_humidity_2m hourly),
    (OM.Hourly.precipitation_probability hourly),
    (OM.Hourly.weather_code hourly), (OM.Hourly.wind_speed_10m hourly),
    (OM.Hourly.uv_index hourly); try discriminate.
  simpl. now eexists.
Qed.

(** A complete block is processed without a throw. *)
Lemma processOpenMeteoDaily_complete (data : OM.Payload) (daily : OM.Daily.t) :
  OM.daily data = Some daily -> dailyComplete daily = true ->
  exists l, processOpenMeteoDaily data = Returned l.
Proof.
  intros Hd Hc. unfold processOpenMeteoDaily. rewrite Hd. cbn [prop_of obind].
  destruct (OM.Daily.time daily) as [time|] eqn:Et;
    [|unfold dailyComplete in Hc; rewrite Et in Hc; discriminate].
  cbn [prop_of obind]. apply mapM_total. now apply dailySlot_total.
Qed.






Example forecasts_three_days :
  let after := weatherData (snd (processEnsembleForecasts resultsOne app0)) in
  List.length (daily after) = 3%nat /\ List.length (hourly after) = 5%nat.
Proof. split; reflexivity. Qed.

Example forecasts_native_ten_days :
  let after := weatherData (snd (processEnsembleForecasts resultsNative app0)) in
  daily after = repeat (WeatherbitEntry wbEntrySample) 7 /\
  hourly after = repeat (WeatherbitEntry wbEntrySample) 3.
Proof. split; reflexivity. Qed.




(** ** C9: saving an observation *)

(** With IndexedDB in the window, [initializeStorage] leaves
    [useLocalStorage] as it was, unset in a new application. *)
Lemma initializeStorage_indexedDB (app : App) :
  initializeStorage true app = (Returned tt, app).
Proof. reflexivity. Qed.

Lemma initializeStorage_fallback (app : App) :
  useLocalStorage (snd (initializeStorage false app)) = true.
Proof. reflexivity. Qed.

(** With the fallback set a call saves: the observation goes in front,
    and at most [MAX_OBSERVATIONS] are kept. *)
Lemma saveObservation_local_run (stack : nat) (observation : Observation)
    (app : App) :
  useLocalStorage app = true ->
  saveObservation (S stack) observation app
  = (Returned tt,
     set_storedObservations
       (Some (firstn MAX_OBSERVATIONS
                (observation :: getStoredObservations app))) app).
Proof.
  intro H. unfold saveObservation. cbn [call].
  unfold tryCatchFinally, bind, getApp, modify, ret. rewrite H. cbn [negb].
  do 2 f_equal. f_equal.
  destruct (MAX_OBSERVATIONS <? _)%nat eqn:E; [reflexivity|].
  apply Nat.ltb_ge in E. symmetry. now apply firstn_all2.
Qed.

(** Without the fallback each of the two methods only calls the other,
    on the same observation and with the application as it is. *)
Lemma call_unfold (stack : nat) (observation : Observation) (app : App) :
  useLocalStorage app = false ->
  saveToIndexedDB (S stack) observation app
  = saveObservation stack observation app /\
  (forall e app',
     saveToIndexedDB stack observation app = (Thrown e, app') ->
     saveObservation (S stack) observation app = (Thrown e, app')).
Proof.
  intro H. split; [reflexivity|]. intros e app' He.
  unfold saveObservation, saveToIndexedDB in *. cbn [call].
  unfold tryCatchFinally, bind at 1, getApp. rewrite H. cbn [negb].
  rewrite He. reflexivity.
Qed.

Lemma call_overflows (stack : nat) :
  forall (c : Call) (app : App),
    useLocalStorage app = false -> call stack c app = (Thrown stackOverflow, app).
Proof.
  induction stack as [|stack IH]; intros c app H; [reflexivity|].
  destruct c as [o|o].
  - apply (proj2 (call_unfold stack o app H)). apply IH, H.
  - cbn [call]. apply IH, H.
Qed.

(** C9, as amended.  While [useLocalStorage] is not set,
    [saveObservation] calls [saveToIndexedDB], which calls
    [saveObservation], each with the same observation and the
    application unchanged, and nothing ends the recursion but the call
    stack: whatever room the stack has, the innermost call throws the
    engine's [RangeError], and the promise of [saveObservation] is
    rejected with it.  The observation is never stored. *)
Theorem C9_saveObservation_always_rejected (observation : Observation)
    (app : App) (stack : nat) :
  useLocalStorage app = false ->
  saveToIndexedDB (S stack) observation app
  = saveObservation stack observation app /\
  saveObservation (S stack) observation app
  = saveToIndexedDB stack observation app /\
  saveObservation stack observation app = (Thrown stackOverflow, app) /\
  saveToIndexedDB stack observation app = (Thrown stackOverflow, app).
Proof.
  intro H. split; [reflexivity|].
  pose proof (call_overflows stack (CallSaveToIndexedDB observation) app H) as Hi.
  pose proof (call_overflows stack (CallSaveObservation observation) app H) as Ho.
  split; [|split; [exact Ho | exact Hi]].
  unfold saveToIndexedDB. rewrite Hi.
  apply (proj2 (call_unfold stack observation app H)). exact Hi.
Qed.

Lemma C9_saveObservation_always_rejected_witness :
  saveObservation 1000 observationSample (snd (initializeStorage true app0))
  = (Thrown stackOverflow, snd (initializeStorage true app0)).
Proof.
  refine (proj1 (proj2 (proj2
    (C9_saveObservation_always_rejected observationSample
       (snd (initializeStorage true app0)) 1000 _)))).
  reflexivity.
Defined.

(** C9 as stated fails: saving does end.  With room for 5000 nested
    calls, say, the promise of [saveObservation] is rejected. *)
Lemma C9_counterexample :
  exists e, fst (saveObservation 5000 observationSample app0) = Thrown e.
Proof. exists stackOverflow. vm_compute. reflexivity. Qed.

(* ================================================================== *)
(** * Further properties *)

(** ** The ensemble: order, accuracy, agreement *)

(** Adding doubles is commutative. *)
Lemma double_add_comm (x y : spec_float) :
  Binary64.add x y = Binary64.add y x.
Proof.
  unfold Binary64.add, SFadd.
  destruct x as [sx|sx| |sx mx ex], y as [sy|sy| |sy my ey];
    try reflexivity;
    try (destruct sx, sy; reflexivity).
  rewrite (Z.min_comm ey ex), Z.add_comm. reflexivity.
Qed.

(** What a record contributes is never the negative zero, so adding it to
    the initial 0 gives it back. *)
Lemma double_add_zero_contribution (f : NumField) (s : Binary64.Weather) :
  Binary64.add Binary64.zero (Binary64.contribution f s)
  = Binary64.contribution f s.
Proof.
  unfold Binary64.contribution, Binary64.orZero, Binary64.truthy.
  destruct (Binary64.field f s) as [[sx|sx| |sx mx ex]| |]; reflexivity.
Qed.

(** X1.  The numeric fields of the ensemble of two records do not depend
    on the order of the two; with three records they can: the sums are
    rounded, and 35.59, 5.83, 33.13 average to 24.9 in this order and to
    24.8 with the last two exchanged. *)
Theorem X1_ensemble_order_of_records (a b : Binary64.Weather) (f : NumField) :
  (exists e e',
     Binary64.createEnsembleWeather [a; b] = Some e /\
     Binary64.createEnsembleWeather [b; a] = Some e' /\
     Binary64.field f e = Binary64.field f e') /\
  (let x := Binary64.reading (Binary64.ofDec 3559 100) in
   let y := Binary64.reading (Binary64.ofDec 583 100) in
   let z := Binary64.reading (Binary64.ofDec 3313 100) in
   Permutation [x; y; z] [x; z; y] /\
   option_map Binary64.temperature (Binary64.createEnsembleWeather [x; y; z])
   = Some (Binary64.Number (Binary64.ofDec 249 10)) /\
   option_map Binary64.temperature (Binary64.createEnsembleWeather [x; z; y])
   = Some (Binary64.Number (Binary64.ofDec 248 10)) /\
   Binary64.ofDec 249 10 <> Binary64.ofDec 248 10).
Proof.
  split.
  - exists (Binary64.ensembleOf [a; b] a), (Binary64.ensembleOf [b; a] b).
    split; [reflexivity|]. split; [reflexivity|].
    rewrite !double_field_ensembleOf. do 2 f_equal.
    unfold Binary64.total. cbn [map fold_left].
    rewrite !double_add_zero_contribution. apply double_add_comm.
  - cbv zeta. split; [apply perm_skip, perm_swap|].
    split; [vm_compute; reflexivity|].
    split; [vm_compute; reflexivity|].
    vm_compute. discriminate.
Qed.






(** ** What a cycle keeps, and how it ends *)

Lemma preserves_weaken (P Q : App -> App -> Prop) {A} (m : M A) :
  (forall a b, P a b -> Q a b) -> preserves P m -> preserves Q m.
Proof. intros H Hm app. apply H, Hm. Qed.

Lemma preserves_dateNow (P : App -> App -> Prop) :
  (forall app, P app (ticked app)) -> preserves P dateNow.
Proof. intros H app. apply H. Qed.

Lemma sameDataAndPage_refl (a : App) : sameDataAndPage a a.
Proof. split; reflexivity. Qed.

Lemma sameDataAndPage_trans (a b c : App) :
  sameDataAndPage a b -> sameDataAndPage b c -> sameDataAndPage a c.
Proof. intros [H1 H2] [K1 K2]. split; congruence. Qed.

Lemma samePage_refl (a : App) : samePage a a.
Proof. reflexivity. Qed.

Lemma samePage_trans (a b c : App) : samePage a b -> samePage b c -> samePage a c.
Proof. unfold samePage. congruence. Qed.

Lemma sameToasts_refl (a : App) : sameToasts a a.
Proof. reflexivity. Qed.

Lemma sameToasts_trans (a b c : App) :
  sameToasts a b -> sameToasts b c -> sameToasts a c.
Proof. unfold sameToasts. congruence. Qed.

(** Methods built from the operations of [M]: the relation [P], given
    reflexive by [R] and transitive by [T], is kept; [tac] settles the
    modifications. *)
Ltac kept R T tac :=
  repeat first
    [ apply (preserves_bind _ T)
    | apply (preserves_ret _ R)
    | apply (preserves_lift _ R)
    | apply (preserves_throw _ R)
    | apply (preserves_getApp _ R)
    | match goal with
      | |- forall _, preserves _ _ => intro
      | |- preserves _ (match ?x with _ => _ end) => destruct x
      | |- preserves _ (if ?x then _ else _) => destruct x
      | |- preserves _ dateNow => apply preserves_dateNow; intro; tac
      | |- preserves _ (modifyData _) => apply preserves_modify; intro; tac
      | |- preserves _ (modifyPage _) => apply preserves_modify; intro; tac
      | |- preserves _ (modify _) => apply preserves_modify; intro; tac
      end ].

Lemma currentWeatherSources_keeps (results : Results) :
  preserves sameDataAndPage (currentWeatherSources results).
Proof.
  pose proof sameDataAndPage_refl as R. pose proof sameDataAndPage_trans as T.
  unfold currentWeatherSources, normalizeWeatherbitData, normalizeOpenMeteoData.
  kept R T ltac:(split; reflexivity).
Qed.

Lemma processEnsembleData_keeps_page (results : Results) :
  preserves samePage (processEnsembleData results).
Proof.
  pose proof samePage_refl as R. pose proof samePage_trans as T.
  unfold processEnsembleData.
  apply (preserves_bind _ T).
  { apply (preserves_weaken sameDataAndPage); [now intros a b [_ H]|].
    apply currentWeatherSources_keeps. }
  intro srcs. apply (preserves_bind _ T); [kept R T reflexivity|]. intros _.
  apply (preserves_bind _ T).
  { apply (preserves_weaken sameButForecasts); [now intros a b (_ & _ & _ & H & _)|].
    apply processEnsembleForecasts_keeps. }
  intros _. kept R T reflexivity.
Qed.

Lemma displayUpdates_keep_toasts : preserves sameToasts displayUpdates.
Proof.
  pose proof sameToasts_refl as R. pose proof sameToasts_trans as T.
  unfold displayUpdates, updateWeatherDisplay, updateForecastDisplay,
    updateAirQualityDisplay, updateHealthTips, updateAlertsDisplay.
  kept R T reflexivity.
Qed.

(** The body of the [try] block of [loadWeatherData]. *)
Lemma loadWeatherData_unfold (results : Results) (app : App) :
  loadWeatherData results app
  = match currentLocation app with
    | None => (Returned tt, app)
    | Some _ =>
        tryCatchFinally (bind (processEnsembleData results) (fun _ => displayUpdates))
          loadError hideLoading (set_isLoading true app)
    end.
Proof.
  unfold loadWeatherData, bind at 1, getApp at 1.
  destruct (currentLocation app); reflexivity.
Qed.

(** How [try]/[catch]/[finally] of [loadWeatherData] ends, from how its
    body ends. *)
Lemma tryCatchFinally_load (body : M unit) (app : App) :
  tryCatchFinally body loadError hideLoading app
  = match body app with
    | (Returned _, app') => (Returned tt, set_isLoading false app')
    | (Thrown _, app') =>
        (Returned tt,
         set_isLoading false
           (set_page (mkPage (aqiShown (page app')) (healthTips (page app'))
                             (alertsCard (page app')) (bannerVisible (page app'))
                             (alertMessages (page app'))
                             (toasts (page app') ++ [loadErrorToast])) app'))
    end.
Proof.
  unfold tryCatchFinally. destruct (body app) as [[[]|e] app']; reflexivity.
Qed.

Lemma cycle_body_keeps_toasts (results : Results) :
  preserves sameToasts (bind (processEnsembleData results) (fun _ => displayUpdates)).
Proof.
  apply (preserves_bind _ sameToasts_trans).
  - apply (preserves_weaken samePage); [|apply processEnsembleData_keeps_page].
    intros a b H. unfold sameToasts. now rewrite H.
  - intros _. apply displayUpdates_keep_toasts.
Qed.

(** [loadWeatherData] returns whatever happens inside; its only toast
    is that of the [catch] block. *)
Lemma loadWeatherData_outcome (results : Results) (app : App) :
  let result := loadWeatherData results app in
  fst result = Returned tt /\
  (currentLocation app = None -> snd result = app) /\
  (currentLocation app <> None -> isLoading (snd result) = false) /\
  (toasts (page (snd result)) = toasts (page app) \/
   toasts (page (snd result)) = toasts (page app) ++ [loadErrorToast]).
Proof.
  cbv zeta. rewrite loadWeatherData_unfold.
  destruct (currentLocation app) as [loc|].
  - rewrite tryCatchFinally_load.
    pose proof (cycle_body_keeps_toasts results (set_isLoading true app)) as Ht.
    unfold sameToasts in Ht. cbn [page set_isLoading] in Ht.
    destruct (bind _ _ (set_isLoading true app)) as [[[]|e] app'];
      cbn [fst snd] in *.
    + repeat split; [discriminate | left; now rewrite Ht].
    + repeat split; [discriminate | right; cbn; now rewrite Ht].
  - repeat split; [congruence | now left].
Qed.

(** X4.  [loadWeatherData] never throws.  Without a location it does
    nothing; with one it leaves [isLoading] false, and shows at most one
    toast, the error toast of its [catch] block. *)
Theorem X4_loadWeatherData_always_returns (results : Results) (app : App) :
  let result := loadWeatherData results app in
  fst result = Returned tt /\
  (currentLocation app = None -> snd result = app) /\
  (currentLocation app <> None -> isLoading (snd result) = false) /\
  (toasts (page (snd result)) = toasts (page app) \/
   toasts (page (snd result)) = toasts (page app) ++ [loadErrorToast]).
Proof. exact (loadWeatherData_outcome results app). Qed.

Lemma processEnsembleData_thrown_early (results : Results) (app app' : App)
    (e : string) :
  currentWeatherSources results app = (Thrown e, app') ->
  processEnsembleData results app = (Thrown e, app').
Proof. intro H. unfold processEnsembleData, bind. now rewrite H. Qed.

(** A fulfilled promise of OpenWeatherMap whose body has no [main]
    makes the collection of the sources throw. *)
Lemma currentWeatherSources_malformed_owm (results : Results) (app : App)
    (v : OWM.Value) :
  owmResult results = Fulfilled v -> OWM.main (OWM.current v) = None ->
  exists e, currentWeatherSources results app = (Thrown e, app).
Proof.
  intros Hv Hm. unfold currentWeatherSources, bind at 1. rewrite Hv.
  unfold bind at 1, lift, normalizeOpenWeatherMapData. rewrite Hm.
  cbn [prop_of obind]. now eexists.
Qed.

(** X5.  A payload that cannot be normalized fails the whole cycle:
    when a normalizer throws, for instance on a fulfilled answer of
    OpenWeatherMap without [main], the weather data of the previous
    cycle is left as it was, whatever the other providers answered, and
    the error toast is shown. *)
Theorem X5_malformed_payload_fails_cycle (results : Results) (app : App) :
  currentLocation app <> None ->
  ((exists e app', currentWeatherSources results app = (Thrown e, app')) \/
   (exists v, owmResult results = Fulfilled v /\
              OWM.main (OWM.current v) = None)) ->
  let after := snd (loadWeatherData results app) in
  weatherData after = weatherData app /\
  toasts (page after) = toasts (page app) ++ [loadErrorToast] /\
  visibleToast (page after) = Some loadErrorToast.
Proof.
  intros Hloc H. cbv zeta.
  assert (Hthrow : exists e app', currentWeatherSources results
                                    (set_isLoading true app) = (Thrown e, app')).
  { destruct H as [(e & app' & H) | (v & Hv & Hm)].
    - pose proof (f_equal fst H) as Hf. cbn [fst] in Hf.
      destruct (currentWeatherSources results (set_isLoading true app))
        as [[srcs|e'] app''] eqn:E; [|eexists _, _; reflexivity].
      exfalso. revert Hf E. clear.
      unfold currentWeatherSources, normalizeWeatherbitData,
        normalizeOpenMeteoData, bind, lift, ret, dateNow.
      destruct (owmResult results) as [v1|];
        [destruct (normalizeOpenWeatherMapData (OWM.current v1))|];
        (destruct (weatherbitResult results) as [v2|];
         [destruct (prop_of (WB.current v2)) as [d|];
          [destruct (prop_of (WB.weather d))|]|]);
        (destruct (openMeteoResult results) as [v3|];
         [destruct (prop_of (OM.current (OM.data v3)))|]);
        cbn; intros; discriminate.
    - destruct (currentWeatherSources_malformed_owm results
                  (set_isLoading true app) v Hv Hm) as [e He].
      eexists _, _; exact He. }
  destruct Hthrow as (e & app' & He).
  pose proof (currentWeatherSources_keeps results (set_isLoading true app)) as Hk.
  rewrite He in Hk. destruct Hk as [Hd Hp]. cbn [snd] in Hd, Hp.
  assert (Hrun : (bind (processEnsembleData results) (fun _ => displayUpdates))
                   (set_isLoading true app) = (Thrown e, app')).
  { unfold bind. now rewrite (processEnsembleData_thrown_early _ _ _ _ He). }
  rewrite loadWeatherData_unfold.
  destruct (currentLocation app) as [loc|]; [|congruence].
  rewrite tryCatchFinally_load, Hrun.
  cbn [snd weatherData page set_isLoading set_page toasts] in *.
  rewrite <- Hd, <- Hp. repeat split.
  unfold visibleToast. cbn [toasts]. rewrite map_app. apply last_last.
Qed.

Lemma X5_malformed_payload_fails_cycle_witness :
  weatherData (snd (loadWeatherData resultsMalformed app1)) = weatherData app1 /\
  toasts (page (snd (loadWeatherData resultsMalformed app1))) = [loadErrorToast].
Proof.
  destruct (X5_malformed_payload_fails_cycle resultsMalformed app1) as (H1 & H2 & _).
  - discriminate.
  - right. eexists. split; reflexivity.
  - split; [exact H1 | exact H2].
Defined.

Lemma sameAirQuality_refl (a : App) : sameAirQuality a a.
Proof. reflexivity. Qed.

Lemma sameAirQuality_trans (a b c : App) :
  sameAirQuality a b -> sameAirQuality b c -> sameAirQuality a c.
Proof. unfold sameAirQuality. congruence. Qed.

Lemma sameAlerts_refl (a : App) : sameAlerts a a.
Proof. reflexivity. Qed.

Lemma sameAlerts_trans (a b c : App) :
  sameAlerts a b -> sameAlerts b c -> sameAlerts a c.
Proof. unfold sameAlerts. congruence. Qed.

(** A relation kept by everything that keeps the weather data, by the
    storing of the reading and by the merging of the forecasts is kept
    by [loadWeatherData] if the last two steps of
    [processEnsembleData] keep it. *)
Lemma loadWeatherData_keeps (P : App -> App -> Prop) (results : Results) :
  (forall a, P a a) -> (forall a b c, P a b -> P b c -> P a c) ->
  (forall a b, weatherData a = weatherData b -> P a b) ->
  (forall a b, sameButForecasts a b -> P a b) ->
  (forall a c, P a (set_weatherData (set_current c (weatherData a)) a)) ->
  preserves P (match aqResult results with
               | Fulfilled v => modifyData (set_airQuality (Some v))
               | Rejected _ => ret tt
               end) ->
  preserves P (match alertsResult results with
               | Fulfilled v => modifyData (set_alerts (Alert.alerts v))
               | Rejected _ => ret tt
               end) ->
  preserves P (loadWeatherData results).
Proof.
  intros R T Hd Hf Hc Haq Hal.
  assert (Hdisplay : preserves P displayUpdates).
  { apply (preserves_weaken sameData); [exact Hd|]. apply displayUpdates_keep_data. }
  assert (Hprocess : preserves P (processEnsembleData results)).
  { unfold processEnsembleData. apply (preserves_bind _ T).
    - apply (preserves_weaken sameDataAndPage); [|apply currentWeatherSources_keeps].
      intros a b [H _]. now apply Hd.
    - intro srcs. apply (preserves_bind _ T).
      + apply preserves_modify. intro a. apply Hc.
      + intros _. apply (preserves_bind _ T).
        * apply (preserves_weaken sameButForecasts);
            [exact Hf | apply processEnsembleForecasts_keeps].
        * intros _. apply (preserves_bind _ T); [exact Haq | intros _; exact Hal]. }
  intro app. rewrite loadWeatherData_unfold.
  destruct (currentLocation app); [|apply R].
  eapply T; [apply (Hd app (set_isLoading true app)); reflexivity|].
  apply (preserves_tryCatchFinally P T).
  - apply (preserves_bind _ T); [exact Hprocess | intros _; exact Hdisplay].
  - intros e a. apply Hd. reflexivity.
  - intro a. apply Hd. reflexivity.
Qed.

(** X6.  A failed fetch never clears what the previous cycle stored:
    when the air-quality promise is rejected the air quality held stays,
    and when the alerts promise is rejected the alerts held stay,
    however the cycle ends. *)
Theorem X6_rejected_fetch_keeps_previous (results : Results) (app : App) :
  let after := weatherData (snd (loadWeatherData results app)) in
  (forall reason, aqResult results = Rejected reason ->
     airQuality after = airQuality (weatherData app)) /\
  (forall reason, alertsResult results = Rejected reason ->
     alerts after = alerts (weatherData app)).
Proof.
  cbv zeta. split; intros reason Hr; symmetry.
  - apply (loadWeatherData_keeps sameAirQuality results
             sameAirQuality_refl sameAirQuality_trans).
    + intros a b H. unfold sameAirQuality. now rewrite H.
    + now intros a b (_ & H & _).
    + reflexivity.
    + rewrite Hr. apply (preserves_ret _ sameAirQuality_refl).
    + destruct (alertsResult results);
        [apply preserves_modify; reflexivity
        | apply (preserves_ret _ sameAirQuality_refl)].
  - apply (loadWeatherData_keeps sameAlerts results
             sameAlerts_refl sameAlerts_trans).
    + intros a b H. unfold sameAlerts. now rewrite H.
    + now intros a b (_ & _ & H & _).
    + reflexivity.
    + destruct (aqResult results);
        [apply preserves_modify; reflexivity
        | apply (preserves_ret _ sameAlerts_refl)].
    + rewrite Hr. apply (preserves_ret _ sameAlerts_refl).
Qed.

Lemma X6_rejected_fetch_keeps_previous_witness :
  airQuality (weatherData (snd (loadWeatherData resultsNative app1)))
  = Some (aqOpenMeteo 42).
Proof.
  destruct (X6_rejected_fetch_keeps_previous resultsNative app1) as [H _].
  exact (H requestTimeout eq_refl).
Defined.

(** ** Air quality that cannot be displayed *)

Lemma updateAirQualityDisplay_unreadable (app : App) :
  aqReadable (airQuality (weatherData app)) = false ->
  exists e, updateAirQualityDisplay app = (Thrown e, app).
Proof.
  unfold aqReadable, updateAirQualityDisplay, bind, getApp.
  destruct (airQuality (weatherData app)) as [aq|]; [|discriminate].
  destruct (String.eqb (AQ.source aq) "openweathermap").
  - destruct (AQ.data aq) as [data|]; unfold lift, prop_of;
      [|intros _; now eexists].
    destruct (AQ.main data); [discriminate | intros _; now eexists].
  - destruct (String.eqb (AQ.source aq) "open-meteo"); [|discriminate].
    destruct (AQ.data aq); [discriminate|]. intros _. now eexists.
Qed.

Lemma updateWeatherDisplay_keeps_app (app : App) :
  snd (updateWeatherDisplay app) = app.
Proof.
  unfold updateWeatherDisplay, bind, getApp.
  destruct (current (weatherData app)) as [w|]; [|reflexivity].
  destruct (description w); reflexivity.
Qed.

Lemma displayUpdates_unreadable (app : App) :
  aqReadable (airQuality (weatherData app)) = false ->
  exists e app', displayUpdates app = (Thrown e, app').
Proof.
  intro H. unfold displayUpdates. unfold bind at 1.
  pose proof (updateWeatherDisplay_keeps_app app) as Hk.
  destruct (updateWeatherDisplay app) as [[[]|e] a]; cbn [snd] in Hk; subst a;
    [|now eexists _, _].
  unfold bind at 1, updateForecastDisplay, ret at 1. unfold bind at 1.
  destruct (updateAirQualityDisplay_unreadable app H) as [e He].
  rewrite He. now eexists _, _.
Qed.

Lemma processEnsembleData_stores_airQuality (results : Results)
    (app app' : App) (v : AQ.Value) :
  aqResult results = Fulfilled v ->
  processEnsembleData results app = (Returned tt, app') ->
  airQuality (weatherData app') = Some v.
Proof.
  intros Hv H. unfold processEnsembleData in H. rewrite Hv in H.
  apply bind_returned in H as (srcs & a1 & _ & H).
  apply bind_returned in H as (u1 & a2 & _ & H).
  apply bind_returned in H as (u2 & a3 & _ & H).
  apply bind_returned in H as (u3 & a4 & H4 & H).
  injection H4 as _ <-.
  destruct (alertsResult results); injection H as <-; reflexivity.
Qed.

(** X7.  A fulfilled air-quality promise whose value cannot be read by
    the display (no [data], or for the source openweathermap no
    [data.main]) fails the cycle, whatever the weather providers
    answered: the error toast is shown. *)
Theorem X7_unreadable_air_quality_fails_cycle (results : Results) (app : App)
    (v : AQ.Value) :
  currentLocation app <> None ->
  aqResult results = Fulfilled v ->
  aqReadable (Some v) = false ->
  let after := snd (loadWeatherData results app) in
  toasts (page after) = toasts (page app) ++ [loadErrorToast] /\
  visibleToast (page after) = Some loadErrorToast.
Proof.
  intros Hloc Hv Hr. cbv zeta.
  set (body := bind (processEnsembleData results) (fun _ => displayUpdates)).
  assert (Hthrow : exists e app', body (set_isLoading true app) = (Thrown e, app')).
  { unfold body, bind.
    destruct (processEnsembleData results (set_isLoading true app))
      as [[[]|e] a] eqn:E; [|now eexists _, _].
    apply displayUpdates_unreadable.
    now rewrite (processEnsembleData_stores_airQuality _ _ _ _ Hv E). }
  destruct Hthrow as (e & app' & He).
  pose proof (cycle_body_keeps_toasts results (set_isLoading true app)) as Ht.
  fold body in Ht. rewrite He in Ht. unfold sameToasts in Ht.
  cbn [snd page set_isLoading] in Ht.
  rewrite loadWeatherData_unfold.
  destruct (currentLocation app) as [loc|]; [|congruence].
  fold body. rewrite tryCatchFinally_load, He.
  cbn [snd page set_isLoading set_page toasts]. rewrite <- Ht.
  split; [reflexivity|].
  unfold visibleToast. cbn [toasts]. rewrite map_app. apply last_last.
Qed.

Lemma X7_unreadable_air_quality_fails_cycle_witness :
  toasts (page (snd (loadWeatherData resultsEmptyAir app0))) = [loadErrorToast].
Proof.
  destruct (X7_unreadable_air_quality_fails_cycle resultsEmptyAir app0
              {| AQ.source := "openweathermap"; AQ.data := None |}) as [H _].
  - discriminate.
  - reflexivity.
  - reflexivity.
  - exact H.
Defined.

(** ** The air-quality and alert fetches *)

(** X8.  [fetchAirQualityData] asks the fallback service only when the
    primary one fails or answers without a list.  A primary answer with
    an empty list is passed on without data, which the display cannot
    read; and the promise is rejected exactly when both services
    fail. *)
Theorem X8_air_quality_fallback (owm : outcome AirFetch.OWMBody)
    (om : outcome AirFetch.OMBody) :
  (forall body l, owm = Returned body -> AirFetch.list body = Some l ->
     (forall om', fetchAirQualityData owm om' = fetchAirQualityData owm om) /\
     (l = [] ->
      exists v, fetchAirQualityData owm om = Fulfilled v /\
                AQ.source v = "openweathermap" /\
                aqReadable (Some v) = false)) /\
  (forall reason,
     fetchAirQualityData owm om = Rejected reason <->
     om = Thrown reason /\
     ((exists e, owm = Thrown e) \/
      (exists body, owm = Returned body /\ AirFetch.list body = None))).
Proof.
  split.
  - intros body l -> Hl. unfold fetchAirQualityData. cbn [obind].
    rewrite Hl. cbn [prop_of obind]. split; [reflexivity|].
    intros ->. eexists. repeat split.
  - intro reason. unfold fetchAirQualityData. split.
    + destruct owm as [body|e]; cbn [obind].
      * destruct (AirFetch.list body) as [l|] eqn:El; cbn [prop_of obind];
          [discriminate|].
        destruct om; [discriminate|]. intro H. injection H as ->.
        split; [reflexivity|]. right. now exists body.
      * destruct om; [discriminate|]. intro H. injection H as ->.
        split; [reflexivity|]. left. now exists e.
    + intros [-> [[e ->] | (body & -> & Hl)]]; cbn [obind];
        [|rewrite Hl]; reflexivity.
Qed.

Lemma X8_air_quality_fallback_witness :
  exists v,
    fetchAirQualityData (Returned {| AirFetch.list := Some [] |})
                        (Thrown requestTimeout) = Fulfilled v /\
    aqReadable (Some v) = false.
Proof.
  destruct (X8_air_quality_fallback
              (Returned {| AirFetch.list := Some [] |}) (Thrown requestTimeout))
    as [H _].
  destruct (H _ [] eq_refl eq_refl) as [_ H2].
  destruct (H2 eq_refl) as (v & Hv & _ & Hr).
  exists v. split; [exact Hv | exact Hr].
Defined.

(** X9.  [fetchGovernmentAlerts] brings alerts only for a location in
    the US whose NOAA answer is ok, parses, and has features, which are
    then the alerts; in every other case it resolves to no alerts. *)
Theorem X9_alerts_only_from_noaa (location : Location)
    (response : outcome NOAA.Response) :
  Alert.alerts (fetchGovernmentAlerts location response) <> [] ->
  country location = "US" /\
  exists r body,
    response = Returned r /\ NOAA.ok r = true /\
    NOAA.json r = Returned body /\
    NOAA.features body
    = Some (Alert.alerts (fetchGovernmentAlerts location response)) /\
    Alert.source (fetchGovernmentAlerts location response) = "noaa".
Proof.
  unfold fetchGovernmentAlerts.
  destruct (String.eqb (country location) "US") eqn:Ec;
    [|intro H; now contradiction H].
  apply String.eqb_eq in Ec. intro H. split; [exact Ec|].
  destruct response as [r|e]; cbn [obind] in *; [|now contradiction H].
  destruct (NOAA.ok r) eqn:Eo; [|now contradiction H].
  destruct (NOAA.json r) as [body|e] eqn:Ej; [|now contradiction H].
  cbn [Alert.alerts Alert.source] in *.
  destruct (NOAA.features body) as [f|] eqn:Ef; [|now contradiction H].
  exists r, body. repeat split; assumption.
Qed.

Lemma X9_alerts_only_from_noaa_witness :
  country newYork = "US" /\
  Alert.alerts (fetchGovernmentAlerts newYork (Returned noaaSample))
  = [nestedAlert "Flood Warning" "Severe"].
Proof.
  destruct (X9_alerts_only_from_noaa newYork (Returned noaaSample)) as [H _].
  - discriminate.
  - split; [exact H | reflexivity].
Defined.

(** ** The series derived from Open-Meteo *)

Lemma mapM_nth {A B} (f : A -> outcome B) :
  forall (l : list A) (r : list B) (i : nat) (b : B),
    mapM f l = Returned r -> nth_error r i = Some b ->
    exists a, nth_error l i = Some a /\ f a = Returned b.
Proof.
  induction l as [|a l IH]; intros r i b H Hi; simpl in H.
  - injection H as <-. destruct i; discriminate.
  - unfold obind in H. destruct (f a) as [b0|] eqn:Ea; [|discriminate].
    destruct (mapM f l) as [bs|] eqn:El; [|discriminate].
    injection H as <-. destruct i as [|i]; simpl in *.
    + injection Hi as <-. now exists a.
    + now apply (IH bs).
Qed.

Lemma dailySlot_returned (daily : OM.Daily.t) (time : list string)
    (i : nat) (s : Slot) :
  OM.Daily.time daily = Some time ->
  dailySlot daily time i = Returned s -> dailyComplete daily = true.
Proof.
  unfold dailySlot, dailyComplete. intros ->.
  destruct (OM.Daily.temperature_2m_max daily),
    (OM.Daily.temperature_2m_min daily), (OM.Daily.weather_code daily),
    (OM.Daily.precipitation_sum daily), (OM.Daily.wind_speed_10m_max daily),
    (OM.Daily.uv_index_max daily),
    (OM.Daily.precipitation_probability_max daily);
    cbn; intro H; (reflexivity || discriminate).
Qed.

(** X10.  [processOpenMeteoDaily] returns exactly when the payload has
    a daily block with a [time] array and, unless that array is empty,
    all the other arrays it reads; it then returns one slot per entry
    of [time], seven at most.  In every other case it throws. *)
Theorem X10_daily_series_returns_iff (data : OM.Payload) :
  ((exists l, processOpenMeteoDaily data = Returned l) <->
   (exists daily time,
      OM.daily data = Some daily /\ OM.Daily.time daily = Some time /\
      (time = [] \/ dailyComplete daily = true))) /\
  (forall l daily time,
     processOpenMeteoDaily data = Returned l ->
     OM.daily data = Some daily -> OM.Daily.time daily = Some time ->
     List.length l = Nat.min 7 (List.length time)).
Proof.
  split; [split|].
  - intros [l H]. unfold processOpenMeteoDaily in H.
    destruct (OM.daily data) as [daily|]; [|discriminate].
    cbn [prop_of obind] in H.
    destruct (OM.Daily.time daily) as [time|] eqn:Et; [|discriminate].
    cbn [prop_of obind] in H. exists daily, time.
    split; [reflexivity|]. split; [exact Et|].
    destruct time as [|t0 time]; [now left|right].
    simpl in H. unfold obind in H.
    destruct (dailySlot daily (t0 :: time) 0) as [s|] eqn:Es; [|discriminate].
    exact (dailySlot_returned _ _ _ _ Et Es).
  - intros (daily & time & Hd & Ht & [-> | Hc]).
    + exists []. unfold processOpenMeteoDaily. rewrite Hd. cbn [prop_of obind].
      now rewrite Ht.
    + exact (processOpenMeteoDaily_complete data daily Hd Hc).
  - intros l daily time H Hd Ht. unfold processOpenMeteoDaily in H.
    rewrite Hd in H. cbn [prop_of obind] in H. rewrite Ht in H.
    cbn [prop_of obind] in H.
    rewrite (mapM_length _ _ _ H). apply length_seq.
Qed.

Lemma X10_daily_series_returns_iff_witness :
  exists l, processOpenMeteoDaily (omSample 10 30) = Returned l /\
            List.length l = 7%nat.
Proof.
  destruct (X10_daily_series_returns_iff (omSample 10 30)) as [[_ H] Hl].
  destruct H as [l H].
  - exists (omDailySample 10), (repeat "2023-09-21" 10).
    split; [reflexivity|]. split; [reflexivity|]. right. reflexivity.
  - exists l. split; [exact H|].
    rewrite (Hl l (omDailySample 10) (repeat "2023-09-21" 10) H eq_refl eq_refl).
    reflexivity.
Defined.

(** X11.  The slot of hour [i] takes entry [i] of [time] and of each of
    the seven arrays, [undefined] where an array is shorter than
    [time]; there is no slot for an hour past the 24th or past the end
    of [time]. *)
Theorem X11_hourly_slot_by_index (data : OM.Payload) (hourly : OM.Hourly.t)
    (time : list string) (l : list Slot) (i : nat) :
  OM.hourly data = Some hourly -> OM.Hourly.time hourly = Some time ->
  processOpenMeteoHourly data = Returned l ->
  (forall s, nth_error l i = Some s ->
     (i < 24)%nat /\ (i < List.length time)%nat /\
     exists temperature apparent humidity probability code wind uv,
       OM.Hourly.temperature_2m hourly = Some temperature /\
       OM.Hourly.apparent_temperature hourly = Some apparent /\
       OM.Hourly.relative_humidity_2m hourly = Some humidity /\
       OM.Hourly.precipitation_probability hourly = Some probability /\
       OM.Hourly.weather_code hourly = Some code /\
       OM.Hourly.wind_speed_10m hourly = Some wind /\
       OM.Hourly.uv_index hourly = Some uv /\
       s = OpenMeteoHour (nth_error time i) (index temperature i)
             (index apparent i) (index humidity i) (index probability i)
             (index code i) (index wind i) (index uv i)) /\
  ((24 <= i)%nat \/ (List.length time <= i)%nat -> nth_error l i = None).
Proof.
  intros Hh Ht H. unfold processOpenMeteoHourly in H.
  rewrite Hh in H. cbn [prop_of obind] in H. rewrite Ht in H.
  cbn [prop_of obind] in H.
  pose proof (mapM_length _ _ _ H) as Hlen. rewrite length_seq in Hlen.
  split.
  - intros s Hs.
    assert (Hi : (i < List.length l)%nat) by (apply nth_error_Some; congruence).
    split; [lia|]. split; [lia|].
    destruct (mapM_nth _ _ _ _ _ H Hs) as (a & Ha & Hf).
    assert (a = i).
    { pose proof (nth_error_nth _ _ 0%nat Ha) as Hn.
      rewrite seq_nth in Hn by lia. lia. }
    subst a. unfold hourlySlot in Hf.
    destruct (OM.Hourly.temperature_2m hourly) as [x1|]; [|discriminate].
    destruct (OM.Hourly.apparent_temperature hourly) as [x2|]; [|discriminate].
    destruct (OM.Hourly.relative_humidity_2m hourly) as [x3|]; [|discriminate].
    destruct (OM.Hourly.precipitation_probability hourly) as [x4|]; [|discriminate].
    destruct (OM.Hourly.weather_code hourly) as [x5|]; [|discriminate].
    destruct (OM.Hourly.wind_speed_10m hourly) as [x6|]; [|discriminate].
    destruct (OM.Hourly.uv_index hourly) as [x7|]; [|discriminate].
    cbn in Hf. injection Hf as <-.
    exists x1, x2, x3, x4, x5, x6, x7. repeat split.
  - intro Hi. apply nth_error_None. lia.
Qed.

Lemma X11_hourly_slot_by_index_witness :
  exists l, processOpenMeteoHourly (omSample 3 5) = Returned l /\
            nth_error l 7 = None.
Proof.
  eexists. split; [reflexivity|].
  refine (proj2 (X11_hourly_slot_by_index (omSample 3 5) (omHourlySample 5)
                   (repeat "2023-09-21T14:00" 5) _ 7 eq_refl eq_refl eq_refl) _).
  right. simpl. lia.
Defined.

(** ** The advisories *)

Lemma healthTipsFor_shape (weather : Weather) (airQuality : option AQ.Value)
    (tips : list Tip) :
  healthTipsFor weather airQuality = Returned tips ->
  exists air,
    (air = [] \/ air = [PoorAirQualityTip]) /\
    tips = match fst (otherTips weather) ++ air ++ snd (otherTips weather) with
           | [] => [GreatWeatherTip]
           | t :: l => t :: l
           end.
Proof.
  unfold healthTipsFor, otherTips. cbn [fst snd].
  set (t1 := if Qc_leb _ _ then _ else _).
  set (t2 := if jsgt (temperature weather) _ then _ else _).
  set (t3 := if jsgt (humidity weather) _ then _ else _).
  set (t5 := if jsgt (windSpeed weather) _ then _ else _).
  assert (Hgen : forall air,
             Returned (match t1 ++ t2 ++ t3 ++ air ++ t5 with
                       | [] => [GreatWeatherTip]
                       | _ :: _ => t1 ++ t2 ++ t3 ++ air ++ t5
                       end) = Returned tips ->
             tips = match (t1 ++ t2 ++ t3) ++ air ++ t5 with
                    | [] => [GreatWeatherTip]
                    | t :: l => t :: l
                    end).
  { intros air H. injection H as <-. rewrite <- !app_assoc.
    now destruct (t1 ++ t2 ++ t3 ++ air ++ t5). }
  destruct airQuality as [aq|]; [|intro H; exists []; split; [now left|now apply Hgen]].
  destruct (AQ.data aq) as [data|];
    [|intro H; exists []; split; [now left|now apply Hgen]].
  destruct (String.eqb (AQ.source aq) "openweathermap").
  - destruct (AQ.main data) as [main|]; cbn [prop_of obind]; [|discriminate].
    destruct (jsgt (AQ.aqi main) (ofZ 100)); intro H;
      [exists [PoorAirQualityTip]; split; [now right|now apply Hgen]
      |exists []; split; [now left|now apply Hgen]].
  - cbn [obind].
    destruct (jsgt (AQ.us_aqi data) (ofZ 100)); intro H;
      [exists [PoorAirQualityTip]; split; [now right|now apply Hgen]
      |exists []; split; [now left|now apply Hgen]].
Qed.

(** X12.  The tips come in the order of the rules, at most one tip per
    rule: there is always at least one tip and there are never more
    than five, and the tip for high temperature never comes with the
    one for frost, nor the one for high humidity with the one for low
    humidity. *)
Theorem X12_tips_follow_rule_order (weather : Weather)
    (airQuality : option AQ.Value) (tips : list Tip) :
  healthTipsFor weather airQuality = Returned tips ->
  StronglySorted (fun a b => (ruleOf a < ruleOf b)%nat) tips /\
  (1 <= List.length tips <= 5)%nat.
Proof.
  intro H. apply healthTipsFor_shape in H as (air & Hair & ->).
  unfold otherTips. cbn [fst snd].
  destruct Hair as [-> | ->];
    destruct (Qc_leb (ofZ 3) (orZero (uvIndex weather)));
    destruct (jsgt (temperature weather) (ofZ 30));
    destruct (jslt (temperature weather) (ofZ 0));
    destruct (jsgt (humidity weather) (ofZ 70));
    destruct (jslt (humidity weather) (ofZ 30));
    destruct (jsgt (windSpeed weather) (ofZ 25));
    cbn [app]; (split; [|simpl; lia]);
    repeat (constructor; [|repeat (constructor; [simpl; lia|]); constructor]);
    constructor.
Qed.

Lemma X12_tips_follow_rule_order_witness :
  StronglySorted (fun a b => (ruleOf a < ruleOf b)%nat)
    [UVTip (ofZ 5); HighTemperatureTip; LowHumidityTip].
Proof.
  refine (proj1 (X12_tips_follow_rule_order hotDryWeather None _ _)).
  num_eq.
Defined.

Lemma Qc_ltb_lt (a b : Qc) : Qc_ltb a b = true <-> a < b.
Proof.
  unfold Qc_ltb. rewrite Qclt_alt. destruct (a ?= b); split; congruence.
Qed.

Lemma Qc_leb_le (a b : Qc) : Qc_leb a b = true <-> a <= b.
Proof.
  unfold Qc_leb. rewrite Qcle_alt. destruct (a ?= b); split; congruence.
Qed.

Lemma jsgt_gt (v : jsnum) (c : Qc) :
  jsgt v c = true <-> exists q, toNumber v = Some q /\ c < q.
Proof.
  unfold jsgt. destruct (toNumber v) as [q|].
  - rewrite Qc_ltb_lt. split; [intro H; now exists q|].
    intros (q' & E & H). now injection E as ->.
  - split; [discriminate | now intros (q & E & _)].
Qed.

Lemma jslt_lt (v : jsnum) (c : Qc) :
  jslt v c = true <-> exists q, toNumber v = Some q /\ q < c.
Proof.
  unfold jslt. destruct (toNumber v) as [q|].
  - rewrite Qc_ltb_lt. split; [intro H; now exists q|].
    intros (q' & E & H). now injection E as ->.
  - split; [discriminate | now intros (q & E & _)].
Qed.

(** A value above the upper threshold is not below the lower one. *)
Lemma jsgt_not_jslt (v : jsnum) (hi lo : Qc) :
  lo <= hi -> jsgt v hi = true -> jslt v lo = false.
Proof.
  intros Hle Hgt. destruct (jslt v lo) eqn:E; [|reflexivity].
  apply jsgt_gt in Hgt as (q & Hq & H1).
  apply jslt_lt in E as (q' & Hq' & H2).
  rewrite Hq in Hq'. injection Hq' as <-. exfalso.
  apply (Qclt_not_le q q); [|apply Qcle_refl].
  apply (Qclt_trans _ lo); [exact H2|].
  apply (Qcle_lt_trans _ hi); assumption.
Qed.

(** X13.  Each tip is among the tips exactly when its rule fires on
    the reading as JavaScript converts it to a number: UV index (every
    falsy value counting as 0) at least 3, temperature above 30 or below
    0, humidity above 70 or below 30, wind speed above 25.  [NaN] and
    [undefined] fire no rule; [null] counts as 0, so a [null] humidity
    gives the low-humidity tip.  The default tip is there exactly when
    it is the only one. *)
Theorem X13_tips_match_thresholds (weather : Weather)
    (airQuality : option AQ.Value) (tips : list Tip) :
  healthTipsFor weather airQuality = Returned tips ->
  (forall u, In (UVTip u) tips <->
             u = orZero (uvIndex weather) /\ ofZ 3 <= u) /\
  (In HighTemperatureTip tips <->
   exists q, toNumber (temperature weather) = Some q /\ ofZ 30 < q) /\
  (In FreezingTip tips <->
   exists q, toNumber (temperature weather) = Some q /\ q < ofZ 0) /\
  (In HighHumidityTip tips <->
   exists q, toNumber (humidity weather) = Some q /\ ofZ 70 < q) /\
  (In LowHumidityTip tips <->
   exists q, toNumber (humidity weather) = Some q /\ q < ofZ 30) /\
  (In StrongWindTip tips <->
   exists q, toNumber (windSpeed weather) = Some q /\ ofZ 25 < q) /\
  (In GreatWeatherTip tips <-> tips = [GreatWeatherTip]) /\
  (humidity weather = Null -> In LowHumidityTip tips) /\
  (humidity weather = Undefined \/ humidity weather = NaN ->
   ~ In HighHumidityTip tips /\ ~ In LowHumidityTip tips).
Proof.
  intro H. apply healthTipsFor_shape in H as (air & Hair & ->).
  assert (Hnull : humidity weather = Null ->
                  jslt (humidity weather) (ofZ 30) = true)
    by (now intros ->).
  assert (Hnone : humidity weather = Undefined \/ humidity weather = NaN ->
                  jsgt (humidity weather) (ofZ 70) = false /\
                  jslt (humidity weather) (ofZ 30) = false)
    by (now intros [-> | ->]).
  rewrite <- !jsgt_gt, <- !jslt_lt.
  assert (Huv : forall u, (u = orZero (uvIndex weather) /\ ofZ 3 <= u) <->
                          (u = orZero (uvIndex weather) /\
                           Qc_leb (ofZ 3) (orZero (uvIndex weather)) = true)).
  { intro u. rewrite Qc_leb_le. split; intros [-> H]; now split. }
  pose proof (jsgt_not_jslt (temperature weather) (ofZ 30) (ofZ 0)) as Ht.
  pose proof (jsgt_not_jslt (humidity weather) (ofZ 70) (ofZ 30)) as Hh.
  unfold otherTips. cbn [fst snd].
  destruct (Qc_leb (ofZ 3) (orZero (uvIndex weather)));
    destruct (jsgt (temperature weather) (ofZ 30));
    destruct (jslt (temperature weather) (ofZ 0));
    try (discriminate (Ht ltac:(discriminate) eq_refl));
    destruct (jsgt (humidity weather) (ofZ 70));
    destruct (jslt (humidity weather) (ofZ 30));
    try (discriminate (Hh ltac:(discriminate) eq_refl));
    destruct (jsgt (windSpeed weather) (ofZ 25));
    destruct Hair as [-> | ->]; cbn [app In];
    (split; [intro u; rewrite Huv|]);
    intuition (try discriminate; try congruence).
Qed.

Lemma X13_tips_match_thresholds_witness :
  In HighTemperatureTip [UVTip (ofZ 5); HighTemperatureTip; LowHumidityTip] <->
  exists q, toNumber (temperature hotDryWeather) = Some q /\ ofZ 30 < q.
Proof.
  refine (proj1 (proj2 (X13_tips_match_thresholds hotDryWeather None _ _))).
  num_eq.
Defined.

(* ------------------------------------------------------------------ *)
(** ** Air-quality levels *)

Lemma Qc_leb_gt (a b : Qc) : Qc_leb a b = false <-> b < a.
Proof.
  split.
  - intro E. apply Qcnot_le_lt. intro H. apply Qc_leb_le in H. congruence.
  - intro H. destruct (Qc_leb a b) eqn:E; [|reflexivity].
    apply Qc_leb_le in E. now apply Qclt_not_le in H.
Qed.

(** X14.  The US-AQI levels are intervals of the index: a reading
    between two readings of one level has that level too.  A reading that
    is not a number gets the level of the readings above 300. *)
Theorem X14_aqi_levels_are_intervals :
  (forall a b c : Qc,
     a <= c -> c <= b ->
     getAQILevel (Num a) = getAQILevel (Num b) ->
     getAQILevel (Num c) = getAQILevel (Num a)) /\
  (forall q : Qc, ofZ 300 < q -> getAQILevel (Num q) = getAQILevel NaN) /\
  getAQILevel Undefined = getAQILevel NaN /\
  label (getAQILevel NaN) = "Hazardous".
Proof.
  split; [|split; [|split; reflexivity]].
  - intros a b c Hac Hcb Hab.
    assert (Hl : label (getAQILevel (Num a)) = label (getAQILevel (Num b)))
      by now rewrite Hab.
    unfold getAQILevel, jsle, toNumber in *.
    destruct (Qc_leb a (ofZ 50)) eqn:A1; [|
    destruct (Qc_leb a (ofZ 100)) eqn:A2; [|
    destruct (Qc_leb a (ofZ 150)) eqn:A3; [|
    destruct (Qc_leb a (ofZ 200)) eqn:A4; [|
    destruct (Qc_leb a (ofZ 300)) eqn:A5]]]];
    (destruct (Qc_leb b (ofZ 50)) eqn:B1; [|
     destruct (Qc_leb b (ofZ 100)) eqn:B2; [|
     destruct (Qc_leb b (ofZ 150)) eqn:B3; [|
     destruct (Qc_leb b (ofZ 200)) eqn:B4; [|
     destruct (Qc_leb b (ofZ 300)) eqn:B5]]]]);
    try discriminate Hl; clear Hl Hab;
    repeat match goal with
           | H : Qc_leb _ _ = true |- _ => apply Qc_leb_le in H
           | H : Qc_leb _ _ = false |- _ => apply Qc_leb_gt in H
           end;
    repeat match goal with
           | |- context [Qc_leb c ?t] =>
               let E := fresh "E" in
               destruct (Qc_leb c t) eqn:E;
               [apply Qc_leb_le in E | apply Qc_leb_gt in E]
           end;
    try reflexivity; exfalso; to_Q; lra.
  - intros q Hq. unfold getAQILevel, jsle, toNumber.
    repeat match goal with
           | |- context [Qc_leb q ?t] =>
               let E := fresh "E" in
               destruct (Qc_leb q t) eqn:E;
               [apply Qc_leb_le in E; exfalso; to_Q; lra | clear E]
           end.
    reflexivity.
Qed.

Lemma X14_aqi_levels_are_intervals_witness :
  getAQILevel (Num (ofZ 75)) = getAQILevel (Num (ofZ 51)).
Proof.
  refine (proj1 X14_aqi_levels_are_intervals (ofZ 51) (ofZ 100) (ofZ 75) _ _ _).
  - discriminate.
  - discriminate.
  - reflexivity.
Defined.

(* ------------------------------------------------------------------ *)
(** ** The alerts card and the banner *)

Lemma length_append (s t : string) :
  String.length (s ++ t)%string = (String.length s + String.length t)%nat.
Proof. induction s as [|c s IH]; simpl; [reflexivity | now rewrite IH]. Qed.

Lemma length_substring0 (n : nat) (s : string) :
  (n <= String.length s)%nat -> String.length (substring 0 n s) = n.
Proof.
  revert s. induction n as [|n IH]; intros [|c s] H; simpl in *;
    try reflexivity; try lia.
  rewrite IH; [reflexivity | lia].
Qed.

(** A prefix of a string of visible length starts like the string. *)
Lemma substring0_prefix (n : nat) (s : string) :
  prefix (substring 0 n s) s = true.
Proof.
  revert s. induction n as [|n IH]; intros [|c s]; simpl; try reflexivity.
  destruct (ascii_dec c c) as [_|N]; [apply IH | now elim N].
Qed.

Lemma strOr_truthy (s t : option string) :
  strTruthy t = true -> strTruthy (strOr s t) = true.
Proof. intro H. unfold strOr. now destruct (strTruthy s) eqn:E. Qed.

Lemma strTruthy_some (o : option string) :
  strTruthy o = true -> exists s, o = Some s /\ s <> ""%string.
Proof.
  destruct o as [[|c s]|]; try discriminate. intros _.
  eexists; split; [reflexivity | discriminate].
Qed.

Lemma alertTitle_truthy (p : Alert.Props) : strTruthy (alertTitle p) = true.
Proof. unfold alertTitle. now repeat apply strOr_truthy. Qed.

Lemma alertDescription_truthy (p : Alert.Props) :
  strTruthy (alertDescription p) = true.
Proof. unfold alertDescription. now repeat apply strOr_truthy. Qed.

Lemma truncate_spec (n : nat) (d : string) :
  exists s, truncate n (Some d) = Some s /\
    (String.length s <= n + 3)%nat /\
    ((String.length d <= n)%nat -> s = d) /\
    ((n < String.length d)%nat ->
     exists p, s = (p ++ "...")%string /\ String.length p = n /\
               prefix p d = true).
Proof.
  unfold truncate. destruct (n <? String.length d)%nat eqn:E.
  - apply Nat.ltb_lt in E. eexists; split; [reflexivity|].
    split; [|split].
    + rewrite length_append, length_substring0 by lia. simpl. lia.
    + lia.
    + intros _. eexists; split; [reflexivity|].
      split; [apply length_substring0; lia | apply substring0_prefix].
  - apply Nat.ltb_ge in E. eexists; split; [reflexivity|].
    split; [lia|]. split; [reflexivity | lia].
Qed.

(** X15.  Every entry of the alerts card and of the banner has a
    non-empty title and a non-empty description; the two have the same
    title.  The card's description is the alert's text when that has at
    most 150 characters, and otherwise its first 150 characters followed
    by three dots; the banner's is cut in the same way at 200.  So the
    card never holds more than 153 characters and the banner never more
    than 203. *)
Theorem X15_alert_texts_are_bounded (alert : Alert.t) :
  let full := alertDescription (propertiesOf alert) in
  (exists t, item_title (cardItem alert) = Some t /\ t <> ""%string /\
             item_title (bannerItem alert) = Some t) /\
  (exists d c b,
     full = Some d /\ d <> ""%string /\
     item_description (cardItem alert) = Some c /\
     item_description (bannerItem alert) = Some b /\
     (String.length c <= 153)%nat /\ (String.length b <= 203)%nat /\
     ((String.length d <= 150)%nat -> c = d) /\
     ((150 < String.length d)%nat ->
      exists p, c = (p ++ "...")%string /\ String.length p = 150%nat /\
                prefix p d = true) /\
     ((String.length d <= 200)%nat -> b = d) /\
     ((200 < String.length d)%nat ->
      exists p, b = (p ++ "...")%string /\ String.length p = 200%nat /\
                prefix p d = true)).
Proof.
  cbv zeta. split.
  - destruct (strTruthy_some _ (alertTitle_truthy (propertiesOf alert)))
      as (t & Ht & Hne).
    exists t. unfold cardItem, bannerItem. cbn [item_title]. now rewrite Ht.
  - destruct (strTruthy_some _ (alertDescription_truthy (propertiesOf alert)))
      as (d & Hd & Hne).
    destruct (truncate_spec 150 d) as (c & Hc & Hc1 & Hc2 & Hc3).
    destruct (truncate_spec 200 d) as (b & Hb & Hb1 & Hb2 & Hb3).
    exists d, c, b. unfold cardItem, bannerItem. cbn [item_description].
    rewrite Hd, Hc, Hb. repeat split; assumption.
Qed.

Lemma updateAlertsDisplay_run (app : App) :
  snd (updateAlertsDisplay app)
  = let alerts := alerts (weatherData app) in
    let p := page app in
    set_page
      (mkPage (aqiShown p) (healthTips p) (Some (allAlerts alerts))
         (existsb isSevere alerts)
         (if existsb isSevere alerts
          then map bannerItem (severeAlerts alerts) else alertMessages p)
         (toasts p)) app.
Proof.
  unfold updateAlertsDisplay, bind, getApp, modifyPage, modify.
  cbv zeta. cbn [fst snd].
  destruct (alerts (weatherData app)) as [|a l] eqn:E; [reflexivity|].
  unfold severeAlerts.
  assert (H : existsb isSevere (a :: l) = match filter isSevere (a :: l) with
                                          | [] => false | _ => true end).
  { generalize (a :: l). intro l'. induction l' as [|x l' IH]; [reflexivity|].
    simpl. destruct (isSevere x); [reflexivity | exact IH]. }
  rewrite H. destruct (filter isSevere (a :: l)); reflexivity.
Qed.

(** X16.  [updateAlertsDisplay] puts every alert in the card, in order.
    The banner is visible exactly when some alert is severe, and then
    holds the severe alerts in the order of the list; when none is, the
    banner is hidden and keeps the messages it held before.  Each banner
    message has the title and severity text of a card entry. *)
Theorem X16_banner_holds_severe_alerts_in_order (app : App) :
  let shown := page (snd (updateAlertsDisplay app)) in
  let alerts := alerts (weatherData app) in
  alertsCard shown = Some (map cardItem alerts) /\
  bannerVisible shown = existsb isSevere alerts /\
  (bannerVisible shown = true ->
   alertMessages shown = map bannerItem (filter isSevere alerts)) /\
  (bannerVisible shown = false ->
   alertMessages shown = alertMessages (page app)) /\
  (forall m, bannerVisible shown = true -> In m (alertMessages shown) ->
     exists c, In c (map cardItem alerts) /\
               item_title c = item_title m /\
               item_severity c = item_severity m).
Proof.
  cbv zeta. rewrite updateAlertsDisplay_run. cbv zeta.
  destruct app as [loc data loading ls st pg rd n]. cbn.
  split; [reflexivity|]. split; [reflexivity|].
  destruct (existsb isSevere (alerts data)) eqn:E.
  - split; [reflexivity|]. split; [discriminate|].
    intros m _ Hm. apply in_map_iff in Hm as (a & <- & Ha).
    apply filter_In in Ha as [Ha _].
    exists (cardItem a). split; [now apply in_map|]. now split.
  - split; [discriminate|]. split; [reflexivity|]. discriminate.
Qed.

(* ------------------------------------------------------------------ *)
(** ** C8 and C10: the two views of the alerts *)

Lemma strOr_firstText (a b c : option string) (d : string) :
  d <> ""%string ->
  strOr a (strOr b (strOr c (Some d))) = Some (firstText [a; b; c] d).
Proof.
  intro Hd. destruct d as [|x d]; [now elim Hd|].
  destruct a as [[|? ?]|], b as [[|? ?]|], c as [[|? ?]|]; reflexivity.
Qed.

Lemma truncate_cut (n : nat) (text : string) :
  truncate n (Some text) = Some (cut n text).
Proof.
  unfold truncate, cut.
  destruct (Nat.ltb_spec n (String.length text)) as [H|H];
    destruct (Nat.leb_spec (String.length text) n) as [H'|H'];
    try reflexivity; lia.
Qed.

Lemma cardItem_cardEntry (alert : Alert.t) :
  cardItem alert = cardEntry (viewed alert).
Proof.
  unfold cardItem, cardEntry, viewed, propertiesOf, alertTitle,
    alertDescription, severityText.
  set (p := match Alert.properties alert with
            | Some p => p
            | None => Alert.own alert
            end).
  rewrite !strOr_firstText by discriminate. rewrite truncate_cut.
  now destruct (Alert.severity p) as [[|c s]|].
Qed.

Lemma bannerItem_bannerEntry (alert : Alert.t) :
  bannerItem alert = bannerEntry (viewed alert).
Proof.
  unfold bannerItem, bannerEntry, viewed, propertiesOf, alertTitle,
    alertDescription, severityText.
  set (p := match Alert.properties alert with
            | Some p => p
            | None => Alert.own alert
            end).
  rewrite !strOr_firstText by discriminate. rewrite truncate_cut.
  now destruct (Alert.severity p) as [[|c s]|].
Qed.

Lemma interrupting_classify (s : string) :
  interrupting (classify s)
  = (String.eqb (toLowerCase s) "severe" || String.eqb (toLowerCase s) "extreme"
     || String.eqb (toLowerCase s) "critical").
Proof.
  unfold classify. cbv zeta. generalize (toLowerCase s). intro t.
  destruct (String.eqb_spec t "minor") as [->|_]; [reflexivity|].
  destruct (String.eqb_spec t "moderate") as [->|_]; [reflexivity|].
  destruct (String.eqb_spec t "severe") as [->|_]; [reflexivity|].
  destruct (String.eqb_spec t "extreme") as [->|_]; [reflexivity|].
  destruct (String.eqb_spec t "critical") as [->|_]; reflexivity.
Qed.

Lemma isSevere_nestedSevere (alert : Alert.t) :
  isSevere alert = nestedSevere alert.
Proof.
  unfold isSevere, severityRead, nestedSevere.
  destruct (Alert.properties alert) as [p|]; [|reflexivity].
  destruct (Alert.severity p) as [s|]; [|reflexivity].
  symmetry. apply interrupting_classify.
Qed.

Lemma existsb_same {A} (f g : A -> bool) (l : list A) :
  (forall a, f a = g a) -> existsb f l = existsb g l.
Proof.
  intro H. induction l as [|a l IH]; [reflexivity|].
  cbn [existsb]. now rewrite H, IH.
Qed.

(** What [updateAlertsDisplay] leaves on the page, in the words of the
    specification. *)
Lemma updateAlertsDisplay_views (app : App) :
  let l := alerts (weatherData app) in
  let shown := page (snd (updateAlertsDisplay app)) in
  alertsCard shown = Some (map (fun a => cardEntry (viewed a)) l) /\
  bannerVisible shown = existsb nestedSevere l /\
  (bannerVisible shown = true ->
   alertMessages shown
   = map (fun a => bannerEntry (viewed a)) (filter nestedSevere l)).
Proof.
  cbv zeta. rewrite updateAlertsDisplay_run. cbv zeta.
  cbn [page set_page alertsCard bannerVisible alertMessages].
  unfold allAlerts, severeAlerts.
  rewrite (map_ext _ _ cardItem_cardEntry).
  rewrite (map_ext _ _ bannerItem_bannerEntry).
  rewrite (existsb_same _ _ _ isSevere_nestedSevere).
  rewrite (filter_ext _ _ isSevere_nestedSevere).
  split; [reflexivity|]. split; [reflexivity|].
  now intros ->.
Qed.

(** The flat alert of severity "SEVERE": it is in the full view, with
    its severity, and the severe-only view stays hidden. *)
Example flat_severe_alert :
  let shown :=
    page (snd (updateAlertsDisplay (appWithAlerts [flatAlert "Storm" "SEVERE"]))) in
  alertsCard shown
  = Some [mkAlertItem (Some "Storm")
                      (Some "Check local weather services for details.")
                      (Some "SEVERE") (Some "severity-severe")] /\
  bannerVisible shown = false /\ alertMessages shown = [].
Proof. cbv zeta. repeat split. Qed.



(** C10.  An alert whose severity is not under a nested [properties]
    object (there is none, or it has no severity) has its entry in the
    full view, at its place in the list; the entry is made from the
    alert itself when [properties] is missing, and then shows the
    alert's own severity.  The alert is never among the alerts of the
    severe-only view, whatever severity it holds itself, and a list of
    such alerts only leaves that view hidden. *)
Theorem C10_top_level_severity_never_severe (app : App) (alert : Alert.t)
    (i : nat) :
  nth_error (alerts (weatherData app)) i = Some alert ->
  (Alert.properties alert = None \/
   exists p, Alert.properties alert = Some p /\ Alert.severity p = None) ->
  let l := alerts (weatherData app) in
  let shown := page (snd (updateAlertsDisplay app)) in
  exists card,
    alertsCard shown = Some card /\
    List.length card = List.length l /\
    nth_error card i = Some (cardEntry (viewed alert)) /\
    (Alert.properties alert = None ->
     viewed alert = Alert.own alert /\
     item_severity (cardEntry (viewed alert))
     = severityText (Alert.own alert)) /\
    bannerVisible shown = existsb nestedSevere l /\
    (bannerVisible shown = true ->
     alertMessages shown
     = map (fun a => bannerEntry (viewed a)) (filter nestedSevere l)) /\
    ~ In alert (filter nestedSevere l) /\
    (Forall (fun a => Alert.properties a = None) l ->
     bannerVisible shown = false).
Proof.
  intros Hi Hp. cbv zeta.
  destruct (updateAlertsDisplay_views app) as (Hc & Hb & Hm).
  eexists. split; [exact Hc|]. split; [apply length_map|].
  split; [now rewrite nth_error_map, Hi|].
  split; [|split; [exact Hb|split; [exact Hm|split]]].
  - intro Hn. unfold viewed. rewrite Hn. now split.
  - rewrite filter_In. intros [_ Hs]. unfold nestedSevere in Hs.
    destruct Hp as [Hp | (p & Hp & Hsev)]; rewrite Hp in Hs;
      [|rewrite Hsev in Hs]; discriminate.
  - intro Hall. rewrite Hb. clear - Hall.
    induction Hall as [|a l Ha _ IH]; [reflexivity|].
    cbn [existsb]. rewrite IH. unfold nestedSevere. now rewrite Ha.
Qed.

Lemma C10_top_level_severity_never_severe_witness :
  let l := [nestedAlert "Flood" "Severe"; flatAlert "Storm" "extreme"] in
  let shown := page (snd (updateAlertsDisplay (appWithAlerts l))) in
  exists card,
    alertsCard shown = Some card /\
    nth_error card 1
    = Some (mkAlertItem (Some "Storm")
                        (Some "Check local weather services for details.")
                        (Some "extreme") (Some "severity-extreme")) /\
    alertMessages shown
    = [mkAlertItem (Some "Flood")
                   (Some "Check local weather services for details.")
                   (Some "Severe") None].
Proof.
  cbv zeta.
  destruct (C10_top_level_severity_never_severe
              (appWithAlerts [nestedAlert "Flood" "Severe";
                              flatAlert "Storm" "extreme"])
              (flatAlert "Storm" "extreme") 1)
    as (card & Hc & _ & Hn & _ & _ & Hm & _).
  - reflexivity.
  - left. reflexivity.
  - exists card. split; [exact Hc|]. split; [exact Hn|].
    apply Hm. reflexivity.
Defined.

(* ------------------------------------------------------------------ *)
(** ** The UV index of the ensemble *)

Lemma orNum0_Num (v : jsnum) : orNum0 v = Num (orZero v).
Proof.
  unfold orZero, orNum0. destruct v as [q| | |]; simpl; try reflexivity.
  now destruct (negb (Qc_eqb q 0)).
Qed.

Lemma orZero_Num (q : Qc) : orZero (Num q) = q.
Proof.
  unfold orZero, orNum0, truthy, Qc_eqb.
  destruct (Qc_eq_dec q 0) as [->|]; reflexivity.
Qed.

Lemma normalizeOpenWeatherMapData_uv (d : OWM.Current) (w : Weather) :
  normalizeOpenWeatherMapData d = Returned w -> uvIndex w = Num 0.
Proof.
  unfold normalizeOpenWeatherMapData, obind, prop_of.
  destruct (OWM.main d), (OWM.wind d), (OWM.clouds d), (OWM.weather d) as [l|];
    try discriminate.
  destruct (nth_error l 0); [|discriminate].
  intro H. now injection H as <-.
Qed.

(** The records collected hold, as UV index, Weatherbit's reading in
    Weatherbit's record and zero in the others. *)
Lemma currentWeatherSources_uv (results : Results) (app app' : App)
    (srcs : list Weather) :
  currentWeatherSources results app = (Returned srcs, app') ->
  Forall2 (fun p w => uvIndex w = Num (uvShare results p))
          (suppliers results) srcs.
Proof.
  unfold currentWeatherSources, suppliers. intro H.
  apply bind_returned in H as (s1 & a1 & H1 & H).
  apply bind_returned in H as (s2 & a2 & H2 & H3).
  assert (S1 : Forall2 (fun p w => uvIndex w = Num (uvShare results p))
                 (filter (supplied results) [Primary]) s1).
  { simpl. destruct (owmResult results) as [v|r]; simpl.
    - apply bind_returned in H1 as (w & a & Hw & Hr).
      unfold lift in Hw. injection Hw as Hw <-.
      injection Hr as <- <-.
      constructor; [|constructor].
      now apply normalizeOpenWeatherMapData_uv in Hw.
    - injection H1 as <- <-. constructor. }
  assert (S2 : Forall2 (fun p w => uvIndex w = Num (uvShare results p))
                 (filter (supplied results) [Primary; Secondary]) s2).
  { change [Primary; Secondary] with ([Primary] ++ [Secondary]).
    rewrite filter_app. simpl filter at 2.
    destruct (weatherbitResult results) as [v|r] eqn:Ewb;
      simpl isFulfilled; cbv iota.
    - apply bind_returned in H2 as (w & a & Hw & Hr).
      injection Hr as <- <-.
      apply normalizeWeatherbitData_returned in Hw
        as (data & weather & Hd & _ & -> & _).
      apply Forall2_app; [exact S1|]. constructor; [|constructor].
      unfold uvShare, weatherbitUv. rewrite Ewb, Hd.
      cbn [uvIndex weatherbitRecord]. apply orNum0_Num.
    - injection H2 as <- <-. now rewrite app_nil_r. }
  change [Primary; Secondary; Tertiary] with ([Primary; Secondary] ++ [Tertiary]).
  rewrite filter_app. simpl filter at 2.
  destruct (openMeteoResult results) as [v|r]; simpl isFulfilled; cbv iota.
  - apply bind_returned in H3 as (w & a & Hw & Hr).
    injection Hr as <- <-.
    apply normalizeOpenMeteoData_returned in Hw as (cur & _ & -> & _).
    apply Forall2_app; [exact S2|]. constructor; [reflexivity|constructor].
  - injection H3 as <- <-. now rewrite app_nil_r.
Qed.

Lemma weatherbitUv_rejected (results : Results) :
  supplied results Secondary = false -> weatherbitUv results = 0.
Proof.
  unfold supplied, weatherbitUv.
  now destruct (weatherbitResult results).
Qed.

(** Only Weatherbit's record adds to the sum of the UV indices. *)
Lemma total_uvShare (results : Results) :
  total (map (uvShare results) (suppliers results)) = weatherbitUv results.
Proof.
  unfold suppliers. cbn [filter].
  destruct (supplied results Primary), (supplied results Secondary) eqn:E,
    (supplied results Tertiary); cbn [map total fold_right uvShare];
    try rewrite (weatherbitUv_rejected results E); ring.
Qed.

Lemma this_inv_10 : (this (/ ofZ 10) == 1 # 10)%Q.
Proof. reflexivity. Qed.

Lemma roundHalfUp1_upper (m : Qc) : roundHalfUp1 m <= m + ofDec 1 20.
Proof.
  destruct (roundHalfUp1_nearest m) as (z & Hq & _ & Hhi).
  rewrite Hq. unfold Qcdiv. to_Q. rewrite this_inv_10. lra.
Qed.

Lemma uvTip_fires (weather : Weather) (airQuality : option AQ.Value)
    (tips : list Tip) (u : Qc) :
  healthTipsFor weather airQuality = Returned tips ->
  In (UVTip u) tips -> ofZ 3 <= orZero (uvIndex weather).
Proof.
  intros H Hin. apply healthTipsFor_shape in H as (air & Hair & ->).
  apply Qc_leb_le. unfold otherTips in Hin. cbn [fst snd] in Hin.
  revert Hin.
  destruct (Qc_leb (ofZ 3) (orZero (uvIndex weather))); [reflexivity|].
  intro Hin. exfalso.
  destruct (jsgt (temperature weather) (ofZ 30));
    destruct (jslt (temperature weather) (ofZ 0));
    destruct (jsgt (humidity weather) (ofZ 70));
    destruct (jslt (humidity weather) (ofZ 30));
    destruct (jsgt (windSpeed weather) (ofZ 25));
    destruct Hair as [-> | ->]; cbn [app In] in Hin;
    intuition (try discriminate).
Qed.

(** X17.  Only Weatherbit reports a UV index for the current weather;
    the other two normalizers put 0.  So the UV index of the stored
    reading is 0 when Weatherbit did not answer, and a UV tip is given
    only when Weatherbit answered with an index of at least 2.95 times
    the number of providers that answered, which is 8.85 when all three
    did. *)
Theorem X17_uv_index_is_diluted (results : Results) (app : App) :
  fst (processEnsembleData results app) = Returned tt ->
  (1 <= List.length (suppliers results))%nat ->
  let n := List.length (suppliers results) in
  exists w,
    current (weatherData (snd (processEnsembleData results app))) = Some w /\
    (supplied results Secondary = false -> uvIndex w = Num 0) /\
    (forall airQuality tips u,
       healthTipsFor w airQuality = Returned tips -> In (UVTip u) tips ->
       supplied results Secondary = true /\
       ofDec 295 100 * ofZ (Z.of_nat n) <= weatherbitUv results).
Proof.
  intros Hret Hn. cbv zeta.
  pose proof (processEnsembleData_current results app) as Hcur.
  cbv zeta in Hcur.
  destruct (currentWeatherSources results app) as [[srcs|e] app1] eqn:Hs.
  2:{ rewrite (processEnsembleData_thrown_early _ _ _ _ Hs) in Hret.
      discriminate Hret. }
  pose proof (currentWeatherSources_uv _ _ _ _ Hs) as Huv.
  pose proof (Forall2_length Huv) as Hl.
  assert (Hc : map (contribution UvIndex) srcs
               = map (uvShare results) (suppliers results)).
  { clear - Huv. induction Huv as [|p w ps ws Hw _ IH]; [reflexivity|].
    cbn [map]. rewrite IH. f_equal. now apply contribution_finite. }
  assert (Hw : exists w, createEnsembleWeather srcs = Some w /\
     uvIndex w = Num (if (List.length (suppliers results) <=? 1)%nat
                      then weatherbitUv results
                      else roundHalfUp1
                             (weatherbitUv results /
                              ofZ (Z.of_nat (List.length (suppliers results)))))).
  { destruct srcs as [|a [|b r]].
    - simpl in Hl. lia.
    - exists a. split; [reflexivity|]. rewrite Hl. cbn [List.length Nat.leb].
      rewrite <- total_uvShare, <- Hc. cbn [map total fold_right].
      inversion Huv as [|p w ps ws Ha Hr]; subst.
      rewrite (contribution_finite UvIndex a _ Ha), Ha. f_equal. ring.
    - exists (ensembleOf (a :: b :: r) a). split; [reflexivity|].
      change (uvIndex (ensembleOf (a :: b :: r) a))
        with (field UvIndex (ensembleOf (a :: b :: r) a)).
      rewrite field_ensembleOf_mean, Hl. cbn [List.length Nat.leb].
      unfold mean. now rewrite Hc, total_uvShare, length_map, Hl. }
  destruct Hw as (w & Hw & Hu). exists w.
  split; [now rewrite Hcur|].
  assert (Hzero : supplied results Secondary = false -> uvIndex w = Num 0).
  { intro Hr. rewrite Hu, (weatherbitUv_rejected results Hr).
    destruct (_ <=? 1)%nat; [reflexivity|].
    f_equal. unfold Qcdiv. rewrite Qcmult_0_l. num_eq. }
  split; [exact Hzero|].
  intros aq tips u Ht Hin.
  pose proof (uvTip_fires _ _ _ _ Ht Hin) as H3.
  assert (Hsup : supplied results Secondary = true).
  { destruct (supplied results Secondary) eqn:E; [reflexivity|].
    rewrite (Hzero eq_refl) in H3. exfalso. revert H3. clear.
    intro H. vm_compute in H. now apply H. }
  split; [exact Hsup|].
  rewrite Hu, orZero_Num in H3.
  set (N := ofZ (Z.of_nat (List.length (suppliers results)))) in *.
  assert (HN : 0 < N).
  { unfold N. to_Q. unfold Qlt. simpl. lia. }
  destruct (_ <=? 1)%nat eqn:E.
  - apply Nat.leb_le in E.
    assert (N = 1) as ->.
    { unfold N. replace (List.length (suppliers results)) with 1%nat by lia.
      num_eq. }
    to_Q. lra.
  - pose proof (roundHalfUp1_upper (weatherbitUv results / N)) as Hup.
    assert (Hx : ofDec 295 100 <= weatherbitUv results / N).
    { set (x := weatherbitUv results / N) in *. clearbody x. to_Q. lra. }
    replace (weatherbitUv results) with (weatherbitUv results / N * N)
      by (field; intro Z; rewrite Z in HN; vm_compute in HN; discriminate HN).
    apply Qcmult_le_compat_r; [exact Hx | now apply Qclt_le_weak].
Qed.

Lemma X17_uv_index_is_diluted_witness :
  exists w,
    current (weatherData (snd (processEnsembleData resultsSunny app0))) = Some w /\
    forall airQuality tips u,
      healthTipsFor w airQuality = Returned tips -> In (UVTip u) tips ->
      supplied resultsSunny Secondary = true /\
      ofDec 295 100 * ofZ 3 <= weatherbitUv resultsSunny.
Proof.
  destruct (X17_uv_index_is_diluted resultsSunny app0) as (w & Hw & _ & Ht).
  - vm_compute. reflexivity.
  - vm_compute. lia.
  - exists w. split; [exact Hw|]. exact Ht.
Defined.

(* ------------------------------------------------------------------ *)
(** ** Observations kept in [localStorage] *)

Lemma firstn_app_firstn {A} (n : nat) (a b : list A) :
  firstn n (a ++ firstn n b) = firstn n (a ++ b).
Proof.
  rewrite !firstn_app, firstn_firstn. do 2 f_equal. lia.
Qed.

Lemma last_cons {A} (l : list A) :
  forall x d : A, last (x :: l) d = last l x.
Proof.
  induction l as [|y l IH]; intros x d; [reflexivity|].
  change (last (x :: y :: l) d) with (last (y :: l) d).
  now rewrite !IH.
Qed.

Lemma saveAll_local (stack : nat) (l : list Observation) :
  forall app, useLocalStorage app = true ->
    saveAll (S stack) l app
    = (Returned tt,
       match l with
       | [] => app
       | _ :: _ =>
           set_storedObservations
             (Some (firstn MAX_OBSERVATIONS
                      (rev l ++ getStoredObservations app))) app
       end).
Proof.
  induction l as [|o l IH]; intros app H; [reflexivity|].
  cbn [saveAll]. unfold bind.
  rewrite (saveObservation_local_run stack o app H).
  rewrite IH by exact H. f_equal.
  destruct l as [|o' l]; [reflexivity|].
  unfold getStoredObservations at 1.
  cbn [storedObservations set_storedObservations].
  rewrite firstn_app_firstn.
  change (rev (o :: o' :: l)) with (rev (o' :: l) ++ [o]).
  now rewrite <- app_assoc.
Qed.

(** X18.  With the fallback to [localStorage], saving observations one
    after the other always finishes and leaves the newest first: the
    store holds the saved observations in reverse order of saving,
    followed by those held before, cut to the first 50.  Nothing else of
    the application changes. *)
Theorem X18_store_keeps_newest_fifty (stack : nat) (o : Observation)
    (l : list Observation) (app : App) :
  useLocalStorage app = true ->
  exists app',
    saveAll (S stack) (o :: l) app = (Returned tt, app') /\
    storedObservations app'
    = Some (firstn 50 (rev (o :: l) ++ getStoredObservations app)) /\
    (List.length (getStoredObservations app') <= 50)%nat /\
    nth_error (getStoredObservations app') 0 = Some (last l o) /\
    app' = set_storedObservations (storedObservations app') app.
Proof.
  intro H. rewrite (saveAll_local stack (o :: l) app H).
  eexists. split; [reflexivity|].
  unfold getStoredObservations at 2 3.
  cbn [storedObservations set_storedObservations].
  split; [reflexivity|]. split; [apply firstn_le_length|].
  split; [|reflexivity].
  change MAX_OBSERVATIONS with 50%nat.
  assert (Hr : exists r, rev (o :: l) = last l o :: r).
  { clear. revert o. induction l as [|x l IH]; intro o.
    - now exists [].
    - destruct (IH x) as (r & Hr). exists (r ++ [o]).
      change (rev (o :: x :: l)) with (rev (x :: l) ++ [o]). rewrite Hr.
      now rewrite <- (last_cons l x o). }
  destruct Hr as (r & ->). reflexivity.
Qed.

Lemma X18_store_keeps_newest_fifty_witness :
  exists app',
    saveAll 1 [observationOf 1; observationOf 2] appLocal = (Returned tt, app') /\
    storedObservations app' = Some [observationOf 2; observationOf 1].
Proof.
  destruct (X18_store_keeps_newest_fifty 0 (observationOf 1) [observationOf 2]
              appLocal) as (app' & Hs & Hst & _).
  - reflexivity.
  - exists app'. split; [exact Hs | exact Hst].
Defined.

(* ------------------------------------------------------------------ *)
(** ** The list of observations *)

Lemma mapM_Forall2 {A B} (f : A -> outcome B) :
  forall (l : list A) (r : list B),
    mapM f l = Returned r <-> Forall2 (fun a b => f a = Returned b) l r.
Proof.
  induction l as [|a l IH]; intro r; simpl.
  - split.
    + intro H. injection H as <-. constructor.
    + intro H. inversion H. reflexivity.
  - unfold obind. split.
    + destruct (f a) as [b|e] eqn:Ea; [|discriminate].
      destruct (mapM f l) as [bs|e] eqn:El; [|discriminate].
      intro H. injection H as <-. constructor; [exact Ea|]. now apply IH.
    + intro H. inversion H as [|a' b l' bs Hb Hbs]; subst.
      rewrite Hb. apply IH in Hbs. now rewrite Hbs.
Qed.

Lemma jsRepeat_returned (s : string) (count : Z) (r : string) :
  jsRepeat s count = Returned r <->
  (0 <= count)%Z /\ r = String.concat "" (repeat s (Z.to_nat count)).
Proof.
  unfold jsRepeat. destruct (Z.ltb_spec count 0).
  - split; [discriminate | lia].
  - split.
    + intro E. injection E as <-. now split.
    + now intros [_ ->].
Qed.

Lemma observationItem_returned (obs : Observation) (item : ObservationItem) :
  observationItem obs = Returned item <->
  showable obs /\
  item = mkObservationItem (obs_type obs) (obs_description obs)
           (String.concat "" (repeat filledStar (Z.to_nat (intensity obs))) ++
            String.concat "" (repeat hollowStar (5 - Z.to_nat (intensity obs))))%string.
Proof.
  unfold observationItem, obind, showable.
  destruct (jsRepeat filledStar (intensity obs)) as [filled|e] eqn:Ef.
  - apply jsRepeat_returned in Ef as [Hf ->].
    destruct (jsRepeat hollowStar (5 - intensity obs)) as [hollow|e] eqn:Eh.
    + apply jsRepeat_returned in Eh as [Hh ->].
      replace (Z.to_nat (5 - intensity obs))
        with (5 - Z.to_nat (intensity obs))%nat by lia.
      split.
      * intro E. injection E as <-. split; [lia | reflexivity].
      * now intros [_ ->].
    + split; [discriminate|]. intros [H _]. exfalso.
      assert (Hr : jsRepeat hollowStar (5 - intensity obs)
                   = Returned (String.concat ""
                                 (repeat hollowStar (Z.to_nat (5 - intensity obs)))))
        by (apply jsRepeat_returned; split; [lia | reflexivity]).
      congruence.
  - split; [discriminate|]. intros [H _]. exfalso.
    assert (Hr : jsRepeat filledStar (intensity obs)
                 = Returned (String.concat ""
                               (repeat filledStar (Z.to_nat (intensity obs)))))
      by (apply jsRepeat_returned; split; [lia | reflexivity]).
    congruence.
Qed.

(** X19.  [displayObservations] writes one entry for each of the first
    five observations, in order, with the observation's type and
    description and a row of five marks: the text [filledStar] as many
    times as the intensity says, then [hollowStar] for what is left of
    five, both as the script holds them. *)
Theorem X19_list_shows_first_five (observations : list Observation)
    (items : list ObservationItem) :
  displayObservations observations = Returned items ->
  List.length items = Nat.min 5 (List.length observations) /\
  forall i item, nth_error items i = Some item ->
    exists obs k,
      nth_error observations i = Some obs /\ (i < 5)%nat /\
      (k <= 5)%nat /\ intensity obs = Z.of_nat k /\
      item = mkObservationItem (obs_type obs) (obs_description obs)
               (String.concat "" (repeat filledStar k) ++
                String.concat "" (repeat hollowStar (5 - k)))%string.
Proof.
  unfold displayObservations, slice0. intro H. split.
  - rewrite (mapM_length _ _ _ H). apply length_firstn.
  - intros i item Hi.
    destruct (mapM_nth _ _ _ _ _ H Hi) as (obs & Ho & Hitem).
    apply observationItem_returned in Hitem as [Hs ->].
    exists obs, (Z.to_nat (intensity obs)). unfold showable in Hs.
    rewrite nth_error_firstn in Ho.
    destruct (Nat.ltb_spec i 5) as [Hlt|]; [|discriminate].
    split; [exact Ho|]. split; [exact Hlt|].
    split; [lia|]. split; [lia | reflexivity].
Qed.

Lemma X19_list_shows_first_five_witness :
  List.length
    [mkObservationItem "rain" "Light rain"
       (filledStar ++ filledStar ++ hollowStar ++ hollowStar ++ hollowStar)%string;
     mkObservationItem "rain" "Light rain"
       (filledStar ++ filledStar ++ filledStar ++ filledStar ++ filledStar)%string]
  = Nat.min 5 (List.length [observationOf 2; observationOf 5]).
Proof.
  refine (proj1 (X19_list_shows_first_five
                   [observationOf 2; observationOf 5] _ _)).
  reflexivity.
Defined.

(** X20.  [displayObservations] throws exactly when one of the first
    five observations has an intensity below 0 or above 5 ([repeat]
    refuses a negative count); then [loadObservations] writes nothing.
    What the observations after the fifth hold never matters. *)
Theorem X20_list_fails_on_intensity_out_of_range
    (observations : list Observation) :
  ((exists items, displayObservations observations = Returned items) <->
   Forall showable (firstn 5 observations)) /\
  displayObservations (firstn 5 observations)
  = displayObservations observations /\
  (forall app, getStoredObservations app = observations ->
     (loadObservations app = None <-> ~ Forall showable (firstn 5 observations))).
Proof.
  assert (Hiff : (exists items, displayObservations observations = Returned items)
                 <-> Forall showable (firstn 5 observations)).
  { unfold displayObservations, slice0. split.
    - intros (items & H). apply mapM_Forall2 in H.
      induction H as [|a b l r Hab _ IH]; constructor; [|exact IH].
      now apply observationItem_returned in Hab.
    - intro H. induction H as [|a l Ha _ (items & IH)].
      + now exists [].
      + eexists. apply mapM_Forall2. constructor.
        * apply observationItem_returned. split; [exact Ha | reflexivity].
        * apply mapM_Forall2. exact IH. }
  split; [exact Hiff|]. split.
  - unfold displayObservations, slice0. now rewrite firstn_firstn.
  - intros app <-. unfold loadObservations. rewrite <- Hiff.
    destruct (displayObservations (getStoredObservations app)) as [items|e].
    + split; [discriminate|]. intro H. exfalso. apply H. now exists items.
    + split; [|reflexivity]. intros _ (items & H). discriminate H.
Qed.

(* ------------------------------------------------------------------ *)
(** ** Relative times *)

(** X21.  [formatRelativeTime], by the milliseconds [d] elapsed: "Just
    now" below one minute (also for a time in the future), whole minutes
    from 1 to 59, whole hours from 1 to 23, whole days from 1 to 6, each
    rounded down, and the date from seven days on.  An invalid date
    gives the date text. *)
Theorem X21_relative_time_by_elapsed (now t : Z) :
  let d := (now - t)%Z in
  let shown := formatRelativeTime now (Some t) in
  (shown = JustNow <-> (d < 60000)%Z) /\
  (forall n, shown = MinutesAgo n <->
     (1 <= n < 60 /\ n * 60000 <= d < (n + 1) * 60000)%Z) /\
  (forall n, shown = HoursAgo n <->
     (1 <= n < 24 /\ n * 3600000 <= d < (n + 1) * 3600000)%Z) /\
  (forall n, shown = DaysAgo n <->
     (1 <= n < 7 /\ n * 86400000 <= d < (n + 1) * 86400000)%Z) /\
  (forall time, shown = OnDate time <-> time = Some t /\ (604800000 <= d)%Z) /\
  formatRelativeTime now None = OnDate None.
Proof.
  cbv zeta. unfold formatRelativeTime. cbv zeta.
  set (d := (now - t)%Z). clearbody d.
  pose proof (Z.div_mod d 60000 ltac:(lia)) as E1.
  pose proof (Z.mod_pos_bound d 60000 ltac:(lia)) as B1.
  set (m := (d / 60000)%Z) in *. clearbody m.
  pose proof (Z.div_mod m 60 ltac:(lia)) as E2.
  pose proof (Z.mod_pos_bound m 60 ltac:(lia)) as B2.
  set (h := (m / 60)%Z) in *. clearbody h.
  pose proof (Z.div_mod h 24 ltac:(lia)) as E3.
  pose proof (Z.mod_pos_bound h 24 ltac:(lia)) as B3.
  set (dd := (h / 24)%Z) in *. clearbody dd.
  destruct (Z.ltb_spec m 1);
    [|destruct (Z.ltb_spec m 60);
      [|destruct (Z.ltb_spec h 24); [|destruct (Z.ltb_spec dd 7)]]];
    (split; [|split; [|split; [|split; [|split]]]]);
    try reflexivity;
    try (split; [intro E; first [discriminate E | lia]
                | intro; first [reflexivity | exfalso; lia]]);
    try (intro n; split;
         [intro E; first [discriminate E | injection E as <-; lia]
         | intros [? ?]; first [f_equal; lia | exfalso; lia]]).
  intro time. split.
  - intro E. injection E as <-. split; [reflexivity | lia].
  - now intros [-> _].
Qed.

(* ------------------------------------------------------------------ *)
(** ** Refreshing by hand and by the timer *)

Lemma visibleToast_last (p : Page) (l : list (string * string))
    (t : string * string) :
  toasts p = l ++ [t] -> visibleToast p = Some t.
Proof.
  intro H. unfold visibleToast. rewrite H, map_app. apply last_last.
Qed.

Lemma refreshWeatherData_unfold (results : Results) (app : App) :
  refreshWeatherData results app
  = if isLoading app then (Returned tt, app)
    else (loadWeatherData results ;;;
          showToast "Weather data refreshed" "success") app.
Proof.
  unfold refreshWeatherData, bind at 1, getApp.
  now destruct (isLoading app).
Qed.

(** X22.  [refreshWeatherData] does nothing while a cycle is loading.
    Otherwise it never throws, and the toast left on the page is the
    confirmation "Weather data refreshed", also when the cycle failed:
    the error toast of the cycle is then overwritten. *)
Theorem X22_refresh_confirms_even_after_failure (results : Results)
    (app : App) :
  let result := refreshWeatherData results app in
  (isLoading app = true -> result = (Returned tt, app)) /\
  (isLoading app = false ->
   fst result = Returned tt /\
   visibleToast (page (snd result)) = Some refreshedToast /\
   weatherData (snd result)
   = weatherData (snd (loadWeatherData results app)) /\
   (toasts (page (snd result)) = toasts (page app) ++ [refreshedToast] \/
    toasts (page (snd result))
    = toasts (page app) ++ [loadErrorToast; refreshedToast])).
Proof.
  cbv zeta. rewrite refreshWeatherData_unfold.
  destruct (isLoading app); split; try discriminate; try reflexivity.
  intros _.
  destruct (loadWeatherData_outcome results app) as (Hr & _ & _ & Ht).
  unfold bind.
  destruct (loadWeatherData results app) as [[[]|e] app'];
    cbn [fst snd] in *; [|discriminate Hr].
  unfold showToast, modifyPage, modify. cbn [fst snd page set_page toasts].
  assert (Hts : toasts (page app') ++ [refreshedToast]
                = toasts (page app) ++ [refreshedToast] \/
                toasts (page app') ++ [refreshedToast]
                = toasts (page app) ++ [loadErrorToast; refreshedToast]).
  { destruct Ht as [->| ->]; [now left | right].
    now rewrite <- app_assoc. }
  split; [reflexivity|]. split; [|split; [reflexivity | exact Hts]].
  now apply (visibleToast_last _ (toasts (page app'))).
Qed.

Lemma setupAutoRefresh_kept (AUTO_REFRESH : bool) (t : Timers) :
  timersKept t ->
  timersKept (setupAutoRefresh AUTO_REFRESH t) /\
  if AUTO_REFRESH
  then exists id, intervals (setupAutoRefresh AUTO_REFRESH t) = [id] /\
                  refreshTimer (setupAutoRefresh AUTO_REFRESH t) = Some id
  else intervals (setupAutoRefresh AUTO_REFRESH t) = [].
Proof.
  intros (Hpos & Hrun & Hid). unfold setupAutoRefresh.
  set (t1 := match refreshTimer t with
             | Some id => if Nat.eqb id 0 then t else clearInterval id t
             | None => t
             end).
  assert (H1 : intervals t1 = [] /\ refreshTimer t1 = refreshTimer t /\
               nextId t1 = nextId t).
  { unfold t1. destruct (refreshTimer t) as [id|] eqn:E.
    - destruct (Hid id eq_refl) as [H0 _].
      destruct (Nat.eqb_spec id 0) as [->|_]; [lia|].
      unfold clearInterval. cbn [intervals refreshTimer nextId].
      split; [|now split].
      destruct Hrun as [-> | (id' & -> & Hid')]; [reflexivity|].
      assert (id' = id) as -> by congruence. cbn [remove].
      now destruct (Nat.eq_dec id id).
    - split; [|now split].
      destruct Hrun as [H | (id' & _ & Hid')]; [exact H | congruence]. }
  destruct H1 as (Hi & Hr & Hn). clearbody t1.
  destruct AUTO_REFRESH; unfold timersKept;
    cbn [setInterval intervals refreshTimer nextId].
  - rewrite Hi, Hn. split.
    + split; [lia|]. split; [right; now eexists|].
      intros id E. injection E as <-. lia.
    + now eexists.
  - split; [|exact Hi]. split; [now rewrite Hn|]. split; [now left|].
    rewrite Hr, Hn. exact Hid.
Qed.

Lemma setups_kept (settings : list bool) :
  forall t, timersKept t -> timersKept (setups settings t).
Proof.
  unfold setups. induction settings as [|b l IH]; intros t H; [exact H|].
  cbn [fold_left]. apply IH. now apply setupAutoRefresh_kept.
Qed.

Lemma newTimers_kept : timersKept newTimers.
Proof.
  split; [cbn; lia|]. split; [now left | discriminate].
Qed.

(** X23.  However often [setupAutoRefresh] has run before (once in every
    cycle, and at every change of the setting), after a call exactly one
    refresh interval is running when automatic refresh is on, the one
    held in [refreshTimer], and none when it is off: intervals do not
    pile up. *)
Theorem X23_one_refresh_interval (settings : list bool) (AUTO_REFRESH : bool) :
  let t := setups (settings ++ [AUTO_REFRESH]) newTimers in
  if AUTO_REFRESH
  then exists id, intervals t = [id] /\ refreshTimer t = Some id
  else intervals t = [].
Proof.
  cbv zeta. unfold setups. rewrite fold_left_app. cbn [fold_left].
  apply setupAutoRefresh_kept. apply (setups_kept settings), newTimers_kept.
Qed.

(* ------------------------------------------------------------------ *)
(** ** Saving, then showing *)

(** X24.  With the fallback to [localStorage], an observation that was
    saved is the first entry [loadObservations] writes next, provided
    its intensity and those of the four observations before it are
    between 0 and 5.  An observation with an intensity outside that
    range is saved all the same, and [loadObservations] then writes
    nothing. *)
Theorem X24_saved_observation_is_shown_first (stack : nat) (o : Observation)
    (app : App) :
  useLocalStorage app = true ->
  exists app',
    saveObservation (S stack) o app = (Returned tt, app') /\
    nth_error (getStoredObservations app') 0 = Some o /\
    (showable o -> Forall showable (firstn 4 (getStoredObservations app)) ->
     exists items,
       loadObservations app'
       = Some (mkObservationItem (obs_type o) (obs_description o)
                 (String.concat "" (repeat filledStar (Z.to_nat (intensity o))) ++
                  String.concat "" (repeat hollowStar (5 - Z.to_nat (intensity o))))%string
               :: items)) /\
    (~ showable o -> loadObservations app' = None).
Proof.
  intro H. rewrite (saveObservation_local_run stack o app H).
  eexists. split; [reflexivity|].
  set (app' := set_storedObservations _ app).
  assert (Hst : getStoredObservations app'
                = o :: firstn 49 (getStoredObservations app)) by reflexivity.
  unfold loadObservations, displayObservations, slice0. rewrite Hst.
  change (firstn 5 (o :: firstn 49 (getStoredObservations app)))
    with (o :: firstn 4 (firstn 49 (getStoredObservations app))).
  rewrite firstn_firstn. change (Nat.min 4 49) with 4%nat.
  split; [reflexivity|]. cbn [mapM]. unfold obind. split.
  - intros Ho Hrest.
    assert (Hi : observationItem o
                 = Returned (mkObservationItem (obs_type o) (obs_description o)
                     (String.concat "" (repeat filledStar (Z.to_nat (intensity o))) ++
                      String.concat "" (repeat hollowStar (5 - Z.to_nat (intensity o))))%string))
      by (apply observationItem_returned; now split).
    rewrite Hi.
    assert (Hm : exists items,
               mapM observationItem (firstn 4 (getStoredObservations app))
               = Returned items).
    { induction Hrest as [|a l Ha _ (items & IH)]; [now exists []|].
      eexists. apply mapM_Forall2. constructor.
      - apply observationItem_returned. split; [exact Ha | reflexivity].
      - apply mapM_Forall2. exact IH. }
    destruct Hm as (items & ->). now exists items.
  - intro Hn. destruct (observationItem o) as [item|e] eqn:E; [|reflexivity].
    apply observationItem_returned in E as [Hs _]. now elim Hn.
Qed.

Lemma X24_saved_observation_is_shown_first_witness :
  exists app',
    saveObservation 1 (observationOf 2) appLocal = (Returned tt, app') /\
    nth_error (getStoredObservations app') 0 = Some (observationOf 2).
Proof.
  destruct (X24_saved_observation_is_shown_first 0 (observationOf 2) appLocal)
    as (app' & Hs & Hf & _).
  - reflexivity.
  - exists app'. split; [exact Hs | exact Hf].
Defined.
